(** * web-os: fee ledger, allocation engine and idempotent bulk recorders

    A shallow embedding of the ledger-related code of the school
    administration backend (server routes and storage schemas) and of the
    payment page of its client, with the properties the specification
    states about them, followed by further properties of the same code
    and of the routes around it: the allocation preview, the listings of
    fee heads, structures, payments and attendance, the fee summary of a
    month, sessions, and the deletion of a class.

    Conventions of the embedding.
    - A JavaScript [number] is an IEEE 754 double, the primitive [float]
      (binary64): [+], [-] and the comparisons round and compare as they
      do in JavaScript, with [NaN], the two infinities and the two
      zeros.  A decimal literal stands for the nearest double.
    - A Mongo collection is the list of its documents in insertion order.
    - An [ObjectId] is its hexadecimal string; the ids that
      [new Model(...)] draws are an explicit argument of the route that
      draws them.
    - A route handler is a function from the request and the database to a
      response and the database it leaves behind.
    - Functions of the libraries that the code calls and that are not
      modelled ([new Date], [Number], [Number.prototype.toString],
      [bcrypt], [jwt], [ObjectId.isValid], the [$sum] of an aggregation)
      are variables of the section that uses them. *)

From Stdlib Require Import List String Ascii Bool Arith NArith ZArith Lia.
From Stdlib Require Import Permutation.
From Stdlib Require Import Floats.
From Stdlib Require DecimalString.
Import ListNotations.

Set Implicit Arguments.
Set Warnings "-inexact-float".


(* ================================================================== *)
(** * Numbers *)

Module Num.

Local Open Scope float_scope.

(** [x < y] and [x <= y]; both fail when either side is [NaN]. *)
Definition lt (x y : float) : Prop := (x <? y) = true.
Definition le (x y : float) : Prop := (x <=? y) = true.

(** [Math.min(x, y)]: [NaN] when either argument is, and [-0] below
    [+0]. *)
Definition min (x y : float) : float :=
  if is_nan x || is_nan y then nan
  else if x <? y then x
  else if y <? x then y
  else if get_sign x then x else y.

(** [!x]: the two zeros and [NaN] are falsy. *)
Definition falsy (x : float) : bool := is_nan x || (x =? 0).

(** [x || 0]. *)
Definition orZero (x : float) : float := if falsy x then 0 else x.

(** [l.reduce((s, x) => s + x, 0)]: the sum from the left. *)
Definition sum (l : list float) : float := fold_left add l 0.

(** The order of the doubles, read on a key: the class of the double
    (infinities, finite of either sign, zero), then the exponent, then
    the mantissa.  [NaN] has no key. *)
Definition key (x : float) : option (Z * Z * Z) :=
  match Prim2SF x with
  | S754_nan => None
  | S754_zero _ => Some (0, 0, 0)%Z
  | S754_infinity s => Some (if s then (-2) else 2, 0, 0)%Z
  | S754_finite s m e =>
      Some (if s then (-1, - e, Zneg m) else (1, e, Zpos m))%Z
  end.

Definition lexcmp (a b : Z * Z * Z) : comparison :=
  let '(a1, a2, a3) := a in
  let '(b1, b2, b3) := b in
  match Z.compare a1 b1 with
  | Eq => match Z.compare a2 b2 with
          | Eq => Z.compare a3 b3
          | c => c
          end
  | c => c
  end.

Definition keycmp (x y : float) : option comparison :=
  match key x, key y with
  | Some a, Some b => Some (lexcmp a b)
  | _, _ => None
  end.

(** What [lexcmp] answers, as inequalities. *)
Inductive LexSpec (a b : Z * Z * Z) : comparison -> Prop :=
| LexLt :
    (fst (fst a) < fst (fst b) \/
     (fst (fst a) = fst (fst b) /\
      (snd (fst a) < snd (fst b) \/
       (snd (fst a) = snd (fst b) /\ snd a < snd b))))%Z ->
    LexSpec a b Lt
| LexEq : a = b -> LexSpec a b Eq
| LexGt :
    (fst (fst b) < fst (fst a) \/
     (fst (fst b) = fst (fst a) /\
      (snd (fst b) < snd (fst a) \/
       (snd (fst b) = snd (fst a) /\ snd b < snd a))))%Z ->
    LexSpec a b Gt.

(** A double that is not negative, on its specification. *)
Definition nonneg (s : spec_float) : Prop :=
  SFleb (S754_zero false) s = true.

End Num.

Notation "x < y" := (Num.lt x y) : float_scope.
Notation "x <= y" := (Num.le x y) : float_scope.

(* ================================================================== *)
(** * Allocation engine (client, FeePaymentsPage.tsx) *)

Module Allocation.

Local Open Scope float_scope.

(** [interface LedgerDue]: one row of the ledger's [dues]. *)
Record LedgerDue := mkDue {
  feeHeadId : string;
  name : string;
  due : float;
  paid : float;
  balance : float
}.

(** An element of [items]: [{ feeHeadId; amountPaid }]. *)
Record Item := mkItem {
  itemHead : string;
  amountPaid : float
}.

(** The [for (const due of dues)] loop of [allocatePayment]; [items] and
    [remainingAmount] are the two variables the loop mutates. *)
Fixpoint allocLoop (dues : list LedgerDue) (items : list Item)
    (remainingAmount : float) : list Item * float :=
  match dues with
  | [] => (items, remainingAmount)
  | d :: rest =>
      if remainingAmount <=? 0 then (items, remainingAmount)
      else if 0 <? balance d then
        let amountToPayThisHead := Num.min remainingAmount (balance d) in
        if 0 <? amountToPayThisHead then
          allocLoop rest
            (items ++ [mkItem (feeHeadId d) amountToPayThisHead])
            (remainingAmount - amountToPayThisHead)
        else allocLoop rest items remainingAmount
      else allocLoop rest items remainingAmount
  end.

(** [allocatePayment(amountToAllocate, dues)] returns
    [{ items, remaining }]. *)
Definition allocatePayment (amountToAllocate : float)
    (dues : list LedgerDue) : list Item * float :=
  allocLoop dues [] amountToAllocate.

(** The [console.warn] of [allocatePayment] fires when more than 0.01 is
    left over; it does not change the result. *)
Definition allocationWarns (amountToAllocate : float)
    (dues : list LedgerDue) : bool :=
  0.01 <? snd (allocatePayment amountToAllocate dues).

(** The sum of the items, from the left. *)
Definition itemsTotal (items : list Item) : float :=
  Num.sum (map amountPaid items).

(** The algorithm as the specification words it: walk the dues in the
    order given; a due with a positive balance receives
    [min(remaining, balance)] and [remaining] decreases by it; stop when
    [remaining] is zero or the dues are exhausted. *)
Fixpoint greedy (remaining : float) (dues : list LedgerDue)
    : list Item * float :=
  match dues with
  | [] => ([], remaining)
  | d :: rest =>
      if remaining =? 0 then ([], remaining)
      else if 0 <? balance d then
        let a := Num.min remaining (balance d) in
        let (items, r) := greedy (remaining - a) rest in
        (mkItem (feeHeadId d) a :: items, r)
      else greedy remaining rest
  end.

(** A ledger that arrived as JSON carries finite balances. *)
Definition finiteBalances (dues : list LedgerDue) : Prop :=
  Forall (fun d => is_finite (balance d) = true) dues.

(** Provenance of items: [allocatedFrom dues items] holds when the items
    are produced, in order, by distinct dues of the list, each with a
    positive balance, and no item exceeds the balance of its due. *)
Inductive allocatedFrom : list LedgerDue -> list Item -> Prop :=
| af_done : forall dues, allocatedFrom dues []
| af_skip : forall d dues items,
    allocatedFrom dues items -> allocatedFrom (d :: dues) items
| af_take : forall d dues items a,
    0 < balance d -> 0 < a -> a <= balance d ->
    allocatedFrom dues items ->
    allocatedFrom (d :: dues) (mkItem (feeHeadId d) a :: items).

(** The item that pays a due in full, and the dues that have something
    left to pay. *)
Definition fullItem (d : LedgerDue) : Item :=
  mkItem (feeHeadId d) (balance d).

Definition outstanding (dues : list LedgerDue) : list LedgerDue :=
  filter (fun d => 0 <? balance d) dues.

Definition dueA100 : LedgerDue := mkDue "A" "Tuition Fee" 100 0 100.
Definition dueB50 : LedgerDue := mkDue "B" "Lab Fee" 50 0 50.
Definition dueA50 : LedgerDue := mkDue "A" "Tuition Fee" 50 0 50.
Definition dueC0 : LedgerDue := mkDue "C" "Transport" 30 30 0.
Definition dueDneg : LedgerDue := mkDue "D" "Library" 10 25 (-15).

End Allocation.

(* ================================================================== *)
(** * JavaScript values of a request body *)

Module Js.

Local Open Scope float_scope.

(** The JSON values the routes inspect.  [Undefined] is an absent
    field. *)
Inductive value :=
| Undefined
| Null
| Bool (b : bool)
| Number (q : float)
| Str (s : string).

(** Truthiness: [!v] is [negb (truthy v)]. *)
Definition truthy (v : value) : bool :=
  match v with
  | Undefined | Null => false
  | Bool b => b
  | Number q => negb (Num.falsy q)
  | Str s => negb (String.eqb s "")
  end.

(** [v == null]. *)
Definition isNullish (v : value) : bool :=
  match v with
  | Undefined | Null => true
  | _ => false
  end.

(** [v || d]. *)
Definition orElse (v d : value) : value := if truthy v then v else d.

(** Two values are the same value; two numbers when they are the same
    double. *)
Definition eqb (v w : value) : bool :=
  match v, w with
  | Undefined, Undefined => true
  | Null, Null => true
  | Bool a, Bool b => Bool.eqb a b
  | Number a, Number b => PrimFloat.Leibniz.eqb a b
  | Str a, Str b => String.eqb a b
  | _, _ => false
  end.

(** What [JSON.stringify] makes of a number: [null] unless it is
    finite. *)
Definition ofNumber (x : float) : value :=
  if is_finite x then Number x else Null.

(** A query-string parameter: absent, or a string. [!p] holds of an
    absent and of an empty parameter. *)
Definition present (p : option string) : bool :=
  match p with
  | Some s => negb (String.eqb s "")
  | None => false
  end.

(** A JavaScript [Map] with string keys: the entries in insertion order.
    [set] on a key already present keeps its position. *)
Definition Map (V : Type) := list (string * V).

Fixpoint get {V} (m : Map V) (k : string) : option V :=
  match m with
  | [] => None
  | (k', v) :: m' => if String.eqb k' k then Some v else get m' k
  end.

Fixpoint set {V} (m : Map V) (k : string) (v : V) : Map V :=
  match m with
  | [] => [(k, v)]
  | (k', v') :: m' =>
      if String.eqb k' k then (k', v) :: m' else (k', v') :: set m' k v
  end.

(** [m.get(k) || 0] on a map of numbers. *)
Definition getOrZero (m : Map float) (k : string) : float :=
  match get m k with
  | Some v => Num.orZero v
  | None => 0
  end.

End Js.


(* ================================================================== *)
(** * Storage (server/storage.ts) *)

Module Storage.

(** An [ObjectId], by its hexadecimal string. *)
Definition ObjectId := string.

(** A [Date], by its milliseconds since the epoch. *)
Definition Date := Z.

(** The documents of the collections the ledger and the bulk recorders
    use, with the fields the routes read and write.  [timestamps] and the
    fields no route below sets are left out, and so is the [_id] of a
    document that nothing references. *)
Record School := mkSchool {
  school_id : ObjectId;
  schoolName : string;
  institutionType : string;
  ownerUserId : ObjectId
}.

Record User := mkUser {
  user_id : ObjectId;
  user_schoolId : ObjectId;
  email : string;
  password : string;
  fullName : string;
  role : string;
  refreshToken : option string
}.

Record Class := mkClass {
  class_id : ObjectId;
  class_schoolId : ObjectId;
  className : string;
  section : string
}.

Record Student := mkStudent {
  student_id : ObjectId;
  student_schoolId : ObjectId;
  student_classId : ObjectId;
  studentName : string
}.

Record Attendance := mkAttendance {
  att_schoolId : ObjectId;
  att_studentId : Js.value;
  att_date : Date;
  att_status : Js.value;
  markedBy : ObjectId
}.

(** [isOneTime] is a [Boolean] path that is not required: it holds a
    boolean or, [None], the [null] that a request can store in it. *)
Record FeeHead := mkFeeHead {
  head_id : ObjectId;
  head_schoolId : ObjectId;
  headName : string;
  isOneTime : option bool
}.

Record FeeStructure := mkFeeStructure {
  fs_schoolId : ObjectId;
  fs_classId : ObjectId;
  fs_feeHeadId : ObjectId;
  amount : float;
  fs_monthYear : string
}.

Record PaymentItem := mkPaymentItem {
  pi_feeHeadId : ObjectId;
  pi_amountPaid : float
}.

Record FeePayment := mkFeePayment {
  pay_schoolId : ObjectId;
  pay_studentId : ObjectId;
  pay_classId : ObjectId;
  pay_monthYear : string;
  paymentDate : Date;
  receivedBy : ObjectId;
  items : list PaymentItem;
  totalAmountPaid : float;
  remarks : Js.value
}.

Record Grade := mkGrade {
  grade_schoolId : ObjectId;
  grade_studentId : Js.value;
  grade_examId : Js.value;
  grade_subject : Js.value;
  grade_classId : Js.value;
  totalMarks : Js.value;
  obtainedMarks : Js.value;
  grade_remarks : Js.value
}.

Record Db := mkDb {
  schools : list School;
  users : list User;
  classes : list Class;
  students : list Student;
  attendance : list Attendance;
  feeHeads : list FeeHead;
  feeStructures : list FeeStructure;
  feePayments : list FeePayment;
  grades : list Grade
}.

Definition withSchools (db : Db) (l : list School) : Db :=
  mkDb l (users db) (classes db) (students db) (attendance db)
       (feeHeads db) (feeStructures db) (feePayments db) (grades db).
Definition withUsers (db : Db) (l : list User) : Db :=
  mkDb (schools db) l (classes db) (students db) (attendance db)
       (feeHeads db) (feeStructures db) (feePayments db) (grades db).
Definition withClasses (db : Db) (l : list Class) : Db :=
  mkDb (schools db) (users db) l (students db) (attendance db)
       (feeHeads db) (feeStructures db) (feePayments db) (grades db).
Definition withAttendance (db : Db) (l : list Attendance) : Db :=
  mkDb (schools db) (users db) (classes db) (students db) l
       (feeHeads db) (feeStructures db) (feePayments db) (grades db).
Definition withFeeHeads (db : Db) (l : list FeeHead) : Db :=
  mkDb (schools db) (users db) (classes db) (students db) (attendance db)
       l (feeStructures db) (feePayments db) (grades db).
Definition withFeeStructures (db : Db) (l : list FeeStructure) : Db :=
  mkDb (schools db) (users db) (classes db) (students db) (attendance db)
       (feeHeads db) l (feePayments db) (grades db).
Definition withFeePayments (db : Db) (l : list FeePayment) : Db :=
  mkDb (schools db) (users db) (classes db) (students db) (attendance db)
       (feeHeads db) (feeStructures db) l (grades db).
Definition withGrades (db : Db) (l : list Grade) : Db :=
  mkDb (schools db) (users db) (classes db) (students db) (attendance db)
       (feeHeads db) (feeStructures db) (feePayments db) l.

(** A failed storage call, by what the routes distinguish: the driver's
    [code] (11000 is a duplicate key) and the [message]. *)
Record Error := mkError {
  code : option N;
  message : string
}.

Definition duplicateKey : Error :=
  mkError (Some 11000%N) "E11000 duplicate key".

(** [error.code === 11000]. *)
Definition isDuplicateKey (e : Error) : bool :=
  match code e with
  | Some c => N.eqb c 11000
  | None => false
  end.
Definition castError : Error := mkError None "Cast failed".
(** What a route answers: a status with a payload, or a status with a
    [{ message }]. *)
Inductive Reply (A : Type) :=
| Json (status : nat) (payload : A)
| Message (status : nat) (text : string).
Arguments Json {A} status payload.
Arguments Message {A} status text.

Definition statusOf {A} (r : Reply A) : nat :=
  match r with
  | Json s _ => s
  | Message s _ => s
  end.

(** [UserPayload], the content of a verified token. *)
Record UserPayload := mkPayload {
  userId : ObjectId;
  schoolId : ObjectId;
  payloadRole : string
}.

End Storage.


(* ================================================================== *)
(** * Fee routes (server/routes.ts) *)

Module FeeRoutes.

Import Storage.
Local Open Scope float_scope.
Local Open Scope bool_scope.

(** Mongoose's cast of a received value to the schema type of the path
    it is stored in; [None] is a cast that throws, or a required path
    left without a value.  To [ObjectId]: *)
Definition castId (v : Js.value) : option ObjectId :=
  match v with
  | Js.Str s => if String.eqb s "" then None else Some s
  | _ => None
  end.

(** [updateOne]/[findOneAndUpdate] with [upsert: true]: the first
    document that matches the filter is updated in place; when none
    matches, [fresh] is inserted. *)
Fixpoint upsert {A} (matches : A -> bool) (update : A -> A) (fresh : A)
    (rows : list A) : list A :=
  match rows with
  | [] => [fresh]
  | r :: rest =>
      if matches r then update r :: rest
      else r :: upsert matches update fresh rest
  end.

(** An upsert whose [$set] writes every field that the filter does not
    fix: the matching document is replaced by [a], the document that a
    miss inserts.  [same a] is the filter. *)
Definition put {A} (same : A -> A -> bool) (a : A) (rows : list A)
    : list A :=
  upsert (same a) (fun _ => a) a rows.

(** A batch of such upserts, in order. *)
Definition putAll {A} (same : A -> A -> bool) (batch rows : list A)
    : list A :=
  fold_left (fun rows a => put same a rows) batch rows.

(** What a batch makes of one document: each write that matches it
    replaces it. *)
Definition stamp {A} (same : A -> A -> bool) (a r : A) : A :=
  if same a r then a else r.

Definition final {A} (same : A -> A -> bool) (batch : list A) (r : A) : A :=
  fold_left (fun r a => stamp same a r) batch r.

Definition bind {A B} (x : option A) (f : A -> option B) : option B :=
  match x with
  | Some a => f a
  | None => None
  end.

Notation "x <- e ;; k" := (bind e (fun x => k))
  (at level 61, e at next level, right associativity).

Section Casts.

(** [new Date(v)] for a value of a request, as Mongoose casts it;
    [None] is an invalid date. *)
Variable toDate : Js.value -> option Date.

(** [Number.prototype.toString] and [Number(s)]. *)
Variable numberToString : float -> string.
Variable stringToNumber : string -> float.

(** To [String]: a number and a boolean are written out. *)
Definition castString (v : Js.value) : option string :=
  match v with
  | Js.Str s => Some s
  | Js.Number n => Some (numberToString n)
  | Js.Bool b => Some (if b then "true" else "false")%string
  | Js.Undefined | Js.Null => None
  end.

(** To [Number]: a string is read as a number, the empty string as
    [null], a boolean as 1 or 0; [NaN] fails the cast. *)
Definition castNumber (v : Js.value) : option float :=
  match v with
  | Js.Number n => if is_nan n then None else Some n
  | Js.Str s =>
      if String.eqb s "" then None
      else
        let n := stringToNumber s in
        if is_nan n then None else Some n
  | Js.Bool b => Some (if b then 1 else 0)
  | Js.Undefined | Js.Null => None
  end.

(** To [String], of a path that is not required. *)
Definition castOptionalString (v : Js.value) : Js.value :=
  match castString v with
  | Some s => Js.Str s
  | None => v
  end.

(** ** POST /fees/structures *)

Record StructureBody := mkStructureBody {
  sb_classId : Js.value;
  sb_feeHeadId : Js.value;
  sb_amount : Js.value;
  sb_monthYear : Js.value
}.

(** The filter of the upsert: the compound key of the unique index. *)
Definition structureKeyIs (s c h : ObjectId) (m : string)
    (r : FeeStructure) : bool :=
  String.eqb (fs_schoolId r) s && String.eqb (fs_classId r) c &&
  String.eqb (fs_feeHeadId r) h && String.eqb (fs_monthYear r) m.

(** [FeeStructure.findOneAndUpdate(filter, { $set }, { new: true,
    upsert: true })]: the [$set] writes every field, so the updated and
    the inserted document are the same. *)
Definition findOneAndUpdateStructure (s c h : ObjectId) (m : string)
    (a : float) (rows : list FeeStructure) : FeeStructure * list FeeStructure :=
  let doc := mkFeeStructure s c h a m in
  (doc, upsert (structureKeyIs s c h m) (fun _ => doc) doc rows).

(** The casts of the filter and of the [$set] are those of the schema;
    that of [amount], a number, fails on [NaN] alone. *)
Definition setFeeStructure (user : UserPayload) (body : StructureBody)
    (db : Db) : Reply FeeStructure * Db :=
  if negb (Js.truthy (sb_classId body)) || negb (Js.truthy (sb_feeHeadId body))
     || Js.isNullish (sb_amount body) || negb (Js.truthy (sb_monthYear body))
  then (Message 400 "Class, Fee Head, Amount, and MonthYear are required.", db)
  else
    match sb_amount body with
    | Js.Number amount =>
        if amount <? 0 then
          (Message 400 "Amount must be a non-negative number.", db)
        else
          match castId (sb_classId body), castId (sb_feeHeadId body),
                castString (sb_monthYear body) with
          | Some c, Some h, Some m =>
              if is_nan amount then
                (Message 500 "Server error setting fee structure.", db)
              else
                let (doc, rows) :=
                  findOneAndUpdateStructure (schoolId user) c h m amount
                    (feeStructures db) in
                (Json 200 doc, withFeeStructures db rows)
          | _, _, _ =>
              (Message 500 "Server error setting fee structure.", db)
          end
    | _ => (Message 400 "Amount must be a non-negative number.", db)
    end.

(** The unique index of [FeeStructureSchema]: no two documents share
    [(schoolId, classId, feeHeadId, monthYear)]. *)
Definition structureKey (r : FeeStructure)
    : ObjectId * ObjectId * ObjectId * string :=
  (fs_schoolId r, fs_classId r, fs_feeHeadId r, fs_monthYear r).

Definition structuresUnique (db : Db) : Prop :=
  NoDup (map structureKey (feeStructures db)).

(** The filter of the upsert that writes [a]. *)
Definition sameStructure (a r : FeeStructure) : bool :=
  structureKeyIs (fs_schoolId a) (fs_classId a) (fs_feeHeadId a)
    (fs_monthYear a) r.

(** Number of documents under a key. *)
Definition countStructures (s c h : ObjectId) (m : string) (db : Db) : nat :=
  List.length (filter (structureKeyIs s c h m) (feeStructures db)).

(** ** POST /fees/payments *)

Record PaymentBody := mkPaymentBody {
  pb_studentId : Js.value;
  pb_classId : Js.value;
  pb_monthYear : Js.value;
  pb_totalAmountPaid : Js.value;
  pb_items : option (list (Js.value * Js.value));
  pb_remarks : Js.value;
  pb_paymentDate : Js.value
}.

(** Cast of one element of [items]: both fields are required. *)
Definition castItem (it : Js.value * Js.value) : option PaymentItem :=
  h <- castId (fst it) ;;
  a <- castNumber (snd it) ;;
  Some (mkPaymentItem h a).

Fixpoint castItems (l : list (Js.value * Js.value))
    : option (list PaymentItem) :=
  match l with
  | [] => Some []
  | it :: rest =>
      i <- castItem it ;;
      others <- castItems rest ;;
      Some (i :: others)
  end.

(** [new FeePayment({...})] followed by the casts and validators that
    [save()] runs: [totalAmountPaid] has [min: 1]. *)
Definition newFeePayment (user : UserPayload) (now : Date)
    (body : PaymentBody) : option FeePayment :=
  s <- castId (pb_studentId body) ;;
  c <- castId (pb_classId body) ;;
  m <- castString (pb_monthYear body) ;;
  t <- castNumber (pb_totalAmountPaid body) ;;
  its <- bind (pb_items body) castItems ;;
  d <- (if Js.truthy (pb_paymentDate body) then toDate (pb_paymentDate body)
        else Some now) ;;
  if 1 <=? t
  then Some (mkFeePayment (schoolId user) s c m d (userId user) its t
               (castOptionalString (pb_remarks body)))
  else None.

Definition itemsMissing (items : option (list (Js.value * Js.value)))
    : bool :=
  match items with
  | None | Some [] => true
  | Some (_ :: _) => false
  end.

Definition recordPayment (user : UserPayload) (now : Date)
    (body : PaymentBody) (db : Db) : Reply FeePayment * Db :=
  if negb (Js.truthy (pb_studentId body)) || negb (Js.truthy (pb_classId body))
     || negb (Js.truthy (pb_monthYear body))
     || negb (Js.truthy (pb_totalAmountPaid body))
     || itemsMissing (pb_items body)
  then (Message 400 "Missing required payment fields.", db)
  else
    match newFeePayment user now body with
    | Some newPayment =>
        (Json 201 newPayment,
         withFeePayments db (feePayments db ++ [newPayment]))
    | None => (Message 500 "Server error recording payment.", db)
    end.

End Casts.

(** ** GET /reports/student-ledger *)

(** [populate("feeHeadId", "name")]: the referenced head, or [null] when
    no such head exists. *)
Definition findHeadById (db : Db) (id : ObjectId) : option FeeHead :=
  find (fun h => String.eqb (head_id h) id) (feeHeads db).

Record PopulatedDue := mkPopulatedDue {
  due_doc : FeeStructure;
  due_feeHead : option FeeHead
}.

Record PopulatedPayment := mkPopulatedPayment {
  pay_doc : FeePayment;
  pay_items : list (option FeeHead * float)
}.

Definition populateDue (db : Db) (r : FeeStructure) : PopulatedDue :=
  mkPopulatedDue r (findHeadById db (fs_feeHeadId r)).

Definition populatePayment (db : Db) (p : FeePayment) : PopulatedPayment :=
  mkPopulatedPayment p
    (map (fun it => (findHeadById db (pi_feeHeadId it), pi_amountPaid it))
         (items p)).

(** [.sort({ paymentDate: -1 })]: latest first, ties in stored order. *)
Fixpoint insertByDate (p : PopulatedPayment) (l : list PopulatedPayment)
    : list PopulatedPayment :=
  match l with
  | [] => [p]
  | q :: rest =>
      if Z.ltb (paymentDate (pay_doc p)) (paymentDate (pay_doc q))
      then q :: insertByDate p rest
      else p :: l
  end.

Definition sortByDateDesc (l : list PopulatedPayment)
    : list PopulatedPayment :=
  fold_right insertByDate [] l.

(** [Student.findOne({ _id: studentId, schoolId })]. *)
Definition findStudent (db : Db) (studentId s : ObjectId) : option Student :=
  find (fun st => String.eqb (student_id st) studentId &&
                  String.eqb (student_schoolId st) s) (students db).

(** [FeeStructure.find({ schoolId, classId, monthYear })]. *)
Definition findStructures (db : Db) (s c : ObjectId) (m : string)
    : list FeeStructure :=
  filter (fun r => String.eqb (fs_schoolId r) s && String.eqb (fs_classId r) c
                   && String.eqb (fs_monthYear r) m) (feeStructures db).

(** [FeePayment.find({ schoolId, studentId, monthYear })]. *)
Definition findPayments (db : Db) (s studentId : ObjectId) (m : string)
    : list FeePayment :=
  filter (fun p => String.eqb (pay_schoolId p) s &&
                   String.eqb (pay_studentId p) studentId &&
                   String.eqb (pay_monthYear p) m) (feePayments db).

(** The loop over [dues]: a due whose head did not populate is skipped. *)
Fixpoint dueLoop (dues : list PopulatedDue) (totalDue : float)
    (dueMap : Js.Map (string * float)) : float * Js.Map (string * float) :=
  match dues with
  | [] => (totalDue, dueMap)
  | d :: rest =>
      match due_feeHead d with
      | Some head =>
          dueLoop rest (totalDue + amount (due_doc d))
            (Js.set dueMap (head_id head)
               (headName head, amount (due_doc d)))
      | None => dueLoop rest totalDue dueMap
      end
  end.

(** The loop over the items of one payment.  An item whose head did not
    populate holds [null]; [item.feeHeadId.toString()] then throws. *)
Fixpoint itemLoop (its : list (option FeeHead * float))
    (paidMap : Js.Map float) : option (Js.Map float) :=
  match its with
  | [] => Some paidMap
  | (Some head, amountPaid) :: rest =>
      let headId := head_id head in
      itemLoop rest
        (Js.set paidMap headId (Js.getOrZero paidMap headId + amountPaid))
  | (None, _) :: _ => None
  end.

(** The loop over [payments]. *)
Fixpoint paymentLoop (payments : list PopulatedPayment) (totalPaid : float)
    (paidMap : Js.Map float) : option (float * Js.Map float) :=
  match payments with
  | [] => Some (totalPaid, paidMap)
  | p :: rest =>
      paidMap' <- itemLoop (pay_items p) paidMap ;;
      paymentLoop rest (totalPaid + totalAmountPaid (pay_doc p)) paidMap'
  end.

Record Summary := mkSummary {
  totalDue : float;
  totalPaid : float;
  summaryBalance : float
}.

(** The payload of the route; the client reads it as [StudentLedger]. *)
Record StudentLedger := mkLedger {
  ledgerDues : list Allocation.LedgerDue;
  ledgerPayments : list PopulatedPayment;
  summary : Summary
}.

Definition balanceDetails (dueMap : Js.Map (string * float))
    (paidMap : Js.Map float) : list Allocation.LedgerDue :=
  map (fun entry =>
         let '(feeHeadId, (name, dueAmount)) := entry in
         let paid := Js.getOrZero paidMap feeHeadId in
         Allocation.mkDue feeHeadId name dueAmount paid (dueAmount - paid))
      dueMap.

Definition getStudentLedger (user : UserPayload)
    (studentId monthYear : option string) (db : Db) : Reply StudentLedger :=
  match studentId, monthYear with
  | Some sid, Some my =>
      if negb (Js.present studentId) || negb (Js.present monthYear) then
        Message 400 "studentId and monthYear are required."
      else
        match findStudent db sid (schoolId user) with
        | None => Message 404 "Student not found."
        | Some student =>
            let dues :=
              map (populateDue db)
                (findStructures db (schoolId user) (student_classId student)
                   my) in
            let payments :=
              sortByDateDesc
                (map (populatePayment db)
                   (findPayments db (schoolId user) sid my)) in
            let (totalDue, dueMap) := dueLoop dues 0 [] in
            match paymentLoop payments 0 [] with
            | Some (totalPaid, paidMap) =>
                Json 200
                  (mkLedger (balanceDetails dueMap paidMap) payments
                     (mkSummary totalDue totalPaid (totalDue - totalPaid)))
            | None => Message 500 "Server error fetching ledger."
            end
        end
  | _, _ => Message 400 "studentId and monthYear are required."
  end.

(** ** The ledger as the specification defines it *)

(** The items that name a head, over the payments in the order given. *)
Definition itemsOf (h : ObjectId) (payments : list FeePayment)
    : list PaymentItem :=
  filter (fun it => String.eqb (pi_feeHeadId it) h) (flat_map items payments).

(** One more item for a head: [(paid || 0) + amountPaid]. *)
Definition credited (paid a : float) : float := Num.orZero paid + a.

(** Amount paid to a head: the [amountPaid] of the items that name it,
    added from the left; [paid] defaults to 0, and so does a sum that is
    zero or [NaN] on the way. *)
Definition paidTo (h : ObjectId) (payments : list FeePayment) : float :=
  Num.orZero
    (fold_left credited (map pi_amountPaid (itemsOf h payments)) 0).

(** One row per fee head that has a structure for the class and month. *)
Definition ledgerRow (payments : list FeePayment) (d : PopulatedDue)
    : list Allocation.LedgerDue :=
  match due_feeHead d with
  | Some head =>
      let paid := paidTo (head_id head) payments in
      [Allocation.mkDue (head_id head) (headName head) (amount (due_doc d))
         paid (amount (due_doc d) - paid)]
  | None => []
  end.

(** The amounts due: those of the structures whose head exists. *)
Definition dueAmounts (dues : list PopulatedDue) : list float :=
  flat_map (fun d =>
              match due_feeHead d with
              | Some _ => [amount (due_doc d)]
              | None => []
              end) dues.

(** The sums are taken from the left, the dues in stored order and the
    payments latest first. *)
Definition ledgerSpec (db : Db) (s c studentId : ObjectId) (m : string)
    : StudentLedger :=
  let dues := map (populateDue db) (findStructures db s c m) in
  let payments :=
    sortByDateDesc (map (populatePayment db) (findPayments db s studentId m)) in
  let totalDue := Num.sum (dueAmounts dues) in
  let totalPaid := Num.sum (map totalAmountPaid (map pay_doc payments)) in
  mkLedger (flat_map (ledgerRow (map pay_doc payments)) dues) payments
    (mkSummary totalDue totalPaid (totalDue - totalPaid)).

(** Every item of the student's payments of the month names a head that
    exists. *)
Definition itemsPopulate (db : Db) (s studentId : ObjectId) (m : string)
    : Prop :=
  Forall (fun p => Forall (fun it => findHeadById db (pi_feeHeadId it) <> None)
                     (items p))
    (findPayments db s studentId m).

(** A populated payment of the database, all of whose items name a head
    that exists. *)
Definition populatedFrom (db : Db) (pp : PopulatedPayment) : Prop :=
  pp = populatePayment db (pay_doc pp) /\
  Forall (fun it => findHeadById db (pi_feeHeadId it) <> None)
    (items (pay_doc pp)).

(** The entries that the loop over [dues] puts in [dueMap]. *)
Definition dueEntries (dues : list PopulatedDue)
    : Js.Map (string * float) :=
  flat_map (fun d =>
              match due_feeHead d with
              | Some head =>
                  [(head_id head, (headName head, amount (due_doc d)))]
              | None => []
              end) dues.

(** What a [Map] holds for a key, 0 when it holds nothing. *)
Definition held (m : Js.Map float) (k : string) : float :=
  match Js.get m k with
  | Some v => v
  | None => 0
  end.

End FeeRoutes.

(* ================================================================== *)
(** * Payment form (client, FeePaymentsPage.tsx) *)

Module PaymentPage.

Import Allocation.
Local Open Scope float_scope.
Local Open Scope bool_scope.

(** [interface Student] of the page: [classId] is the populated class,
    when the student has one. *)
Record Student := mkStudent {
  student_id : string;
  fullName : string;
  classId : option string
}.

(** [PaymentFormData], after the form's schema accepted it. *)
Record PaymentFormData := mkFormData {
  formAmount : float;
  formPaymentDate : string;
  formRemarks : string
}.

(** The body that [onSubmit] posts to [/api/fees/payments]. *)
Record Payload := mkPayload {
  p_studentId : string;
  p_classId : string;
  p_monthYear : string;
  p_totalAmountPaid : float;
  p_items : list Item;
  p_remarks : string;
  p_paymentDate : string
}.

(** How [onSubmit] ends: with an error shown by the form, an error set on
    the amount field, no token, or the request. *)
Inductive Submit :=
| FormError (text : string)
| AmountError (text : string)
| NotAuthenticated
| Post (payload : Payload).

(** [student?.classId?._id]; an empty id is falsy. *)
Definition classOf (student : option Student) : option string :=
  match student with
  | Some st =>
      match classId st with
      | Some c => if String.eqb c "" then None else Some c
      | None => None
      end
  | None => None
  end.

Section Page.

(** [new Date(s).toISOString()]. *)
Variable toISOString : string -> string.

Definition onSubmit (ledger : option FeeRoutes.StudentLedger)
    (selectedStudentId selectedMonth : string) (token : option string)
    (students : list Student) (data : PaymentFormData) : Submit :=
  match ledger with
  | None => FormError "Please select a student and month first."
  | Some ledger =>
      if String.eqb selectedStudentId "" || String.eqb selectedMonth "" then
        FormError "Please select a student and month first."
      else if FeeRoutes.summaryBalance (FeeRoutes.summary ledger) + 0.01
                <? formAmount data then
        AmountError "Payment cannot exceed balance."
      else if formAmount data <? 0.01 then
        AmountError "Payment amount must be positive."
      else
        let items :=
          fst (allocatePayment (formAmount data)
                 (FeeRoutes.ledgerDues ledger)) in
        match items with
        | [] => FormError "Could not allocate payment (check balance/dues)."
        | _ :: _ =>
            match token with
            | None => NotAuthenticated
            | Some _ =>
                match
                  classOf
                    (find (fun st => String.eqb (student_id st)
                                       selectedStudentId) students)
                with
                | None =>
                    FormError
                      "Could not determine student's class. Please refresh."
                | Some c =>
                    Post (mkPayload selectedStudentId c selectedMonth
                            (formAmount data) items (formRemarks data)
                            (toISOString (formPaymentDate data)))
                end
            end
        end
  end.

End Page.

(** [JSON.stringify(payload)] as the server reads it: a number that is
    not finite arrives as [null]. *)
Definition bodyOf (payload : Payload) : FeeRoutes.PaymentBody :=
  FeeRoutes.mkPaymentBody
    (Js.Str (p_studentId payload)) (Js.Str (p_classId payload))
    (Js.Str (p_monthYear payload)) (Js.ofNumber (p_totalAmountPaid payload))
    (Some (map (fun it => (Js.Str (itemHead it), Js.ofNumber (amountPaid it)))
             (p_items payload)))
    (Js.Str (p_remarks payload)) (Js.Str (p_paymentDate payload)).

End PaymentPage.


(* ================================================================== *)
(** * Bulk recorders (server/routes.ts) *)

Module BulkRoutes.

Import Storage.
Local Open Scope bool_scope.

(** A computation that may [throw]. *)
Inductive Result (A : Type) :=
| Ok (a : A)
| Thrown (e : Error).
Arguments Ok {A} a.
Arguments Thrown {A} e.

(** [array.map(f)] where [f] may throw: the first throw ends the map. *)
Fixpoint mapThrow {A B} (f : A -> Result B) (l : list A)
    : Result (list B) :=
  match l with
  | [] => Ok []
  | x :: rest =>
      match f x with
      | Thrown e => Thrown e
      | Ok y =>
          match mapThrow f rest with
          | Thrown e => Thrown e
          | Ok ys => Ok (y :: ys)
          end
      end
  end.

(** [s.includes(sub)]. *)
Fixpoint includes (s sub : string) : bool :=
  String.prefix sub s ||
  match s with
  | EmptyString => false
  | String _ s' => includes s' sub
  end.

(** What [bulkWrite] reports of its [updateOne] operations. *)
Record BulkWriteResult := mkBulkResult {
  matchedCount : nat;
  upsertedCount : nat
}.

(** One more operation matched a document, or inserted one. *)
Definition tally (hit : bool) (result : BulkWriteResult) : BulkWriteResult :=
  if hit
  then mkBulkResult (S (matchedCount result)) (upsertedCount result)
  else mkBulkResult (matchedCount result) (S (upsertedCount result)).

(** ** POST /attendance *)

Record AttendanceRecord := mkAttendanceRecord {
  ar_studentId : Js.value;
  ar_date : Js.value;
  ar_status : Js.value
}.

(** One [updateOne] of the batch: the filter
    [{ schoolId, studentId, date }] and the [$set]
    [{ status, schoolId, studentId, markedBy }].  [op_date] is [None]
    for an invalid date. *)
Record AttendanceOp := mkAttendanceOp {
  op_schoolId : ObjectId;
  op_studentId : Js.value;
  op_date : option Date;
  op_status : Js.value;
  op_markedBy : ObjectId
}.

(** [date.setUTCHours(0, 0, 0, 0)]. *)
Definition utcMidnight (t : Date) : Date := (t - t mod 86400000)%Z.

Definition attendanceRequired : Error :=
  mkError None "Each record must include studentId, date, and status.".

Section Attendance.

(** [new Date(v)]; [None] is an invalid date. *)
Variable toDate : Js.value -> option Date.

(** The function mapped over the batch. *)
Definition attendanceOperation (user : UserPayload)
    (record : AttendanceRecord) : Result AttendanceOp :=
  if negb (Js.truthy (ar_studentId record)) || negb (Js.truthy (ar_date record))
     || negb (Js.truthy (ar_status record))
  then Thrown attendanceRequired
  else
    let attendanceDate := option_map utcMidnight (toDate (ar_date record)) in
    Ok (mkAttendanceOp (schoolId user) (ar_studentId record) attendanceDate
          (ar_status record) (userId user)).

Definition attendanceMatches (s : ObjectId) (st : Js.value) (d : Date)
    (r : Attendance) : bool :=
  String.eqb (att_schoolId r) s && Js.eqb (att_studentId r) st &&
  Z.eqb (att_date r) d.

(** One [updateOne] with [upsert: true]. *)
Definition applyAttendance (s : ObjectId) (st : Js.value) (d : Date)
    (status : Js.value) (by_ : ObjectId) (rows : list Attendance)
    : list Attendance :=
  FeeRoutes.upsert (attendanceMatches s st d)
    (fun r => mkAttendance s st (att_date r) status by_)
    (mkAttendance s st d status by_) rows.

(** An operation after Mongoose's cast: its date is a valid one. *)
Record AttendanceWrite := mkAttendanceWrite {
  w_schoolId : ObjectId;
  w_studentId : Js.value;
  w_date : Date;
  w_status : Js.value;
  w_markedBy : ObjectId
}.

Definition castAttendanceOp (op : AttendanceOp) : Result AttendanceWrite :=
  match op_date op with
  | Some d =>
      Ok (mkAttendanceWrite (op_schoolId op) (op_studentId op) d
            (op_status op) (op_markedBy op))
  | None => Thrown castError
  end.

Definition writeMatches (w : AttendanceWrite) : Attendance -> bool :=
  attendanceMatches (w_schoolId w) (w_studentId w) (w_date w).

Definition applyWrite (w : AttendanceWrite) (rows : list Attendance)
    : list Attendance :=
  applyAttendance (w_schoolId w) (w_studentId w) (w_date w) (w_status w)
    (w_markedBy w) rows.

(** The writes in order, counting those that matched a document and
    those that inserted one. *)
Fixpoint applyWrites (ws : list AttendanceWrite) (result : BulkWriteResult)
    (rows : list Attendance) : BulkWriteResult * list Attendance :=
  match ws with
  | [] => (result, rows)
  | w :: rest =>
      applyWrites rest (tally (existsb (writeMatches w) rows) result)
        (applyWrite w rows)
  end.

(** [Attendance.bulkWrite(operations)]: Mongoose casts every operation
    before it sends any; an invalid date fails the cast. *)
Definition attendanceBulkWrite (ops : list AttendanceOp)
    (rows : list Attendance) : Result (BulkWriteResult * list Attendance) :=
  match mapThrow castAttendanceOp ops with
  | Ok ws => Ok (applyWrites ws (mkBulkResult 0 0) rows)
  | Thrown e => Thrown e
  end.

(** The route; [None] is a body that is not an array. *)
Definition postAttendance (user : UserPayload)
    (body : option (list AttendanceRecord)) (db : Db)
    : Reply BulkWriteResult * Db :=
  match body with
  | None | Some [] =>
      (Message 400 "Attendance data must be a non-empty array.", db)
  | Some attendanceDataArray =>
      match mapThrow (attendanceOperation user) attendanceDataArray with
      | Thrown _ => (Message 500 "Server error recording attendance.", db)
      | Ok operations =>
          match attendanceBulkWrite operations (attendance db) with
          | Thrown _ =>
              (Message 500 "Server error recording attendance.", db)
          | Ok (result, rows) => (Json 200 result, withAttendance db rows)
          end
      end
  end.

End Attendance.

(** A record that passes the check of the route and carries a valid
    date, and the write the route makes of it. *)
Definition validRecord (toDate : Js.value -> option Date)
    (r : AttendanceRecord) : bool :=
  Js.truthy (ar_studentId r) && Js.truthy (ar_date r) &&
  Js.truthy (ar_status r) &&
  match toDate (ar_date r) with Some _ => true | None => false end.

Definition dayOf (toDate : Js.value -> option Date) (r : AttendanceRecord)
    : Date :=
  match toDate (ar_date r) with
  | Some t => utcMidnight t
  | None => 0%Z
  end.

Definition writeOf (toDate : Js.value -> option Date) (user : UserPayload)
    (r : AttendanceRecord) : AttendanceWrite :=
  mkAttendanceWrite (schoolId user) (ar_studentId r) (dayOf toDate r)
    (ar_status r) (userId user).

(** The document a write leaves under its key: the one it inserts, and
    the one it makes of the document it matches. *)
Definition rowOf (w : AttendanceWrite) : Attendance :=
  mkAttendance (w_schoolId w) (w_studentId w) (w_date w) (w_status w)
    (w_markedBy w).

(** The filter of the write that leaves [a]. *)
Definition sameAttendance (a r : Attendance) : bool :=
  attendanceMatches (att_schoolId a) (att_studentId a) (att_date a) r.

(** The natural key of an attendance document, the key of the unique
    index of [AttendanceSchema]. *)
Definition attendanceKey (r : Attendance) : ObjectId * Js.value * Date :=
  (att_schoolId r, att_studentId r, att_date r).

Definition attendanceUnique (db : Db) : Prop :=
  NoDup (map attendanceKey (attendance db)).


(** ** POST /grades/bulk *)

Record GradeRecord := mkGradeRecord {
  gr_studentId : Js.value;
  gr_classId : Js.value;
  gr_examId : Js.value;
  gr_subject : Js.value;
  gr_obtainedMarks : Js.value;
  gr_totalMarks : Js.value;
  gr_remarks : Js.value
}.

(** One [updateOne] of the batch: the filter
    [{ schoolId, studentId, examId, subject }] and the [$set]
    [{ classId, totalMarks, obtainedMarks, remarks }]. *)
Record GradeOp := mkGradeOp {
  gop_schoolId : ObjectId;
  gop_studentId : Js.value;
  gop_examId : Js.value;
  gop_subject : Js.value;
  set_classId : Js.value;
  set_totalMarks : Js.value;
  set_obtainedMarks : Js.value;
  set_remarks : Js.value
}.

Definition gradeRequired : Error :=
  mkError None
    "Each grade entry must have studentId, classId, examId, subject, and obtainedMarks.".

(** The function mapped over the batch. *)
Definition gradeOperation (user : UserPayload) (grade : GradeRecord)
    : Result GradeOp :=
  if negb (Js.truthy (gr_studentId grade))
     || negb (Js.truthy (gr_classId grade))
     || negb (Js.truthy (gr_examId grade))
     || negb (Js.truthy (gr_subject grade))
     || Js.isNullish (gr_obtainedMarks grade)
  then Thrown gradeRequired
  else
    Ok (mkGradeOp (schoolId user) (gr_studentId grade) (gr_examId grade)
          (gr_subject grade) (gr_classId grade)
          (Js.orElse (gr_totalMarks grade) (Js.Number 100))
          (gr_obtainedMarks grade)
          (Js.orElse (gr_remarks grade) (Js.Str ""))).

Definition gradeMatches (op : GradeOp) (r : Grade) : bool :=
  String.eqb (grade_schoolId r) (gop_schoolId op) &&
  Js.eqb (grade_studentId r) (gop_studentId op) &&
  Js.eqb (grade_examId r) (gop_examId op) &&
  Js.eqb (grade_subject r) (gop_subject op).

(** The unique index of [GradeSchema] is on
    [(studentId, examId, subject)], without the school. *)
Definition gradeIndexClash (op : GradeOp) (r : Grade) : bool :=
  Js.eqb (grade_studentId r) (gop_studentId op) &&
  Js.eqb (grade_examId r) (gop_examId op) &&
  Js.eqb (grade_subject r) (gop_subject op).

Definition gradeUpdate (op : GradeOp) (r : Grade) : Grade :=
  mkGrade (grade_schoolId r) (grade_studentId r) (grade_examId r)
    (grade_subject r) (set_classId op) (set_totalMarks op)
    (set_obtainedMarks op) (set_remarks op).

Definition gradeInsert (op : GradeOp) : Grade :=
  mkGrade (gop_schoolId op) (gop_studentId op) (gop_examId op)
    (gop_subject op) (set_classId op) (set_totalMarks op)
    (set_obtainedMarks op) (set_remarks op).

(** One [updateOne] with [upsert: true]; the insert fails when the unique
    index already holds the triple under another school. *)
Definition applyGrade (op : GradeOp) (rows : list Grade)
    : Result (list Grade) :=
  if existsb (gradeMatches op) rows then
    Ok (FeeRoutes.upsert (gradeMatches op) (gradeUpdate op) (gradeInsert op)
          rows)
  else if existsb (gradeIndexClash op) rows then Thrown duplicateKey
  else Ok (rows ++ [gradeInsert op]).

(** [Grade.bulkWrite(operations)], ordered: the first failing operation
    ends the batch, what was written before it stays. *)
Fixpoint gradeBulkWrite (ops : list GradeOp) (result : BulkWriteResult)
    (rows : list Grade) : Result BulkWriteResult * list Grade :=
  match ops with
  | [] => (Ok result, rows)
  | op :: rest =>
      match applyGrade op rows with
      | Thrown e => (Thrown e, rows)
      | Ok rows' =>
          gradeBulkWrite rest
            (tally (existsb (gradeMatches op) rows) result) rows'
      end
  end.

(** The route; [None] is a body that is not an array. *)
Definition postGradesBulk (user : UserPayload)
    (body : option (list GradeRecord)) (db : Db)
    : Reply BulkWriteResult * Db :=
  match body with
  | None | Some [] =>
      (Message 400 "A non-empty array of grades is required.", db)
  | Some gradesData =>
      match mapThrow (gradeOperation user) gradesData with
      | Thrown e =>
          if includes (message e) "must have studentId"
          then (Message 400 (message e), db)
          else (Message 500 "Server error saving grades.", db)
      | Ok operations =>
          match gradeBulkWrite operations (mkBulkResult 0 0) (grades db) with
          | (Ok result, rows) => (Json 200 result, withGrades db rows)
          | (Thrown e, rows) =>
              if includes (message e) "must have studentId"
              then (Message 400 (message e), withGrades db rows)
              else (Message 500 "Server error saving grades.",
                    withGrades db rows)
          end
      end
  end.

(** A record that lacks a field the route requires. *)
Definition attendanceIncomplete (r : AttendanceRecord) : bool :=
  negb (Js.truthy (ar_studentId r)) || negb (Js.truthy (ar_date r))
  || negb (Js.truthy (ar_status r)).

Definition gradeIncomplete (g : GradeRecord) : bool :=
  negb (Js.truthy (gr_studentId g)) || negb (Js.truthy (gr_classId g))
  || negb (Js.truthy (gr_examId g)) || negb (Js.truthy (gr_subject g))
  || Js.isNullish (gr_obtainedMarks g).

End BulkRoutes.

(* ================================================================== *)
(** * Tenant registration (server/routes.ts) *)

Module AuthRoutes.

Import Storage.
Import BulkRoutes.
Local Open Scope bool_scope.

(** [String.prototype.toLowerCase], on the letters A to Z; the [email]
    path of [UserSchema] has [lowercase: true]. *)
Definition lowerAscii (c : ascii) : ascii :=
  let n := nat_of_ascii c in
  if (65 <=? n)%nat && (n <=? 90)%nat then ascii_of_nat (n + 32) else c.

Fixpoint toLowerCase (s : string) : string :=
  match s with
  | EmptyString => EmptyString
  | String c s' => String (lowerAscii c) (toLowerCase s')
  end.

(** A mongoose session: the committed database and, while a transaction
    is in progress, the view the transaction works on. *)
Record Session := mkSession {
  committed : Db;
  view : option Db
}.

Definition startSession (db : Db) : Session := mkSession db None.

Definition startTransaction (s : Session) : Session :=
  mkSession (committed s) (Some (committed s)).

Definition commitTransaction (s : Session) : Session :=
  match view s with
  | Some v => mkSession v None
  | None => s
  end.

Definition abortTransaction (s : Session) : Session :=
  mkSession (committed s) None.

(** [endSession] drops a transaction still in progress. *)
Definition endSession (s : Session) : Db := committed (abortTransaction s).

(** What a call made with [{ session }] reads. *)
Definition current (s : Session) : Db :=
  match view s with
  | Some v => v
  | None => committed s
  end.

(** What a call made with [{ session }] writes. *)
Definition store (s : Session) (db : Db) : Session :=
  match view s with
  | Some _ => mkSession (committed s) (Some db)
  | None => mkSession db None
  end.

Record RegisterBody := mkRegisterBody {
  rb_fullName : option string;
  rb_email : option string;
  rb_password : option string;
  rb_schoolName : option string;
  rb_institutionType : option string
}.

(** A body with its five fields. *)
Definition complete (body : RegisterBody) : bool :=
  Js.present (rb_fullName body) && Js.present (rb_email body) &&
  Js.present (rb_password body) && Js.present (rb_schoolName body) &&
  Js.present (rb_institutionType body).

(** The institution types that receive the default classes. *)
Definition isSchool (institutionType : string) : bool :=
  String.eqb institutionType "School"
  || String.eqb institutionType "School & College".

Definition hasDefaultClasses (body : RegisterBody) : bool :=
  match rb_institutionType body with
  | Some institutionType => isSchool institutionType
  | None => false
  end.

(** What the route answers on success: the access token in the body and
    the refresh token in the [jwt] cookie. *)
Record RegisterPayload := mkRegisterPayload {
  accessToken : string;
  jwtCookie : string
}.

(** The storage calls of the route that write, in program order. *)
Inductive Write :=
| SaveSchool
| SaveUser
| BulkWriteClasses
| SaveFeeHead
| SaveRefreshToken
| Commit.

(** How a statement of the [try] block ends: normally, by [return
    res...], or by a throw. *)
Inductive Control (A : Type) :=
| Next (a : A)
| Return (r : Reply RegisterPayload)
| Throw (e : Error).
Arguments Next {A} a.
Arguments Return {A} r.
Arguments Throw {A} e.

Definition Handler (A : Type) := Session -> Control A * Session.

Definition ret {A} (a : A) : Handler A := fun s => (Next a, s).

Definition bind {A B} (m : Handler A) (k : A -> Handler B) : Handler B :=
  fun s =>
    match m s with
    | (Next a, s') => k a s'
    | (Return r, s') => (Return r, s')
    | (Throw e, s') => (Throw e, s')
    end.

Notation "x <- m ;; k" := (bind m (fun x => k))
  (at level 61, m at next level, right associativity).
Notation "m ;;; k" := (bind m (fun _ => k))
  (at level 61, right associativity).

Definition respond {A} (r : Reply RegisterPayload) : Handler A :=
  fun s => (Return r, s).

(** A handler that, run inside a transaction, stays inside it and
    commits nothing; what it returns early is a 400. *)
Definition quiet {A} (m : Handler A) : Prop :=
  forall s, view s <> None ->
    committed (snd (m s)) = committed s /\ view (snd (m s)) <> None /\
    match fst (m s) with
    | Return r => statusOf r = 400%nat
    | _ => True
    end.

(** A handler that, run inside a transaction, commits nothing unless it
    ends normally; what it returns early is a 400. *)
Definition guarded {A} (m : Handler A) : Prop :=
  forall s, view s <> None ->
    match fst (m s) with
    | Next _ => True
    | Return r => committed (snd (m s)) = committed s /\ statusOf r = 400%nat
    | Throw _ => committed (snd (m s)) = committed s
    end.

(** Inserts, each guarded by the unique indexes of its collection. *)
Definition insertSchool (d : School) (db : Db) : Result Db :=
  if existsb (fun x => String.eqb (school_id x) (school_id d)) (schools db)
  then Thrown duplicateKey
  else Ok (withSchools db (schools db ++ [d])).

Definition insertUser (d : User) (db : Db) : Result Db :=
  if existsb (fun x => String.eqb (user_id x) (user_id d) ||
                       String.eqb (email x) (email d)) (users db)
  then Thrown duplicateKey
  else Ok (withUsers db (users db ++ [d])).

Definition insertClass (d : Class) (db : Db) : Result Db :=
  if existsb (fun x => String.eqb (class_id x) (class_id d) ||
                       (String.eqb (class_schoolId x) (class_schoolId d) &&
                        String.eqb (className x) (className d) &&
                        String.eqb (section x) (section d))) (classes db)
  then Thrown duplicateKey
  else Ok (withClasses db (classes db ++ [d])).

Fixpoint insertClasses (ds : list Class) (db : Db) : Result Db :=
  match ds with
  | [] => Ok db
  | d :: rest =>
      match insertClass d db with
      | Ok db' => insertClasses rest db'
      | Thrown e => Thrown e
      end
  end.

Definition insertFeeHead (d : FeeHead) (db : Db) : Result Db :=
  if existsb (fun x => String.eqb (head_id x) (head_id d) ||
                       (String.eqb (head_schoolId x) (head_schoolId d) &&
                        String.eqb (headName x) (headName d))) (feeHeads db)
  then Thrown duplicateKey
  else Ok (withFeeHeads db (feeHeads db ++ [d])).

(** [newAdminUser.save()] of a document already stored: only the
    modified path is written. *)
Definition setRefreshToken (uid : ObjectId) (token : string) (db : Db)
    : Result Db :=
  Ok (withUsers db
        (map (fun u => if String.eqb (user_id u) uid
                       then mkUser (user_id u) (user_schoolId u) (email u)
                              (password u) (fullName u) (role u) (Some token)
                       else u) (users db))).

Definition defaultGrades : list string :=
  ["Playgroup"; "Nursery"; "KG"; "Grade 1"; "Grade 2"; "Grade 3"; "Grade 4";
   "Grade 5"; "Grade 6"; "Grade 7"; "Grade 8"; "Grade 9"; "Grade 10";
   "Grade 11"; "Grade 12"]%string.

Section Register.

(** [bcrypt.hash] with the salt it draws, as run by the [pre("save")]
    hook of [UserSchema]. *)
Variable hash : string -> string.

(** [generateAccessToken] and [generateRefreshToken]. *)
Variable generateAccessToken generateRefreshToken : UserPayload -> string.

(** A storage call that fails for a reason of its own (connection,
    transient transaction error, injected failure). *)
Variable fault : Write -> option Error.

(** The [_id]s that [new User], [new School], the inserted classes and
    [new FeeHead] draw. *)
Variable userOid schoolOid feeHeadOid : ObjectId.
Variable classOid : nat -> ObjectId.

(** A write made with [{ session }]. *)
Definition write (w : Write) (op : Db -> Result Db) : Handler unit :=
  fun s =>
    match fault w with
    | Some e => (Throw e, s)
    | None =>
        match op (current s) with
        | Ok db => (Next tt, store s db)
        | Thrown e => (Throw e, s)
        end
    end.

(** [session.commitTransaction()]. *)
Definition commit : Handler unit :=
  fun s =>
    match fault Commit with
    | Some e => (Throw e, s)
    | None => (Next tt, commitTransaction s)
    end.

(** [User.findOne({ email }).session(session)]; the [lowercase] setter
    of the path also runs on the value of the query. *)
Definition findUserByEmail (e : string) : Handler (option User) :=
  fun s =>
    (Next (find (fun u => String.eqb (email u) (toLowerCase e))
             (users (current s))), s).

Definition classDocuments (sid : ObjectId) : list Class :=
  map (fun entry => mkClass (classOid (fst entry)) sid (snd entry) "A")
      (combine (seq 0 (List.length defaultGrades)) defaultGrades).

(** The body of the [try] block. *)
Definition registerTry (body : RegisterBody) : Handler RegisterPayload :=
  match rb_fullName body, rb_email body, rb_password body,
        rb_schoolName body, rb_institutionType body with
  | Some fullName, Some email, Some password, Some schoolName,
    Some institutionType =>
      if negb (Js.present (rb_fullName body))
         || negb (Js.present (rb_email body))
         || negb (Js.present (rb_password body))
         || negb (Js.present (rb_schoolName body))
         || negb (Js.present (rb_institutionType body))
      then respond (Message 400 "All fields are required")
      else
        existingUser <- findUserByEmail email ;;
        match existingUser with
        | Some _ => respond (Message 400 "This email is already in use.")
        | None =>
            let newAdminUser :=
              mkUser userOid schoolOid (toLowerCase email) (hash password)
                fullName "Admin" None in
            let newSchool :=
              mkSchool schoolOid schoolName institutionType userOid in
            write SaveSchool (insertSchool newSchool) ;;;
            write SaveUser (insertUser newAdminUser) ;;;
            (if isSchool institutionType
             then write BulkWriteClasses
                    (insertClasses (classDocuments schoolOid))
             else ret tt) ;;;
            write SaveFeeHead
              (insertFeeHead (mkFeeHead feeHeadOid schoolOid "Tuition Fee"
                                (Some false))) ;;;
            let payload := mkPayload userOid schoolOid "Admin" in
            let accessToken := generateAccessToken payload in
            let refreshToken := generateRefreshToken payload in
            write SaveRefreshToken (setRefreshToken userOid refreshToken) ;;;
            commit ;;;
            ret (mkRegisterPayload accessToken refreshToken)
        end
  | _, _, _, _, _ => respond (Message 400 "All fields are required")
  end.

(** The route: [try], [catch] with [abortTransaction], [finally] with
    [endSession]. *)
Definition register (body : RegisterBody) (db : Db)
    : Reply RegisterPayload * Db :=
  let session := startTransaction (startSession db) in
  let (reply, session') :=
    match registerTry body session with
    | (Next payload, s) => (Json 201 payload, s)
    | (Return r, s) => (r, s)
    | (Throw error, s) =>
        let s' := abortTransaction s in
        if isDuplicateKey error
        then (Message 400 "Email already exists.", s')
        else (Message 500 "Server error during registration.", s')
    end in
  (reply, endSession session').

(** The documents a successful registration adds. *)
Definition registered (body : RegisterBody) (db db' : Db) : Prop :=
  exists fullName email password schoolName institutionType,
    rb_fullName body = Some fullName /\
    rb_email body = Some email /\
    rb_password body = Some password /\
    rb_schoolName body = Some schoolName /\
    rb_institutionType body = Some institutionType /\
    let payload := mkPayload userOid schoolOid "Admin" in
    schools db' =
      schools db ++ [mkSchool schoolOid schoolName institutionType userOid] /\
    users db' =
      users db ++
      [mkUser userOid schoolOid (toLowerCase email) (hash password) fullName
         "Admin" (Some (generateRefreshToken payload))] /\
    classes db' =
      classes db ++
      (if isSchool institutionType then classDocuments schoolOid else []) /\
    feeHeads db' =
      feeHeads db ++
      [mkFeeHead feeHeadOid schoolOid "Tuition Fee" (Some false)] /\
    students db' = students db /\
    attendance db' = attendance db /\
    feeStructures db' = feeStructures db /\
    feePayments db' = feePayments db /\
    grades db' = grades db.

(** Some write of the route fails: the storage layer refuses it, or a
    unique index does. *)
Definition someWriteFails (body : RegisterBody) (db : Db) : Prop :=
  exists e s,
    registerTry body (startTransaction (startSession db)) = (Throw e, s).

End Register.

End AuthRoutes.

(* ================================================================== *)
(** * A small school *)

Module Sample.

Import Storage.
Local Open Scope string_scope.

Definition admin : UserPayload := mkPayload "u1" "s1" "Admin".
Definition clerk : UserPayload := mkPayload "u2" "s1" "Accountant".

(** One student in class [c1]; two fee heads; October dues of 100 for
    head [A] and 50 for head [B]. *)
Definition db0 : Db :=
  mkDb [] [] []
    [mkStudent "st1" "s1" "c1" "Ali"]
    []
    [mkFeeHead "A" "s1" "Tuition Fee" (Some false);
     mkFeeHead "B" "s1" "Lab Fee" (Some false)]
    [mkFeeStructure "s1" "c1" "A" 100 "2025-10";
     mkFeeStructure "s1" "c1" "B" 50 "2025-10"]
    [] [].

(** The ledger that the payment page holds for the student: one due of
    50, nothing paid. *)
Definition ledger50 : FeeRoutes.StudentLedger :=
  FeeRoutes.mkLedger [Allocation.dueA50] []
    (FeeRoutes.mkSummary 50 0 50).

Definition noDate (v : Js.value) : option Date := None.
Definition epoch (v : Js.value) : option Date := Some 0%Z.

(** Stand-ins for [Number.prototype.toString] and [Number(s)], right on
    the numerals that the requests of the small school hold where the
    schema has a string or a number of the other type. *)
Definition written (x : float) : string :=
  if (x =? 202511)%float then "202511" else "0".
Definition readNumber (s : string) : float :=
  if String.eqb s "80" then 80%float
  else if String.eqb s "50" then 50%float
  else nan.

(** A stand-in for [ObjectId.isValid]: the strings of 24 characters.
    The ids of the small school are abbreviations. *)
Definition validId (s : string) : bool := Nat.eqb (String.length s) 24.


(** A request that records 80 while its one item allocates 50. *)
Definition pays80 : FeeRoutes.PaymentBody :=
  FeeRoutes.mkPaymentBody (Js.Str "st1") (Js.Str "c1") (Js.Str "2025-10")
    (Js.Number 80)
    (Some [(Js.Str "A", Js.Number 50)])
    Js.Undefined Js.Undefined.

(** Two requests that set the November tuition of class [c1]. *)
Definition tuition1000 : FeeRoutes.StructureBody :=
  FeeRoutes.mkStructureBody (Js.Str "c1") (Js.Str "A")
    (Js.Number 1000) (Js.Str "2025-11").
Definition tuition1200 : FeeRoutes.StructureBody :=
  FeeRoutes.mkStructureBody (Js.Str "c1") (Js.Str "A")
    (Js.Number 1200) (Js.Str "2025-11").

(** A request that records 200 against dues of 150. *)
Definition pays200 : FeeRoutes.PaymentBody :=
  FeeRoutes.mkPaymentBody (Js.Str "st1") (Js.Str "c1") (Js.Str "2025-10")
    (Js.Number 200)
    (Some [(Js.Str "A", Js.Number 100);
           (Js.Str "B", Js.Number 50)])
    Js.Undefined Js.Undefined.

(** What the payment page knows and what is typed in its form: 150.01,
    one hundredth more than the balance. *)
Definition pageStudents : list PaymentPage.Student :=
  [PaymentPage.mkStudent "st1" "Ali" (Some "c1")].
Definition form150_01 : PaymentPage.PaymentFormData :=
  PaymentPage.mkFormData 150.01 "2025-10-06" "".
Definition form200 : PaymentPage.PaymentFormData :=
  PaymentPage.mkFormData 200 "2025-10-06" "".
Definition form120 : PaymentPage.PaymentFormData :=
  PaymentPage.mkFormData 120 "2025-10-06" "".
Definition sameString (s : string) : string := s.

(** The ledger of the student before any payment, as the route
    computes it. *)
Definition ledger0 : FeeRoutes.StudentLedger :=
  FeeRoutes.ledgerSpec db0 "s1" "c1" "st1" "2025-10".

(** A request whose amount and single item are both 50. *)
Definition pays50 : FeeRoutes.PaymentBody :=
  FeeRoutes.mkPaymentBody (Js.Str "st1") (Js.Str "c1") (Js.Str "2025-10")
    (Js.Number 50)
    (Some [(Js.Str "A", Js.Number 50)])
    Js.Undefined Js.Undefined.

Definition present1 : BulkRoutes.AttendanceRecord :=
  BulkRoutes.mkAttendanceRecord (Js.Str "st1") (Js.Str "2025-10-06")
    (Js.Str "Present").
Definition late1 : BulkRoutes.AttendanceRecord :=
  BulkRoutes.mkAttendanceRecord (Js.Str "st1") (Js.Str "2025-10-06")
    (Js.Str "Late").
Definition noStatus : BulkRoutes.AttendanceRecord :=
  BulkRoutes.mkAttendanceRecord (Js.Str "st2") (Js.Str "2025-10-06")
    Js.Undefined.

Definition gradeNoTotal : BulkRoutes.GradeRecord :=
  BulkRoutes.mkGradeRecord (Js.Str "st1") (Js.Str "c1") (Js.Str "e1")
    (Js.Str "Mathematics") (Js.Number 42) Js.Undefined
    Js.Undefined.
Definition gradeOutOf50 : BulkRoutes.GradeRecord :=
  BulkRoutes.mkGradeRecord (Js.Str "st1") (Js.Str "c1") (Js.Str "e1")
    (Js.Str "English") (Js.Number 42) (Js.Number 50)
    Js.Undefined.
Definition gradeNoMarks : BulkRoutes.GradeRecord :=
  BulkRoutes.mkGradeRecord (Js.Str "st1") (Js.Str "c1") (Js.Str "e1")
    (Js.Str "Urdu") Js.Null Js.Undefined Js.Undefined.

Definition signup : AuthRoutes.RegisterBody :=
  AuthRoutes.mkRegisterBody (Some "Sara Khan") (Some "Sara@School.pk")
    (Some "secret") (Some "City School") (Some "School").

Definition noFault (w : AuthRoutes.Write) : option Error := None.
Definition feeHeadFault (w : AuthRoutes.Write) : option Error :=
  match w with
  | AuthRoutes.SaveFeeHead => Some (mkError None "forced failure")
  | _ => None
  end.

Definition tokenOf (kind : string) (p : UserPayload) : string :=
  (kind ++ ":" ++ userId p)%string.
Definition classOid (i : nat) : ObjectId :=
  String (ascii_of_nat (97 + i)) "-class".

End Sample.

(* ================================================================== *)
(** * Allocation preview (client, FeePaymentsPage.tsx) *)

Module PaymentPreview.

Import Allocation.
Local Open Scope float_scope.
Local Open Scope bool_scope.

(** One line of the preview shown under the amount field. *)
Record PreviewRow := mkPreviewRow {
  previewName : string;
  amountAllocated : float
}.

(** [ledger.dues.find((d) => d.feeHeadId === item.feeHeadId)?.name
    || "Unknown Fee"]. *)
Definition nameOf (dues : list LedgerDue) (head : string) : string :=
  match find (fun d => String.eqb (feeHeadId d) head) dues with
  | Some d => if String.eqb (name d) "" then "Unknown Fee"%string else name d
  | None => "Unknown Fee"%string
  end.

Definition previewRow (dues : list LedgerDue) (item : Item) : PreviewRow :=
  mkPreviewRow (nameOf dues (itemHead item)) (amountPaid item).

(** The memoised preview; [amountToPay] is what the form holds in its
    amount field. *)
Definition paymentAllocationPreview (ledger : option FeeRoutes.StudentLedger)
    (amountToPay : Js.value) : list PreviewRow :=
  match ledger, amountToPay with
  | Some ledger, Js.Number a =>
      if negb (Js.truthy amountToPay) || (a <=? 0) then []
      else
        let validAmount :=
          Num.min a (FeeRoutes.summaryBalance (FeeRoutes.summary ledger)) in
        let items :=
          fst (allocatePayment validAmount (FeeRoutes.ledgerDues ledger)) in
        map (previewRow (FeeRoutes.ledgerDues ledger)) items
  | _, _ => []
  end.

(** What [Mongoose] makes of the items that the form posts. *)
Definition storedItem (it : Item) : Storage.PaymentItem :=
  Storage.mkPaymentItem (itemHead it) (amountPaid it).

End PaymentPreview.

(* ================================================================== *)
(** * Fee heads and listings (server/routes.ts) *)

Module FeeCatalog.

Import Storage FeeRoutes BulkRoutes.
Local Open Scope bool_scope.

(** ** GET /fees/heads *)

Definition getFeeHeads (user : UserPayload) (db : Db) : Reply (list FeeHead) :=
  Json 200
    (filter (fun h => String.eqb (head_schoolId h) (schoolId user))
       (feeHeads db)).

(** ** POST /fees/heads *)

Record FeeHeadBody := mkFeeHeadBody {
  fh_name : Js.value;
  fh_isOneTime : Js.value
}.

(** Mongoose's cast of [isOneTime] to [Boolean]: [true], ["true"], 1,
    ["1"] and ["yes"] are true, [false], ["false"], 0, ["0"] and ["no"]
    are false, [null] is kept, and any other value fails the cast.  The
    path has [default: false], which applies to an absent field. *)
Definition castOneTime (v : Js.value) : option (option bool) :=
  match v with
  | Js.Undefined => Some (Some false)
  | Js.Null => Some None
  | Js.Bool b => Some (Some b)
  | Js.Number n =>
      if (n =? 1)%float then Some (Some true)
      else if (n =? 0)%float then Some (Some false)
      else None
  | Js.Str s =>
      if String.eqb s "true" || String.eqb s "1" || String.eqb s "yes"
      then Some (Some true)
      else if String.eqb s "false" || String.eqb s "0" || String.eqb s "no"
      then Some (Some false)
      else None
  end.

Section Heads.

(** [Number.prototype.toString]. *)
Variable numberToString : float -> string.

(** [headOid] is the [_id] that [new FeeHead] draws. *)
Definition postFeeHead (user : UserPayload) (headOid : ObjectId)
    (body : FeeHeadBody) (db : Db) : Reply FeeHead * Db :=
  if negb (Js.truthy (fh_name body)) then
    (Message 400 "Fee Head name is required.", db)
  else
    match castString numberToString (fh_name body),
          castOneTime (fh_isOneTime body) with
    | Some name, Some isOneTime =>
        let newHead := mkFeeHead headOid (schoolId user) name isOneTime in
        match AuthRoutes.insertFeeHead newHead db with
        | Ok db' => (Json 201 newHead, db')
        | Thrown e =>
            if isDuplicateKey e
            then (Message 400 "A fee head with this name already exists.", db)
            else (Message 500 "Server error", db)
        end
    | _, _ => (Message 500 "Server error", db)
    end.

End Heads.

(** The unique index of [FeeHeadSchema], and the uniqueness of [_id]. *)
Definition headKey (h : FeeHead) : ObjectId * string :=
  (head_schoolId h, headName h).

Definition headsUnique (db : Db) : Prop :=
  NoDup (map headKey (feeHeads db)) /\ NoDup (map head_id (feeHeads db)).

(** ** GET /fees/structures *)

Definition getFeeStructures (user : UserPayload)
    (monthYear classId : option string) (db : Db)
    : Reply (list PopulatedDue) :=
  match monthYear, classId with
  | Some m, Some c =>
      if negb (Js.present monthYear) || negb (Js.present classId) then
        Message 400 "monthYear and classId are required."
      else
        Json 200 (map (populateDue db) (findStructures db (schoolId user) c m))
  | _, _ => Message 400 "monthYear and classId are required."
  end.

(** ** GET /fees/payments *)

(** A payment with the heads of its items populated, and [receivedBy]
    populated with the [_id] and [fullName] of the user. *)
Record ListedPayment := mkListedPayment {
  listed : PopulatedPayment;
  listedReceivedBy : option (ObjectId * string)
}.

Definition listPayment (db : Db) (p : FeePayment) : ListedPayment :=
  mkListedPayment (populatePayment db p)
    (option_map (fun u => (user_id u, fullName u))
       (find (fun u => String.eqb (user_id u) (receivedBy p)) (users db))).

Definition getFeePayments (user : UserPayload)
    (studentId monthYear : option string) (db : Db)
    : Reply (list ListedPayment) :=
  match studentId, monthYear with
  | Some sid, Some m =>
      if negb (Js.present studentId) || negb (Js.present monthYear) then
        Message 400 "studentId and monthYear are required."
      else
        Json 200 (map (listPayment db) (findPayments db (schoolId user) sid m))
  | _, _ => Message 400 "studentId and monthYear are required."
  end.

End FeeCatalog.

(* ================================================================== *)
(** * Fee summary of a month (server/routes.ts) *)

Module FeeReports.

Import Storage FeeRoutes.
Local Open Scope float_scope.
Local Open Scope bool_scope.

(** One row of the report, as the [$project] stage shapes it. *)
Record SummaryRow := mkSummaryRow {
  row_studentId : ObjectId;
  row_fullName : string;
  row_className : string;
  row_classSection : option string;
  row_amountDue : float;
  row_amountPaid : float;
  row_balance : float
}.

(** A query-string parameter that is truthy. *)
Definition given (p : option string) : option string :=
  match p with
  | Some s => if String.eqb s "" then None else Some s
  | None => None
  end.

(** Stage 1, [$match]: the students of the school, of the class when one
    is given. *)
Definition matchStudents (s : ObjectId) (classId : option string) (db : Db)
    : list Student :=
  filter (fun st =>
            String.eqb (student_schoolId st) s &&
            match given classId with
            | Some c => String.eqb (student_classId st) c
            | None => true
            end) (students db).

(** Stage 2, [$lookup] of the class and [$unwind] with
    [preserveNullAndEmptyArrays]: a student whose class is gone is
    kept. *)
Definition lookupClass (db : Db) (st : Student) : list Class :=
  filter (fun c => String.eqb (class_id c) (student_classId st)) (classes db).

Definition unwindClass (st : Student) (classInfo : list Class)
    : list (Student * option Class) :=
  match classInfo with
  | [] => [(st, None)]
  | _ :: _ => map (fun c => (st, Some c)) classInfo
  end.

Definition firstOrZero (l : list float) : float :=
  match l with
  | x :: _ => x
  | [] => 0
  end.

Section Summary.

(** [mongoose.Types.ObjectId.isValid]. *)
Variable isValid : string -> bool.

(** The [$sum] accumulator of the database server over the doubles of a
    group. *)
Variable sum : list float -> float.

(** [$group: { _id: null, total: { $sum } }]: one document, unless the
    input is empty; and [$ifNull: [{ $first }, 0]]. *)
Definition groupSum (amounts : list float) : list float :=
  match amounts with
  | [] => []
  | _ :: _ => [sum amounts]
  end.

(** Stages 3 and 4, the two [$lookup]s with a pipeline. *)
Definition duesInfo (db : Db) (monthYear : string) (st : Student)
    : list float :=
  groupSum
    (map amount
       (filter (fun r => String.eqb (fs_classId r) (student_classId st) &&
                         String.eqb (fs_schoolId r) (student_schoolId st) &&
                         String.eqb (fs_monthYear r) monthYear)
          (feeStructures db))).

Definition paymentsInfo (db : Db) (monthYear : string) (st : Student)
    : list float :=
  groupSum
    (map totalAmountPaid
       (filter (fun p => String.eqb (pay_studentId p) (student_id st) &&
                         String.eqb (pay_schoolId p) (student_schoolId st) &&
                         String.eqb (pay_monthYear p) monthYear)
          (feePayments db))).

(** Stages 5 and 6, [$addFields] and [$project]. *)
Definition summaryRow (db : Db) (monthYear : string)
    (entry : Student * option Class) : SummaryRow :=
  let (st, classInfo) := entry in
  let totalDue := firstOrZero (duesInfo db monthYear st) in
  let totalPaid := firstOrZero (paymentsInfo db monthYear st) in
  let balance := totalDue - totalPaid in
  mkSummaryRow (student_id st) (studentName st)
    (match classInfo with
     | Some c => className c
     | None => "N/A"%string
     end)
    (option_map section classInfo) totalDue totalPaid balance.

(** Stage 7, [$sort: { className: 1, fullName: 1 }], strings compared
    byte by byte; rows that tie keep their order. *)
Definition rowLe (a b : SummaryRow) : bool :=
  match String.compare (row_className a) (row_className b) with
  | Lt => true
  | Eq => String.leb (row_fullName a) (row_fullName b)
  | Gt => false
  end.

Fixpoint insertRow (r : SummaryRow) (l : list SummaryRow)
    : list SummaryRow :=
  match l with
  | [] => [r]
  | x :: rest => if rowLe r x then r :: l else x :: insertRow r rest
  end.

Definition sortRows (l : list SummaryRow) : list SummaryRow :=
  fold_right insertRow [] l.

Definition getFeeSummary (user : UserPayload)
    (monthYear classId : option string) (db : Db)
    : Reply (list SummaryRow) :=
  match given monthYear with
  | None => Message 400 "Valid monthYear (YYYY-MM) is required."
  | Some m =>
      if match given classId with
         | Some c => negb (isValid c)
         | None => false
         end
      then Message 400 "Invalid classId format."
      else
        let students := matchStudents (schoolId user) classId db in
        let withClass :=
          flat_map (fun st => unwindClass st (lookupClass db st)) students in
        Json 200 (sortRows (map (summaryRow db m) withClass))
  end.

End Summary.

End FeeReports.

(* ================================================================== *)
(** * Attendance of a day (server/routes.ts) *)

Module AttendanceQuery.

Import Storage BulkRoutes.
Local Open Scope bool_scope.







Section Query.

(** [new Date(v)]; [None] is an invalid date. *)
Variable toDate : Js.value -> option Date.


End Query.

End AttendanceQuery.

(* ================================================================== *)
(** * Sessions (server/routes.ts) *)

Module SessionRoutes.

Import Storage BulkRoutes AuthRoutes.
Local Open Scope bool_scope.

Record LoginBody := mkLoginBody {
  lb_email : string;
  lb_password : string
}.

(** [{ refreshToken }] as a filter. *)
Definition holds (token : string) (u : User) : bool :=
  match refreshToken u with
  | Some t => String.eqb t token
  | None => false
  end.

(** [user.refreshToken = token]. *)
Definition withToken (token : string) (u : User) : User :=
  mkUser (user_id u) (user_schoolId u) (email u) (password u) (fullName u)
    (role u) (Some token).

(** [$unset: { refreshToken: 1 }]. *)
Definition unsetRefreshToken (u : User) : User :=
  mkUser (user_id u) (user_schoolId u) (email u) (password u) (fullName u)
    (role u) None.

(** [findOneAndUpdate]: the first document that matches is updated. *)
Fixpoint updateFirst {A} (matches : A -> bool) (update : A -> A)
    (rows : list A) : list A :=
  match rows with
  | [] => []
  | r :: rest =>
      if matches r then update r :: rest
      else r :: updateFirst matches update rest
  end.

(** The payload the routes sign for a user. *)
Definition payloadOf (u : User) : UserPayload :=
  mkPayload (user_id u) (user_schoolId u) (role u).

Section Sessions.

(** [bcrypt.compare(candidate, hash)]. *)
Variable compare : string -> string -> bool.

(** [generateAccessToken] and [generateRefreshToken]. *)
Variable generateAccessToken generateRefreshToken : UserPayload -> string.

(** [jwt.verify(token, REFRESH_TOKEN_SECRET)]: the decoded payload, or
    [None] when the callback receives an error. *)
Variable verify : string -> option UserPayload.

(** POST /auth/login. *)
Definition login (body : LoginBody) (db : Db) : Reply RegisterPayload * Db :=
  match find (fun u => String.eqb (email u) (toLowerCase (lb_email body)))
          (users db) with
  | None => (Message 400 "Invalid credentials", db)
  | Some user =>
      if negb (compare (lb_password body) (password user)) then
        (Message 400 "Invalid credentials", db)
      else
        let payload := payloadOf user in
        let accessToken := generateAccessToken payload in
        let refreshToken := generateRefreshToken payload in
        match setRefreshToken (user_id user) refreshToken db with
        | Ok db' => (Json 200 (mkRegisterPayload accessToken refreshToken), db')
        | Thrown _ => (Message 500 "Server error during login", db)
        end
  end.

(** GET /auth/refresh; [jwt] is the cookie.  [sendStatus(n)] answers
    with the status and its name. *)
Definition refresh (jwt : option string) (db : Db) : Reply string :=
  match jwt with
  | None => Message 401 "Unauthorized"
  | Some token =>
      if String.eqb token "" then Message 401 "Unauthorized"
      else
        match find (holds token) (users db) with
        | None => Message 403 "Forbidden"
        | Some user =>
            match verify token with
            | None => Message 403 "Forbidden"
            | Some decoded =>
                if negb (String.eqb (user_id user) (userId decoded)) then
                  Message 403 "Forbidden"
                else Json 200 (generateAccessToken (payloadOf user))
            end
        end
  end.

(** POST /auth/logout. *)
Definition logout (jwt : option string) (db : Db) : Reply unit * Db :=
  match jwt with
  | None => (Message 204 "No Content", db)
  | Some token =>
      if String.eqb token "" then (Message 204 "No Content", db)
      else
        (Message 204 "No Content",
         withUsers db (updateFirst (holds token) unsetRefreshToken (users db)))
  end.

(** A stored refresh token that verifies names the user that holds
    it. *)
Definition tokensNameHolders (db : Db) : Prop :=
  forall u decoded token,
    In u (users db) -> refreshToken u = Some token ->
    verify token = Some decoded -> userId decoded = user_id u.

End Sessions.

Definition usersUnique (db : Db) : Prop :=
  NoDup (map user_id (users db)).

End SessionRoutes.

(* ================================================================== *)
(** * Deleting a class (server/routes.ts) *)

Module ClassRoutes.

Import Storage.
Local Open Scope bool_scope.

(** [deleteOne(filter)]: the first document that matches is removed;
    the count of removed documents comes with the rest. *)
Fixpoint deleteOne {A} (matches : A -> bool) (rows : list A)
    : nat * list A :=
  match rows with
  | [] => (0%nat, [])
  | r :: rest =>
      if matches r then (1%nat, rest)
      else let (n, rest') := deleteOne matches rest in (n, r :: rest')
  end.

(** [`${n}`]. *)
Definition decimal (n : nat) : string :=
  DecimalString.NilEmpty.string_of_uint (Nat.to_uint n).

Definition assignedTo (s id : ObjectId) (st : Student) : bool :=
  String.eqb (student_schoolId st) s && String.eqb (student_classId st) id.

Definition isClass (s id : ObjectId) (c : Class) : bool :=
  String.eqb (class_id c) id && String.eqb (class_schoolId c) s.

Section Delete.

(** Whether Mongoose casts the string to an [ObjectId]; a filter whose
    [classId] or [_id] does not cast makes the query throw. *)
Variable isValid : string -> bool.

(** DELETE /classes/:id, with its [catch]. *)
Definition deleteClass (user : UserPayload) (id : string) (db : Db)
    : Reply unit * Db :=
  if negb (isValid id) then (Message 500 "Server error deleting class", db)
  else
    let studentCount :=
      List.length (filter (assignedTo (schoolId user) id) (students db)) in
    if (0 <? studentCount)%nat then
      (Message 400
         ("Cannot delete: " ++ decimal studentCount ++
          " student(s) are assigned to this class.")%string, db)
    else
      let (deletedCount, rows) :=
        deleteOne (isClass (schoolId user) id) (classes db) in
      if (deletedCount =? 0)%nat then (Message 404 "Class not found.", db)
      else (Message 200 "Class deleted successfully", withClasses db rows).

End Delete.

End ClassRoutes.

(* ================================================================== *)
(** * Keys of the grades *)

Module GradeKeys.

Import Storage BulkRoutes.
Local Open Scope bool_scope.

(** The filter of the upserts of [POST /grades/bulk], as a key. *)
Definition gradeKey (r : Grade)
    : ObjectId * Js.value * Js.value * Js.value :=
  (grade_schoolId r, grade_studentId r, grade_examId r, grade_subject r).

(** No two grades of a school share student, exam and subject; the
    unique index of [GradeSchema] on [(studentId, examId, subject)]
    implies it. *)
Definition gradesUnique (db : Db) : Prop :=
  NoDup (map gradeKey (grades db)).

(** The filter of the upsert that leaves [a]. *)
Definition sameGrade (a r : Grade) : bool :=
  String.eqb (grade_schoolId r) (grade_schoolId a) &&
  Js.eqb (grade_studentId r) (grade_studentId a) &&
  Js.eqb (grade_examId r) (grade_examId a) &&
  Js.eqb (grade_subject r) (grade_subject a).

End GradeKeys.

(* ================================================================== *)
(** * Views of the database *)

Module Tenancy.

Import Storage.


End Tenancy.

(* ================================================================== *)
(** * More of the small school *)

Module Cases.

Import Storage.
Local Open Scope string_scope.

(** Half a rupee typed in the form. *)
Definition formHalf : PaymentPage.PaymentFormData :=
  PaymentPage.mkFormData 0.5 "2025-10-06" "".


(** What the form posts for 120, and the payment that the route makes
    of it. *)
Definition payload120 : PaymentPage.Payload :=
  PaymentPage.mkPayload "st1" "c1" "2025-10" 120
    [Allocation.mkItem "A" 100;
     Allocation.mkItem "B" 20]
    "" "2025-10-06".

Definition paid120 : FeePayment :=
  mkFeePayment "s1" "st1" "c1" "2025-10" 0%Z "u1"
    [mkPaymentItem "A" 100; mkPaymentItem "B" 20]
    120 (Js.Str "").

(** A payment of the student whose item names a head that no longer
    exists. *)
Definition paidToLostHead : FeePayment :=
  mkFeePayment "s1" "st1" "c1" "2025-10" 0%Z "u1"
    [mkPaymentItem "Z" 10] 10 Js.Undefined.

Definition dbLostHead : Db :=
  withFeePayments Sample.db0 [paidToLostHead].





(** A teacher of the school who holds a refresh token of an earlier
    login; a password check, and a verification that accepts the two
    tokens of the teacher. *)
Definition teacher : User :=
  mkUser "u5" "s1" "amna@school.pk" "hash:pw" "Amna" "Teacher"
    (Some "old:u5").

Definition dbUsers : Db := withUsers Sample.db0 [teacher].

Definition samePassword (candidate hash : string) : bool :=
  String.eqb ("hash:" ++ candidate) hash.

Definition verifyTeacher (token : string) : option UserPayload :=
  if (String.eqb token "refresh:u5" || String.eqb token "old:u5")%bool
  then Some (mkPayload "u5" "s1" "Teacher")
  else None.

(** A verification that accepts the refresh token of the user that
    [Sample.signup] registers. *)
Definition verifyAdmin (token : string) : option UserPayload :=
  if String.eqb token "refresh:u9"
  then Some (mkPayload "u9" "s9" "Admin")
  else None.

End Cases.

(* ================================================================== *)
(** * Properties *)

Module NumFacts.
Import Num.
Local Open Scope float_scope.

Lemma SFcompare_key x y :
  SFcompare (Prim2SF x) (Prim2SF y) = keycmp x y.
Proof.
  unfold keycmp, key.
  destruct (Prim2SF x) as [s | s | | s m e],
    (Prim2SF y) as [s' | s' | | s' m' e'];
    try reflexivity;
    try (destruct s; reflexivity);
    try (destruct s'; reflexivity);
    try (destruct s, s'; reflexivity).
  destruct s, s'; cbn [SFcompare lexcmp]; try reflexivity.
  rewrite Z.compare_opp, (Z.compare_antisym e e').
  destruct (Z.compare e e'); reflexivity.
Qed.

Lemma ltb_key x y :
  (x <? y) = match keycmp x y with Some Lt => true | _ => false end.
Proof. rewrite ltb_spec. unfold SFltb. now rewrite SFcompare_key. Qed.

Lemma leb_key x y :
  (x <=? y) = match keycmp x y with Some (Lt | Eq) => true | _ => false end.
Proof. rewrite leb_spec. unfold SFleb. now rewrite SFcompare_key. Qed.

Lemma eqb_key x y :
  (x =? y) = match keycmp x y with Some Eq => true | _ => false end.
Proof. rewrite eqb_spec. unfold SFeqb. now rewrite SFcompare_key. Qed.

Lemma is_nan_key x :
  is_nan x = match key x with Some _ => false | None => true end.
Proof.
  unfold is_nan. rewrite eqb_key. unfold keycmp.
  destruct (key x) as [[[a b] c] |]; [| reflexivity].
  unfold lexcmp. now rewrite !Z.compare_refl.
Qed.

Lemma key_zero : key 0 = Some (0, 0, 0)%Z.
Proof. reflexivity. Qed.

Lemma key_one : key 1 = Some (1, -52, 4503599627370496)%Z.
Proof. reflexivity. Qed.

Lemma key_cent : key 0.01 = Some (1, -59, 5764607523034235)%Z.
Proof. reflexivity. Qed.

Lemma key_infinity : key infinity = Some (2, 0, 0)%Z.
Proof. reflexivity. Qed.

Lemma lexcmp_spec a b : LexSpec a b (lexcmp a b).
Proof.
  destruct a as [[a1 a2] a3], b as [[b1 b2] b3]. unfold lexcmp.
  destruct (Z.compare_spec a1 b1); [| constructor; cbn; lia ..].
  destruct (Z.compare_spec a2 b2); [| constructor; cbn; lia ..].
  destruct (Z.compare_spec a3 b3); constructor; cbn; try lia.
  congruence.
Qed.

(** Comparisons of doubles, decided on their keys. *)
Ltac keys :=
  unfold Num.lt, Num.le in *;
  rewrite ?is_nan_key, ?ltb_key, ?leb_key, ?eqb_key in *;
  unfold keycmp in *;
  rewrite ?key_zero, ?key_one, ?key_cent, ?key_infinity in *;
  repeat match goal with
         | H : context [key ?x] |- _ =>
             destruct (key x) as [[[? ?] ?] |]
         | |- context [key ?x] =>
             destruct (key x) as [[[? ?] ?] |]
         end;
  try discriminate; try reflexivity;
  repeat match goal with
         | H : context [lexcmp ?a ?b] |- _ =>
             destruct (lexcmp_spec a b)
         | |- context [lexcmp ?a ?b] =>
             destruct (lexcmp_spec a b)
         end;
  cbn [fst snd] in *;
  try discriminate; try reflexivity;
  repeat match goal with
         | H : (_, _) = (_, _) |- _ => inversion H; clear H; subst
         end;
  try lia.

Lemma lt_irrefl x : (x <? x) = false.
Proof. keys. Qed.

Lemma lt_trans x y z : x < y -> y < z -> x < z.
Proof. intros. keys. Qed.

Lemma lt_le x y : x < y -> x <= y.
Proof. intros. keys. Qed.

Lemma le_trans x y z : x <= y -> y <= z -> x <= z.
Proof. intros. keys. Qed.

Lemma lt_le_trans x y z : x < y -> y <= z -> x < z.
Proof. intros. keys. Qed.

Lemma le_lt_trans x y z : x <= y -> y < z -> x < z.
Proof. intros. keys. Qed.

Lemma le_refl x : is_nan x = false -> x <= x.
Proof. intros. keys. Qed.

Lemma lt_not_nan_l x y : x < y -> is_nan x = false.
Proof. intros. keys. Qed.

Lemma lt_not_nan_r x y : x < y -> is_nan y = false.
Proof. intros. keys. Qed.

Lemma le_not_lt x y : x <= y -> (y <? x) = false.
Proof. intros. keys. Qed.

Lemma lt_not_le x y : x < y -> (y <=? x) = false.
Proof. intros. keys. Qed.

Lemma not_le_lt x y :
  is_nan x = false -> is_nan y = false -> (x <=? y) = false -> y < x.
Proof. intros. keys. Qed.

Lemma not_lt_le x y :
  is_nan x = false -> is_nan y = false -> (x <? y) = false -> y <= x.
Proof. intros. keys. Qed.

Lemma eqb_le x y : (x =? y) = true -> x <= y.
Proof. intros. keys. Qed.

Lemma le_antisym x y : x <= y -> y <= x -> (x =? y) = true.
Proof. intros. keys. Qed.


(** ** Doubles and their specification *)

Lemma Prim2SF_zero : Prim2SF 0 = S754_zero false.
Proof. reflexivity. Qed.

Lemma Prim2SF_infinity : Prim2SF infinity = S754_infinity false.
Proof. reflexivity. Qed.

Lemma Prim2SF_nan : Prim2SF nan = S754_nan.
Proof. reflexivity. Qed.

(** A positive double is a finite one with a positive sign, or the
    positive infinity. *)
Lemma positive_cases x :
  0 < x ->
  Prim2SF x = S754_infinity false \/
  exists m e, Prim2SF x = S754_finite false m e.
Proof.
  unfold Num.lt. rewrite ltb_spec, Prim2SF_zero. unfold SFltb.
  destruct (Prim2SF x) as [s | s | | s m e]; cbn; try discriminate.
  - destruct s; [discriminate | now left].
  - destruct s; [discriminate | right; now exists m, e].
Qed.

Lemma eqb_eq_positive x y : 0 < x -> (x =? y) = true -> x = y.
Proof.
  intros Hx Heq. apply Prim2SF_inj.
  rewrite eqb_spec in Heq. unfold SFeqb in Heq.
  destruct (positive_cases Hx) as [E | (m & e & E)]; rewrite E in *.
  - destruct (Prim2SF y) as [s | s | | s m e]; cbn in Heq; try discriminate.
    now destruct s.
  - destruct (Prim2SF y) as [s | s | | s m' e']; cbn in Heq;
      try discriminate.
    + now destruct s.
    + destruct s; [discriminate |].
      destruct (Z.compare_spec e e'); try discriminate. subst e'.
      change (Pos.compare_cont Eq m m') with (Pos.compare m m') in Heq.
      destruct (Pos.compare_spec m m'); try discriminate. now subst.
Qed.

(** ** [Math.min] *)

Lemma min_cases x y :
  0 < Num.min x y -> Num.min x y = x \/ Num.min x y = y.
Proof.
  unfold Num.min. intros H.
  destruct (is_nan x || is_nan y); [discriminate H |].
  destruct (x <? y); [now left |].
  destruct (y <? x); [now right |].
  destruct (get_sign x); [now left | now right].
Qed.

Lemma min_le_l x y : 0 < Num.min x y -> Num.min x y <= x.
Proof.
  unfold Num.min. intros H.
  destruct (is_nan x) eqn:Hx; [discriminate H |].
  destruct (is_nan y) eqn:Hy; [discriminate H |]. cbn [orb] in *.
  destruct (x <? y) eqn:Hxy; [now apply le_refl |].
  destruct (y <? x) eqn:Hyx; [now apply lt_le |].
  destruct (get_sign x); [now apply le_refl | now apply not_lt_le].
Qed.

Lemma min_le_r x y : 0 < Num.min x y -> Num.min x y <= y.
Proof.
  unfold Num.min. intros H.
  destruct (is_nan x) eqn:Hx; [discriminate H |].
  destruct (is_nan y) eqn:Hy; [discriminate H |]. cbn [orb] in *.
  destruct (x <? y) eqn:Hxy; [now apply lt_le |].
  destruct (y <? x) eqn:Hyx; [now apply le_refl |].
  destruct (get_sign x); [now apply not_lt_le | now apply le_refl].
Qed.

Lemma min_positive x y : 0 < x -> 0 < y -> 0 < Num.min x y.
Proof.
  intros Hx Hy. unfold Num.min.
  rewrite (lt_not_nan_r Hx), (lt_not_nan_r Hy). cbn [orb].
  destruct (x <? y); [assumption |].
  destruct (y <? x); [assumption |].
  now destruct (get_sign x).
Qed.

Lemma min_positive_inv x y : 0 < Num.min x y -> 0 < x /\ 0 < y.
Proof.
  intros H. split.
  - exact (lt_le_trans H (min_le_l _ _ H)).
  - exact (lt_le_trans H (min_le_r _ _ H)).
Qed.


Lemma min_r x y : 0 < y -> y < x -> Num.min x y = y.
Proof.
  intros Hy Hyx. unfold Num.min.
  rewrite (lt_not_nan_r Hy), (lt_not_nan_r Hyx). cbn [orb].
  rewrite (le_not_lt (lt_le Hyx)). now rewrite Hyx.
Qed.


(** ** Subtraction *)

Lemma sub_zero_r x : x - 0 = x.
Proof.
  apply Prim2SF_inj. rewrite sub_spec, Prim2SF_zero.
  destruct (Prim2SF x) as [s | s | | s m e]; try reflexivity.
  now destruct s.
Qed.

Lemma add_zero_l x : 0 < x -> 0 + x = x.
Proof.
  intros Hx. apply Prim2SF_inj. rewrite add_spec, Prim2SF_zero.
  destruct (positive_cases Hx) as [E | (m & e & E)]; now rewrite E.
Qed.

(** A double between two others is finite, and the difference of a
    finite double with itself is [+0]. *)
Lemma sub_diag x lo hi : lo < x -> x < hi -> x - x = 0.
Proof.
  unfold Num.lt. rewrite !ltb_spec. unfold SFltb. intros Hlo Hhi.
  apply Prim2SF_inj. rewrite sub_spec, Prim2SF_zero.
  destruct (Prim2SF x) as [s | s | | s m e].
  - now destruct s.
  - destruct s.
    + destruct (Prim2SF lo) as [? | [] | | [] ? ?]; discriminate.
    + destruct (Prim2SF hi) as [? | [] | | [] ? ?]; discriminate.
  - destruct (Prim2SF lo); discriminate.
  - unfold SF64sub, SFsub. now rewrite Z.sub_diag.
Qed.

Lemma digits2_bounds m :
  (2 ^ (Zpos (digits2_pos m) - 1) <= Zpos m < 2 ^ Zpos (digits2_pos m))%Z.
Proof.
  induction m as [p IH | p IH |]; cbn [digits2_pos];
    [rewrite (Pos2Z.inj_xI p) | rewrite (Pos2Z.inj_xO p) | cbn; lia];
    rewrite Pos2Z.inj_succ;
    set (d := Zpos (digits2_pos p)) in *;
    assert (Hd : (1 <= d)%Z) by (unfold d; lia);
    assert (E1 : (2 ^ d = 2 * 2 ^ (d - 1))%Z)
      by (replace d with (Z.succ (d - 1)) at 1 by lia;
          apply Z.pow_succ_r; lia);
    assert (E2 : (2 ^ Z.succ d = 2 * 2 ^ d)%Z)
      by (apply Z.pow_succ_r; lia);
    replace (Z.succ d - 1)%Z with d by lia;
    rewrite E2; rewrite E1 in *; lia.
Qed.

(** Rounding a mantissa that is not negative gives a double that is not
    negative. *)
Lemma shr_1_nonneg mrs : (0 <= shr_m mrs -> 0 <= shr_m (shr_1 mrs))%Z.
Proof.
  destruct mrs as [m r s]. cbn [shr_m].
  destruct m as [| p | p]; [| destruct p .. ]; cbn; lia.
Qed.

Lemma iter_shr_1_nonneg p :
  forall mrs, (0 <= shr_m mrs -> 0 <= shr_m (iter_pos shr_1 p mrs))%Z.
Proof.
  induction p as [p IH | p IH |]; intros mrs H; cbn [iter_pos].
  - apply IH, IH. now apply shr_1_nonneg.
  - now apply IH, IH.
  - now apply shr_1_nonneg.
Qed.

Lemma shr_fexp_nonneg m e l :
  (0 <= m)%Z -> (0 <= shr_m (fst (shr_fexp prec emax m e l)))%Z.
Proof.
  intros H. unfold shr_fexp, shr.
  assert (H0 : (0 <= shr_m (shr_record_of_loc m l))%Z)
    by (destruct l as [| []]; exact H).
  destruct (fexp prec emax (Zdigits2 m + e) - e)%Z; cbn [fst]; try exact H0.
  now apply iter_shr_1_nonneg.
Qed.

Lemma binary_round_aux_nonneg mx ex lx :
  (0 <= mx)%Z -> nonneg (binary_round_aux prec emax false mx ex lx).
Proof.
  intros H. unfold binary_round_aux.
  pose proof (shr_fexp_nonneg ex lx H) as H1.
  destruct (shr_fexp prec emax mx ex lx) as [mrs' e']. cbn [fst] in H1.
  assert (H2 : (0 <= round_nearest_even (shr_m mrs')
                       (loc_of_shr_record mrs'))%Z).
  { unfold round_nearest_even.
    destruct (loc_of_shr_record mrs') as [| []]; try lia.
    destruct (Z.even (shr_m mrs')); lia. }
  pose proof (shr_fexp_nonneg e' loc_Exact H2) as H3.
  destruct (shr_fexp prec emax _ e' loc_Exact) as [mrs'' e''].
  cbn [fst] in H3.
  destruct (shr_m mrs'') as [| p | p]; [reflexivity | | lia].
  now destruct (Z.leb e'' (emax - prec)).
Qed.

Lemma binary_normalize_nonneg m e :
  (0 <= m)%Z -> nonneg (binary_normalize prec emax m e false).
Proof.
  intros H. unfold binary_normalize.
  destruct m as [| p | p]; [reflexivity | | lia].
  unfold binary_round.
  destruct (shl_align p e _) as [mz ez].
  now apply binary_round_aux_nonneg.
Qed.

(** The mantissas of two positive doubles, aligned on the smaller
    exponent, compare as the doubles do. *)
Lemma aligned_le mx ex my ey :
  bounded prec emax mx ex = true -> bounded prec emax my ey = true ->
  SFleb (S754_finite false my ey) (S754_finite false mx ex) = true ->
  Z.min ex ey = ey /\
  (Zpos (fst (shl_align my ey ey)) <= Zpos (fst (shl_align mx ex ey)))%Z.
Proof.
  unfold bounded, canonical_mantissa, fexp, SFleb. cbn [SFcompare].
  intros Hx Hy Hle.
  apply andb_prop in Hx, Hy. destruct Hx as [Hx _], Hy as [Hy _].
  apply Z.eqb_eq in Hx, Hy.
  assert (Hmy : fst (shl_align my ey ey) = my).
  { unfold shl_align. now rewrite Z.sub_diag. }
  rewrite Hmy.
  destruct (Z.compare_spec ey ex) as [E | L | G]; try discriminate.
  - subst ex. split; [apply Z.min_id |].
    unfold shl_align. rewrite Z.sub_diag. cbn [fst].
    change (Pos.compare_cont Eq my mx) with (Pos.compare my mx) in Hle.
    destruct (Pos.compare_spec my mx); try discriminate; lia.
  - split; [lia |].
    unfold shl_align.
    destruct (ey - ex)%Z as [| d | d] eqn:Hd; try lia. cbn [fst].
    change (Pos.iter xO mx d) with (shift_pos d mx).
    rewrite shift_pos_correct.
    change (Z.pow_pos 2 d) with (2 ^ Zpos d)%Z.
    pose proof (digits2_bounds mx) as Bx.
    pose proof (digits2_bounds my) as By.
    unfold emin, prec, emax in *.
    assert (Dx : Zpos (digits2_pos mx) = 53%Z) by lia.
    assert (Dy : (Zpos (digits2_pos my) <= 53)%Z) by lia.
    rewrite Dx in Bx.
    assert (P : (2 ^ Zpos (digits2_pos my) <= 2 ^ 53)%Z)
      by (apply Z.pow_le_mono_r; lia).
    assert (Q : (2 ^ 1 <= 2 ^ Zpos d)%Z) by (apply Z.pow_le_mono_r; lia).
    change (2 ^ 1)%Z with 2%Z in Q.
    change (2 ^ (53 - 1))%Z with 4503599627370496%Z in Bx.
    change (2 ^ 53)%Z with 9007199254740992%Z in P, Bx.
    nia.
Qed.

(** Taking a positive finite double from one that is not smaller
    leaves a double that is not negative. *)
Lemma sub_nonneg x y :
  0 < y -> y <= x -> y < infinity -> 0 <= x - y.
Proof.
  intros Hy Hyx Hfin.
  pose proof (Prim2SF_valid x) as Vx. pose proof (Prim2SF_valid y) as Vy.
  unfold Num.lt, Num.le in *.
  rewrite leb_spec, sub_spec, Prim2SF_zero.
  rewrite leb_spec in Hyx. rewrite ltb_spec, Prim2SF_infinity in Hfin.
  destruct (positive_cases Hy) as [E | (my & ey & E)]; rewrite E in *;
    [discriminate Hfin |].
  destruct (Prim2SF x) as [s | s | | s mx ex].
  - destruct s; discriminate Hyx.
  - destruct s; [discriminate Hyx | reflexivity].
  - discriminate Hyx.
  - destruct s; [discriminate Hyx |].
    cbn [valid_binary SpecFloat.valid_binary] in Vx, Vy.
    destruct (aligned_le mx ex my ey Vx Vy Hyx) as [Hmin Hm].
    unfold SF64sub, SFsub. cbn [cond_Zopp]. rewrite Hmin.
    apply binary_normalize_nonneg. lia.
Qed.


(** A double between two others is finite. *)
Lemma between_finite x lo hi : lo < x -> x < hi -> is_finite x = true.
Proof.
  unfold Num.lt, is_finite, is_infinity, is_nan.
  rewrite !ltb_spec, !eqb_spec, abs_spec. unfold SFltb. intros Hlo Hhi.
  destruct (Prim2SF x) as [s | s | | s m e]; cbn.
  - reflexivity.
  - destruct s.
    + destruct (Prim2SF lo) as [? | [] | | [] ? ?]; discriminate.
    + destruct (Prim2SF hi) as [? | [] | | [] ? ?]; discriminate.
  - destruct (Prim2SF lo); discriminate.
  - rewrite ?Z.compare_refl, ?Pos.compare_cont_refl. now destruct s.
Qed.

(** [Math.min] of a double and one below it. *)
Lemma min_below x y : y < x -> Num.min x y = y.
Proof.
  intros Hyx. unfold Num.min.
  rewrite (lt_not_nan_r Hyx), (lt_not_nan_l Hyx). cbn [orb].
  assert (H : (x <? y) = false) by (clear - Hyx; keys).
  now rewrite H, Hyx.
Qed.

(** A finite double is below the positive infinity. *)
Lemma finite_lt_infinity x : is_finite x = true -> x < infinity.
Proof.
  unfold is_finite, is_infinity, is_nan, Num.lt.
  rewrite !eqb_spec, ltb_spec, abs_spec, Prim2SF_infinity.
  destruct (Prim2SF x) as [s | s | | s m e]; cbn; try discriminate;
    try reflexivity.
  now destruct s.
Qed.

Lemma le_zero_eqb x : 0 <= x -> (x <=? 0) = (x =? 0).
Proof. intros. keys. Qed.

Lemma le_zero_lt x : 0 <= x -> (x <=? 0) = false -> 0 < x.
Proof. intros. keys. Qed.


Lemma le_zero_zero : ((0 <=? 0) = true)%float.
Proof. reflexivity. Qed.

End NumFacts.


(* ------------------------------------------------------------------ *)
(** ** Allocation engine *)

Module AllocationFacts.

Import Allocation NumFacts.
Local Open Scope float_scope.

(** The accumulator of the loop is only ever extended at its end. *)
Lemma allocLoop_acc (dues : list LedgerDue) :
  forall acc r,
    allocLoop dues acc r =
    (acc ++ fst (allocLoop dues [] r), snd (allocLoop dues [] r)).
Proof.
  induction dues as [| d rest IH]; intros acc r; simpl.
  - now rewrite app_nil_r.
  - destruct (r <=? 0); simpl; [now rewrite app_nil_r |].
    destruct (0 <? balance d); [| apply IH].
    destruct (0 <? Num.min r (balance d)); [| apply IH].
    rewrite (IH (acc ++ _)), (IH [_]). simpl.
    now rewrite <- app_assoc.
Qed.

(** Once nothing remains the loop leaves its state alone. *)
Lemma allocLoop_break (dues : list LedgerDue) (acc : list Item) (r : float) :
  r <= 0 -> allocLoop dues acc r = (acc, r).
Proof.
  intros Hr. destruct dues as [| d rest]; simpl; [reflexivity |].
  now rewrite Hr.
Qed.

(** One turn of the loop on a due that receives an item. *)
Lemma allocLoop_take (d : LedgerDue) (rest : list LedgerDue) (r : float) :
  (r <=? 0) = false -> 0 < balance d -> 0 < Num.min r (balance d) ->
  allocLoop (d :: rest) [] r =
  (mkItem (feeHeadId d) (Num.min r (balance d))
     :: fst (allocLoop rest [] (r - Num.min r (balance d))),
   snd (allocLoop rest [] (r - Num.min r (balance d)))).
Proof.
  intros Hr Hb Ha. cbn [allocLoop]. rewrite Hr, Hb, Ha.
  now rewrite allocLoop_acc.
Qed.

(** What remains after a turn that hands out an item is not negative,
    when the balance is finite. *)
Lemma remaining_nonneg (r b : float) :
  0 < r -> 0 < b -> is_finite b = true -> 0 <= r - Num.min r b.
Proof.
  intros Hr Hb Hfin.
  pose proof (min_positive Hr Hb) as Ha.
  apply sub_nonneg; [exact Ha | now apply min_le_l |].
  exact (le_lt_trans (min_le_r _ _ Ha) (finite_lt_infinity _ Hfin)).
Qed.

(** From an amount that is not negative, over finite balances, the loop
    computes the greedy split. *)
Lemma allocLoop_greedy (dues : list LedgerDue) :
  forall r, 0 <= r -> finiteBalances dues ->
    allocLoop dues [] r = greedy r dues.
Proof.
  induction dues as [| d rest IH]; intros r Hr Hfin; [reflexivity |].
  inversion Hfin as [| ? ? Hd Hrest]; subst.
  cbn [greedy]. rewrite <- (le_zero_eqb Hr).
  destruct (r <=? 0) eqn:Hle; [cbn [allocLoop]; now rewrite Hle |].
  pose proof (le_zero_lt Hr Hle) as Hpos.
  destruct (0 <? balance d) eqn:Hb.
  - pose proof (min_positive Hpos Hb) as Ha.
    rewrite allocLoop_take by assumption.
    rewrite IH by (auto using remaining_nonneg).
    now destruct (greedy _ rest).
  - cbn [allocLoop]. rewrite Hle, Hb. now apply IH.
Qed.

(** What the loop hands back is the amount less the items, taken away
    one at a time. *)
Lemma allocLoop_remaining (dues : list LedgerDue) :
  forall r,
    snd (allocLoop dues [] r) =
    fold_left sub (map amountPaid (fst (allocLoop dues [] r))) r.
Proof.
  induction dues as [| d rest IH]; intros r; [reflexivity |].
  cbn [allocLoop].
  destruct (r <=? 0); [reflexivity |].
  destruct (0 <? balance d); [| apply IH].
  destruct (0 <? Num.min r (balance d)); [| apply IH].
  rewrite allocLoop_acc. cbn [fst snd app map fold_left]. apply IH.
Qed.

(** Over finite balances, what the loop hands back is not negative. *)
Lemma allocLoop_nonneg (dues : list LedgerDue) :
  forall r, 0 <= r -> finiteBalances dues -> 0 <= snd (allocLoop dues [] r).
Proof.
  induction dues as [| d rest IH]; intros r Hr Hfin; [exact Hr |].
  inversion Hfin as [| ? ? Hd Hrest]; subst.
  destruct (r <=? 0) eqn:Hle; [cbn [allocLoop]; now rewrite Hle |].
  pose proof (le_zero_lt Hr Hle) as Hpos.
  destruct (0 <? balance d) eqn:Hb.
  - pose proof (min_positive Hpos Hb) as Ha.
    rewrite allocLoop_take by assumption. cbn [snd].
    apply IH; auto using remaining_nonneg.
  - cbn [allocLoop]. rewrite Hle, Hb. now apply IH.
Qed.

(** An item that does not take the whole balance of its due takes all
    that remained, and nothing is left. *)
Lemma min_part (r b : float) :
  0 < Num.min r b -> Num.min r b <> b ->
  Num.min r b = r /\ r - r = 0.
Proof.
  intros Ha Hne.
  destruct (min_cases _ _ Ha) as [E | E]; [| contradiction].
  split; [exact E |].
  rewrite E in Ha.
  apply (@sub_diag r 0 b); [exact Ha |].
  pose proof (min_le_r r b) as Hle. rewrite E in Hle.
  assert (Hrb : r <= b) by (apply Hle; exact Ha).
  destruct (r <? b) eqn:Hlt; [exact Hlt |].
  exfalso. apply Hne. rewrite E.
  apply eqb_eq_positive; [exact Ha |].
  apply le_antisym; [exact Hrb |].
  apply not_lt_le; [exact (lt_not_nan_r Ha) | | exact Hlt].
  exact (lt_not_nan_r (lt_le_trans Ha Hrb)).
Qed.

(** Whether an item takes the whole balance of its due can be told. *)
Lemma full_or_not (a b : float) : a = b \/ a <> b.
Proof.
  destruct (PrimFloat.Leibniz.eqb a b) eqn:E.
  - left. now apply FloatAxioms.Leibniz.eqb_spec.
  - right. intros H. apply FloatAxioms.Leibniz.eqb_spec in H. congruence.
Qed.

(** When something is left over, every due with a positive balance has
    been paid in full. *)
Lemma allocLoop_leftover (dues : list LedgerDue) :
  forall r, 0 <= r -> finiteBalances dues ->
    0 < snd (allocLoop dues [] r) ->
    fst (allocLoop dues [] r) = map fullItem (outstanding dues).
Proof.
  induction dues as [| d rest IH]; intros r Hr Hfin Hleft; [reflexivity |].
  inversion Hfin as [| ? ? Hd Hrest]; subst.
  destruct (r <=? 0) eqn:Hle.
  - exfalso. cbn [allocLoop] in Hleft. rewrite Hle in Hleft.
    cbn [snd] in Hleft. clear - Hle Hleft. keys.
  - pose proof (le_zero_lt Hr Hle) as Hpos.
    cbn [outstanding filter]. fold (outstanding rest).
    destruct (0 <? balance d) eqn:Hb.
    + pose proof (min_positive Hpos Hb) as Ha.
      rewrite allocLoop_take in * by assumption. cbn [fst snd map] in *.
      destruct (full_or_not (Num.min r (balance d)) (balance d)) as [E | Hne].
      * unfold fullItem at 1. f_equal; [now rewrite E |].
        apply IH; auto using remaining_nonneg.
      * exfalso. destruct (@min_part _ _ Ha Hne) as [E Hzero].
        rewrite E, Hzero in Hleft.
        rewrite allocLoop_break in Hleft by exact le_zero_zero.
        discriminate Hleft.
    + cbn [allocLoop] in *. rewrite Hle, Hb in *. now apply IH.
Qed.

(** Whatever the amount, the items come from the dues. *)
Lemma allocLoop_allocatedFrom (dues : list LedgerDue) :
  forall r, allocatedFrom dues (fst (allocLoop dues [] r)).
Proof.
  induction dues as [| d rest IH]; intros r; [constructor |].
  cbn [allocLoop].
  destruct (r <=? 0); [constructor |].
  destruct (0 <? balance d) eqn:Hb; [| apply af_skip, IH].
  destruct (0 <? Num.min r (balance d)) eqn:Ha; [| apply af_skip, IH].
  rewrite allocLoop_acc. cbn [fst app].
  apply af_take; [exact Hb | exact Ha | now apply min_le_r | apply IH].
Qed.

Lemma allocatePayment_allocatedFrom (amount : float)
    (dues : list LedgerDue) :
  allocatedFrom dues (fst (allocatePayment amount dues)).
Proof. apply allocLoop_allocatedFrom. Qed.

Lemma allocatedFrom_positive (dues : list LedgerDue) (items : list Item) :
  allocatedFrom dues items -> Forall (fun it => 0 < amountPaid it) items.
Proof. induction 1; auto. Qed.

Lemma allocatedFrom_heads (dues : list LedgerDue) (items : list Item) :
  allocatedFrom dues items ->
  incl (map itemHead items) (map feeHeadId dues).
Proof.
  induction 1; simpl.
  - intros x [].
  - now apply incl_tl.
  - intros x [<- | Hx]; [now left | right; now apply IHallocatedFrom].
Qed.

Lemma allocatedFrom_skips (dues : list LedgerDue) (items : list Item) :
  allocatedFrom dues items ->
  NoDup (map feeHeadId dues) ->
  forall d, In d dues -> balance d <= 0 ->
    ~ In (feeHeadId d) (map itemHead items).
Proof.
  induction 1
    as [dues | d0 dues items Haf IH | d0 dues items a Hb Ha Hle Haf IH];
    intros Hnd d Hin Hbal; simpl.
  - tauto.
  - inversion Hnd as [| ? ? Hnotin Hnd']; subst.
    destruct Hin as [<- | Hin]; [| now apply IH].
    intros Hitem. apply Hnotin.
    now apply (allocatedFrom_heads Haf).
  - inversion Hnd as [| ? ? Hnotin Hnd']; subst.
    destruct Hin as [<- | Hin]; [exfalso; clear - Hb Hbal; keys |].
    intros [Heq | Hitem].
    + apply Hnotin. rewrite Heq. now apply in_map.
    + now apply (IH Hnd' d).
Qed.

(** C1. From a positive amount, over dues whose balances are finite (as
    those of a ledger received as JSON are), [allocatePayment] walks the
    dues in the order given and computes the greedy split of the
    specification in double arithmetic: each due with a positive balance
    receives [min(remaining, balance)] as a new last item, the remaining
    amount decreases by it, and the walk stops when the remaining amount
    is zero or the dues are exhausted.  For dues [A:100, B:50] and
    amount 120 the items are [A:100, B:20] and nothing remains. *)
Theorem allocatePayment_greedy_in_order (amount : float)
    (dues : list LedgerDue) :
  0 < amount -> finiteBalances dues ->
  allocatePayment amount dues = greedy amount dues /\
  allocatePayment 120 [dueA100; dueB50] =
    ([mkItem "A" 100; mkItem "B" 20], 0).
Proof.
  intros Hpos Hfin. split; [| reflexivity].
  unfold allocatePayment. apply allocLoop_greedy; [| exact Hfin].
  now apply lt_le.
Qed.

Lemma allocatePayment_greedy_in_order_witness :
  allocatePayment 120 [dueA100; dueC0; dueB50] =
    greedy 120 [dueA100; dueC0; dueB50].
Proof.
  refine (proj1 (@allocatePayment_greedy_in_order 120
                   [dueA100; dueC0; dueB50] eq_refl _)).
  repeat constructor.
Defined.

(** C2, as amended.  From a positive amount, over dues whose balances
    are finite, what [allocatePayment] hands back is the amount less the
    [amountPaid] of each item in turn, each difference rounded as doubles
    are; it is never negative; and when it is positive, every due with a
    positive balance has received its whole balance, in the order of the
    dues.  For dues [A:50] and amount 80 the items are [A:50] and 30
    remains. *)
Theorem allocatePayment_conservation (amount : float)
    (dues : list LedgerDue) :
  0 < amount -> finiteBalances dues ->
  let items := fst (allocatePayment amount dues) in
  let remainder := snd (allocatePayment amount dues) in
  remainder = fold_left sub (map amountPaid items) amount /\
  0 <= remainder /\
  (0 < remainder -> items = map fullItem (outstanding dues)) /\
  allocatePayment 80 [dueA50] = ([mkItem "A" 50], 30).
Proof.
  intros Hpos Hfin. cbv zeta. unfold allocatePayment.
  pose proof (lt_le Hpos) as H0.
  split; [apply allocLoop_remaining |].
  split; [now apply allocLoop_nonneg |].
  split; [now apply allocLoop_leftover | reflexivity].
Qed.

Lemma allocatePayment_conservation_witness :
  fst (allocatePayment 80 [dueA50; dueDneg]) =
  map fullItem (outstanding [dueA50; dueDneg]).
Proof.
  refine (proj1 (proj2 (proj2 (@allocatePayment_conservation 80
                                 [dueA50; dueDneg] eq_refl _))) eq_refl).
  repeat constructor.
Defined.

(** Conservation as the specification states it fails on doubles.  With
    dues [A:1.03] and amount 3.07 the item is 1.03 and 2.04 remains,
    and 1.03 + 2.04 is 3.0700000000000003, above the amount.  With dues
    [A:0.14, B:1.9] and amount 1.57 nothing remains, so the amount does
    not exceed the positive balances, and the items total
    1.5700000000000003, above the amount. *)
Lemma conservation_counterexample :
  (0 < 3.07 /\
   allocatePayment 3.07 [mkDue "A" "Tuition Fee" 1.03 0 1.03] =
     ([mkItem "A" 1.03], 2.04) /\
   (itemsTotal [mkItem "A" 1.03] + 2.04 =? 3.07) = false /\
   3.07 < itemsTotal [mkItem "A" 1.03] + 2.04) /\
  (0 < 1.57 /\
   snd (allocatePayment 1.57
          [mkDue "A" "Tuition Fee" 0.14 0 0.14;
           mkDue "B" "Lab Fee" 1.9 0 1.9]) = 0 /\
   1.57 <
   itemsTotal
     (fst (allocatePayment 1.57
             [mkDue "A" "Tuition Fee" 0.14 0 0.14;
              mkDue "B" "Lab Fee" 1.9 0 1.9]))).
Proof. repeat split; reflexivity. Qed.

(** C3. Whatever the amount and the dues, every item that
    [allocatePayment] emits has a positive [amountPaid]; the items come,
    in order, from distinct dues with a positive balance, none exceeding
    the balance of its due; so a due whose balance is zero or negative
    receives no item (read on fee-head ids when those are distinct, as
    they are in a ledger). *)
Theorem allocatePayment_items_positive (amount : float)
    (dues : list LedgerDue) :
  let items := fst (allocatePayment amount dues) in
  Forall (fun it => 0 < amountPaid it) items /\
  allocatedFrom dues items /\
  (NoDup (map feeHeadId dues) ->
   forall d, In d dues -> balance d <= 0 ->
     ~ In (feeHeadId d) (map itemHead items)).
Proof.
  cbv zeta. pose proof (allocatePayment_allocatedFrom amount dues) as Haf.
  repeat split.
  - exact (allocatedFrom_positive Haf).
  - exact Haf.
  - now apply allocatedFrom_skips.
Qed.

Lemma allocatePayment_items_positive_witness :
  ~ In "C"%string
      (map itemHead (fst (allocatePayment 120 [dueA100; dueC0; dueB50]))).
Proof.
  refine (proj2 (proj2 (@allocatePayment_items_positive 120
                          [dueA100; dueC0; dueB50])) _ dueC0 _ _).
  - repeat constructor; simpl; intuition discriminate.
  - simpl. auto.
  - reflexivity.
Defined.

End AllocationFacts.

(* ------------------------------------------------------------------ *)
(** ** More on the allocation engine *)

Module AllocationShapeFacts.

Import Allocation NumFacts AllocationFacts.
Local Open Scope float_scope.

Lemma allocLoop_all_but_last (dues : list LedgerDue) :
  forall r,
    Forall (fun it => exists d, In d dues /\ 0 < balance d /\ it = fullItem d)
      (removelast (fst (allocLoop dues [] r))).
Proof.
  induction dues as [| d rest IH]; intros r; [constructor |].
  assert (Hrest : forall r',
            Forall (fun it => exists d0, In d0 (d :: rest) /\ 0 < balance d0 /\
                                      it = fullItem d0)
              (removelast (fst (allocLoop rest [] r')))).
  { intros r'. eapply Forall_impl; [| apply (IH r')].
    intros it (d0 & Hin & Hb & ->). exists d0. split; [now right | auto]. }
  cbn [allocLoop].
  destruct (r <=? 0); [constructor |].
  destruct (0 <? balance d) eqn:Hb; [| apply Hrest].
  destruct (0 <? Num.min r (balance d)) eqn:Ha; [| apply Hrest].
  rewrite allocLoop_acc. cbn [fst app].
  specialize (Hrest (r - Num.min r (balance d))).
  destruct (fst (allocLoop rest [] (r - Num.min r (balance d))))
    as [| it items] eqn:Hitems; [constructor |].
  change (removelast
            (mkItem (feeHeadId d) (Num.min r (balance d)) :: it :: items))
    with (mkItem (feeHeadId d) (Num.min r (balance d))
            :: removelast (it :: items)).
  constructor; [| exact Hrest].
  exists d. split; [now left |]. split; [exact Hb |].
  unfold fullItem. f_equal.
  destruct (full_or_not (Num.min r (balance d)) (balance d)) as [E | Hne];
    [exact E | exfalso].
  destruct (@min_part _ _ Ha Hne) as [E Hzero].
  rewrite E, Hzero, allocLoop_break in Hitems by exact le_zero_zero.
  discriminate Hitems.
Qed.

(** X1. From a positive amount, every item that [allocatePayment] emits
    except the last one pays its due in full: the item carries the fee
    head and the whole positive balance of a due of the list.  Only the
    last item can be a part payment. *)
Theorem allocatePayment_all_but_last_full (amount : float)
    (dues : list LedgerDue) :
  0 < amount ->
  Forall (fun it => exists d, In d dues /\ 0 < balance d /\ it = fullItem d)
    (removelast (fst (allocatePayment amount dues))).
Proof. intros _. apply allocLoop_all_but_last. Qed.

Lemma allocatePayment_all_but_last_full_witness :
  Forall (fun it => exists d, In d [dueA100; dueC0; dueB50] /\
                              0 < balance d /\ it = fullItem d)
    (removelast (fst (allocatePayment 120 [dueA100; dueC0; dueB50]))).
Proof.
  exact (@allocatePayment_all_but_last_full 120 [dueA100; dueC0; dueB50]
           eq_refl).
Defined.

Lemma allocLoop_skips (dues : list LedgerDue) (r : float) :
  outstanding dues = [] -> allocLoop dues [] r = ([], r).
Proof.
  induction dues as [| d rest IH]; [reflexivity |].
  cbn [outstanding filter allocLoop]. fold (outstanding rest).
  destruct (0 <? balance d); [discriminate |].
  intros H. destruct (r <=? 0); [reflexivity | now apply IH].
Qed.

(** X3. When there is nothing to allocate, because the amount is zero or
    negative or because no due has a positive balance, [allocatePayment]
    emits no item and hands the whole amount back as [remaining]. *)
Theorem allocatePayment_nothing_to_allocate (amount : float)
    (dues : list LedgerDue) :
  amount <= 0 \/ outstanding dues = [] ->
  allocatePayment amount dues = ([], amount).
Proof.
  intros [Hneg | Hnone]; unfold allocatePayment.
  - now apply allocLoop_break.
  - now apply allocLoop_skips.
Qed.

Lemma allocatePayment_nothing_to_allocate_witness :
  allocatePayment 75 [dueC0; dueDneg] = ([], 75).
Proof.
  exact (@allocatePayment_nothing_to_allocate 75 [dueC0; dueDneg]
           (or_intror eq_refl)).
Defined.

End AllocationShapeFacts.


(* ------------------------------------------------------------------ *)
(** ** Upserts *)

Module UpsertFacts.

Import FeeRoutes.

Lemma upsert_ext {A} (matches : A -> bool) (u1 u2 : A -> A) (fresh : A)
    (rows : list A) :
  (forall r, matches r = true -> u1 r = u2 r) ->
  upsert matches u1 fresh rows = upsert matches u2 fresh rows.
Proof.
  intros Hext. induction rows as [| r rest IH]; simpl; [reflexivity |].
  destruct (matches r) eqn:E; [now rewrite Hext | now rewrite IH].
Qed.

Section Put.

Variables (A K : Type) (key : A -> K) (same : A -> A -> bool).
Hypothesis same_spec : forall a r, same a r = true <-> key r = key a.

Lemma same_refl (a : A) : same a a = true.
Proof. now apply same_spec. Qed.

Lemma existsb_same (a : A) (rows : list A) :
  existsb (same a) rows = true <-> In (key a) (map key rows).
Proof.
  rewrite existsb_exists, in_map_iff. split.
  - intros (r & Hin & Hs). exists r. split; [now apply same_spec | exact Hin].
  - intros (r & Hk & Hin). exists r. split; [exact Hin | now apply same_spec].
Qed.

Lemma put_miss (a : A) (rows : list A) :
  existsb (same a) rows = false -> put same a rows = rows ++ [a].
Proof.
  unfold put. induction rows as [| r rest IH]; simpl; [reflexivity |].
  destruct (same a r); simpl; [discriminate |].
  intros H. now rewrite IH.
Qed.

Lemma put_keys_hit (a : A) (rows : list A) :
  existsb (same a) rows = true ->
  map key (put same a rows) = map key rows.
Proof.
  unfold put. induction rows as [| r rest IH]; simpl; [discriminate |].
  destruct (same a r) eqn:E; simpl.
  - intros _. f_equal. symmetry. now apply same_spec.
  - intros H. now rewrite IH.
Qed.

Lemma put_length_hit (a : A) (rows : list A) :
  existsb (same a) rows = true ->
  List.length (put same a rows) = List.length rows.
Proof.
  intros H. rewrite <- (length_map key), put_keys_hit by exact H.
  apply length_map.
Qed.

Lemma put_hit (a : A) (rows : list A) :
  NoDup (map key rows) -> existsb (same a) rows = true ->
  put same a rows = map (stamp same a) rows.
Proof.
  unfold put, stamp.
  induction rows as [| r rest IH]; simpl; [discriminate |].
  intros Hnd Hex. inversion Hnd as [| ? ? Hnotin Hnd']; subst.
  destruct (same a r) eqn:E; simpl.
  - f_equal. clear IH Hex.
    transitivity (map (fun x : A => x) rest); [now rewrite map_id |].
    apply map_ext_in. intros r' Hin.
    destruct (same a r') eqn:E'; [exfalso | reflexivity].
    apply Hnotin. apply same_spec in E, E'. rewrite E, <- E'.
    now apply in_map.
  - f_equal. now apply IH.
Qed.

Lemma put_In (a : A) (rows : list A) : In a (put same a rows).
Proof.
  unfold put. induction rows as [| r rest IH]; simpl; [now left |].
  destruct (same a r); simpl; auto.
Qed.

Lemma put_exists (a : A) (rows : list A) :
  existsb (same a) (put same a rows) = true.
Proof.
  apply existsb_exists. exists a. split; [apply put_In | apply same_refl].
Qed.

Lemma put_keys (a : A) (rows : list A) :
  map key (put same a rows) =
  if existsb (same a) rows then map key rows else map key rows ++ [key a].
Proof.
  destruct (existsb (same a) rows) eqn:E.
  - now apply put_keys_hit.
  - rewrite put_miss by exact E. now rewrite map_app.
Qed.

Lemma put_NoDup (a : A) (rows : list A) :
  NoDup (map key rows) -> NoDup (map key (put same a rows)).
Proof.
  intros Hnd. rewrite put_keys. destruct (existsb (same a) rows) eqn:E.
  - exact Hnd.
  - apply NoDup_app; [exact Hnd | repeat constructor; intros [] |].
    intros k Hk [<- | []].
    apply existsb_same in Hk. congruence.
Qed.

Lemma put_put (a : A) (rows : list A) :
  put same a (put same a rows) = put same a rows.
Proof.
  unfold put. induction rows as [| r rest IH]; simpl.
  - now rewrite same_refl.
  - destruct (same a r) eqn:E; simpl.
    + now rewrite same_refl.
    + now rewrite E, IH.
Qed.

Lemma filter_same_unique (a r : A) (rows : list A) :
  NoDup (map key rows) -> In r rows -> same a r = true ->
  filter (same a) rows = [r].
Proof.
  induction rows as [| x rest IH]; simpl; [tauto |].
  intros Hnd Hin Hs. inversion Hnd as [| ? ? Hnotin Hnd']; subst.
  destruct Hin as [-> | Hin].
  - rewrite Hs. f_equal.
    destruct (filter (same a) rest) as [| y l] eqn:F; [reflexivity |].
    exfalso. assert (Hy : In y (filter (same a) rest))
      by (rewrite F; now left).
    apply filter_In in Hy as [Hy Hsy]. apply Hnotin.
    apply same_spec in Hs, Hsy. rewrite Hs, <- Hsy. now apply in_map.
  - destruct (same a x) eqn:E; [exfalso | now apply IH].
    apply Hnotin. apply same_spec in Hs, E. rewrite E, <- Hs.
    now apply in_map.
Qed.

Lemma put_filter_same (a : A) (rows : list A) :
  NoDup (map key rows) -> filter (same a) (put same a rows) = [a].
Proof.
  intros Hnd. apply filter_same_unique.
  - now apply put_NoDup.
  - apply put_In.
  - apply same_refl.
Qed.

Lemma put_filter_other (p : A -> bool) (a : A) (rows : list A) :
  p a = false -> (forall r, same a r = true -> p r = false) ->
  filter p (put same a rows) = filter p rows.
Proof.
  intros Hpa Hp. unfold put.
  induction rows as [| r rest IH]; simpl; [now rewrite Hpa |].
  destruct (same a r) eqn:E; simpl.
  - now rewrite Hpa, (Hp r E).
  - now rewrite IH.
Qed.

(** *** Batches *)

Lemma stamp_key (a r : A) : key (stamp same a r) = key r.
Proof.
  unfold stamp. destruct (same a r) eqn:E; [| reflexivity].
  symmetry. now apply same_spec.
Qed.

Lemma final_key (batch : list A) (r : A) : key (final same batch r) = key r.
Proof.
  unfold final. revert r.
  induction batch as [| a rest IH]; intros r; simpl; [reflexivity |].
  now rewrite IH, stamp_key.
Qed.

Lemma stamp_In (a r : A) (rows : list A) :
  NoDup (map key rows) -> In r rows -> In (stamp same a r) (put same a rows).
Proof.
  intros Hnd Hin. destruct (existsb (same a) rows) eqn:E.
  - rewrite put_hit by assumption. now apply in_map.
  - rewrite put_miss by exact E. apply in_or_app. left.
    unfold stamp. destruct (same a r) eqn:E'; [| exact Hin].
    exfalso. assert (existsb (same a) rows = true); [| congruence].
    apply existsb_exists. now exists r.
Qed.

Lemma putAll_NoDup (batch rows : list A) :
  NoDup (map key rows) -> NoDup (map key (putAll same batch rows)).
Proof.
  unfold putAll. revert rows.
  induction batch as [| a rest IH]; intros rows Hnd; simpl; [exact Hnd |].
  apply IH. now apply put_NoDup.
Qed.

Lemma final_In (batch : list A) :
  forall rows r,
    NoDup (map key rows) -> In r rows ->
    In (final same batch r) (putAll same batch rows).
Proof.
  unfold final, putAll.
  induction batch as [| a rest IH]; intros rows r Hnd Hin; simpl;
    [exact Hin |].
  apply IH; [now apply put_NoDup | now apply stamp_In].
Qed.

Lemma putAll_keys_incl (batch : list A) :
  forall rows, incl (map key rows) (map key (putAll same batch rows)).
Proof.
  unfold putAll.
  induction batch as [| a rest IH]; intros rows; simpl; [apply incl_refl |].
  eapply incl_tran; [| apply IH].
  rewrite put_keys. destruct (existsb (same a) rows);
    [apply incl_refl | now apply incl_appl, incl_refl].
Qed.

(** Every write of a batch finds its document once the batch is
    applied. *)
Lemma putAll_exists (batch : list A) :
  forall rows a, In a batch ->
    existsb (same a) (putAll same batch rows) = true.
Proof.
  induction batch as [| b rest IH]; intros rows a Hin; [destruct Hin |].
  destruct Hin as [-> | Hin]; [| now apply IH].
  apply existsb_same. change (putAll same (a :: rest) rows)
    with (putAll same rest (put same a rows)).
  apply (putAll_keys_incl rest (put same a rows)).
  apply existsb_same, put_exists.
Qed.

(** A batch whose writes all find their document rewrites the rows one
    by one. *)
Lemma putAll_hits (batch : list A) :
  forall rows,
    NoDup (map key rows) ->
    (forall a, In a batch -> existsb (same a) rows = true) ->
    putAll same batch rows = map (final same batch) rows.
Proof.
  unfold putAll, final.
  induction batch as [| a rest IH]; intros rows Hnd Hall; simpl.
  - now rewrite map_id.
  - rewrite IH.
    + rewrite put_hit by (auto; apply Hall; now left).
      now rewrite map_map.
    + now apply put_NoDup.
    + intros b Hb. apply existsb_same.
      rewrite put_keys_hit by (apply Hall; now left).
      apply existsb_same. apply Hall. now right.
Qed.


Lemma NoDup_key_eq (rows : list A) (x y : A) :
  NoDup (map key rows) -> In x rows -> In y rows -> key x = key y -> x = y.
Proof.
  induction rows as [| r rest IH]; simpl; [tauto |].
  intros Hnd Hx Hy Hk. inversion Hnd as [| ? ? Hnotin Hnd']; subst.
  destruct Hx as [-> | Hx], Hy as [-> | Hy]; auto.
  - exfalso. apply Hnotin. rewrite Hk. now apply in_map.
  - exfalso. apply Hnotin. rewrite <- Hk. now apply in_map.
Qed.

(** After a batch, the batch leaves every document as it is. *)
Lemma putAll_settled (batch : list A) :
  forall rows r,
    NoDup (map key rows) -> In r (putAll same batch rows) ->
    final same batch r = r.
Proof.
  induction batch as [| a rest IH]; intros rows r Hnd Hin; [reflexivity |].
  change (putAll same (a :: rest) rows)
    with (putAll same rest (put same a rows)) in Hin.
  change (final same (a :: rest) r) with (final same rest (stamp same a r)).
  assert (Hnd1 : NoDup (map key (put same a rows)))
    by now apply put_NoDup.
  unfold stamp. destruct (same a r) eqn:E.
  - apply (NoDup_key_eq (putAll same rest (put same a rows))).
    + now apply putAll_NoDup.
    + apply final_In; [exact Hnd1 | apply put_In].
    + exact Hin.
    + rewrite final_key. symmetry. now apply same_spec.
  - now apply (IH (put same a rows)).
Qed.

(** A batch applied twice is the batch applied once. *)
Lemma putAll_idempotent (batch rows : list A) :
  NoDup (map key rows) ->
  putAll same batch (putAll same batch rows) = putAll same batch rows.
Proof.
  intros Hnd. rewrite putAll_hits.
  - transitivity (map (fun x : A => x) (putAll same batch rows));
      [| now rewrite map_id].
    apply map_ext_in. intros r Hr. now apply (putAll_settled batch rows).
  - now apply putAll_NoDup.
  - intros a Ha. now apply putAll_exists.
Qed.

End Put.

(** *** Batches of upserts *)


Lemma put_from {A} (same : A -> A -> bool) (a x : A) (rows : list A) :
  In x (put same a rows) -> x = a \/ In x rows.
Proof.
  unfold put. induction rows as [| r rows IH]; cbn.
  - intros [<- | []]. now left.
  - destruct (same a r); cbn.
    + intros [<- | Hin]; [now left | right; now right].
    + intros [<- | Hin]; [right; now left |].
      destruct (IH Hin); [now left | right; now right].
Qed.

Lemma putAll_from {A} (same : A -> A -> bool) (batch : list A) :
  forall rows x, In x (putAll same batch rows) -> In x batch \/ In x rows.
Proof.
  induction batch as [| a batch IH]; intros rows x; cbn; [now right |].
  intros Hin. apply IH in Hin as [Hin | Hin]; [left; now right |].
  apply put_from in Hin as [-> | Hin]; [left; now left | now right].
Qed.

Lemma putAll_filter_other {A} (same : A -> A -> bool) (p : A -> bool)
    (batch : list A) :
  (forall a, In a batch ->
     p a = false /\ forall r, same a r = true -> p r = false) ->
  forall rows, filter p (putAll same batch rows) = filter p rows.
Proof.
  induction batch as [| a batch IH]; intros Hbatch rows; [reflexivity |].
  change (putAll same (a :: batch) rows)
    with (putAll same batch (put same a rows)).
  rewrite IH by (intros x Hx; apply Hbatch; now right).
  destruct (Hbatch a (or_introl eq_refl)) as [Ha Hsame].
  now apply put_filter_other.
Qed.

Section LastWrite.

Variables (A K : Type) (key : A -> K) (same : A -> A -> bool).
Hypothesis same_spec : forall a r, same a r = true <-> key r = key a.



End LastWrite.

End UpsertFacts.

(* ------------------------------------------------------------------ *)
(** ** Fee structures *)


(* ------------------------------------------------------------------ *)
(** ** Fee structures *)

Module FeeStructureFacts.

Import Storage FeeRoutes UpsertFacts NumFacts.
Local Open Scope float_scope.

Lemma structureKeyIs_spec (s c h : ObjectId) (m : string)
    (r : FeeStructure) :
  structureKeyIs s c h m r = true <-> structureKey r = (s, c, h, m).
Proof.
  unfold structureKeyIs, structureKey.
  rewrite !andb_true_iff, !String.eqb_eq.
  split; [intros [[[-> ->] ->] ->]; reflexivity | intros [= -> -> -> ->]; auto].
Qed.

Lemma sameStructure_spec (a r : FeeStructure) :
  sameStructure a r = true <-> structureKey r = structureKey a.
Proof. unfold sameStructure. apply structureKeyIs_spec. Qed.

Lemma truthy_Str (x : string) : x <> ""%string -> Js.truthy (Js.Str x) = true.
Proof.
  intros H. simpl.
  destruct (String.eqb_spec x ""); [contradiction | reflexivity].
Qed.

Lemma castId_Str (x : string) : x <> ""%string -> castId (Js.Str x) = Some x.
Proof.
  intros H. simpl.
  destruct (String.eqb_spec x ""); [contradiction | reflexivity].
Qed.

Section Structures.

Variable numberToString : float -> string.

(** A request with its four fields and a non-negative amount is an
    upsert of the document it describes. *)
Lemma setFeeStructure_valid (user : UserPayload) (c h m : string) (a : float)
    (db : Db) :
  c <> ""%string -> h <> ""%string -> m <> ""%string -> 0 <= a ->
  setFeeStructure numberToString user
    (mkStructureBody (Js.Str c) (Js.Str h) (Js.Number a) (Js.Str m)) db =
  (Json 200 (mkFeeStructure (schoolId user) c h a m),
   withFeeStructures db
     (put sameStructure (mkFeeStructure (schoolId user) c h a m)
        (feeStructures db))).
Proof.
  intros Hc Hh Hm Ha. unfold setFeeStructure.
  cbn [sb_classId sb_feeHeadId sb_amount sb_monthYear].
  rewrite !truthy_Str, !castId_Str by assumption.
  cbn [negb orb Js.isNullish castString].
  rewrite (le_not_lt Ha).
  assert (Hnan : is_nan a = false) by (clear - Ha; keys).
  now rewrite Hnan.
Qed.

(** C6. [setFeeStructure] is an idempotent upsert on
    [(schoolId, classId, feeHeadId, monthYear)]: on a collection that
    respects the unique index, a valid call leaves exactly one document
    under the key, holding the amount of the call; a second call with
    the same amount leaves the database as it is; a further call with
    another amount changes the amount of that document in place, adds no
    document, and leaves the documents under other keys alone. *)
Theorem setFeeStructure_idempotent_upsert (user : UserPayload)
    (c h m : string) (a a' : float) (db : Db) :
  c <> ""%string -> h <> ""%string -> m <> ""%string ->
  0 <= a -> 0 <= a' -> structuresUnique db ->
  let s := schoolId user in
  let body x :=
    mkStructureBody (Js.Str c) (Js.Str h) (Js.Number x) (Js.Str m) in
  let doc x := mkFeeStructure s c h x m in
  let db1 := snd (setFeeStructure numberToString user (body a) db) in
  let db2 := snd (setFeeStructure numberToString user (body a) db1) in
  let db3 := snd (setFeeStructure numberToString user (body a') db2) in
  fst (setFeeStructure numberToString user (body a) db) = Json 200 (doc a) /\
  filter (structureKeyIs s c h m) (feeStructures db1) = [doc a] /\
  countStructures s c h m db1 = 1%nat /\
  db2 = db1 /\
  fst (setFeeStructure numberToString user (body a') db2) = Json 200 (doc a') /\
  filter (structureKeyIs s c h m) (feeStructures db3) = [doc a'] /\
  countStructures s c h m db3 = 1%nat /\
  List.length (feeStructures db3) = List.length (feeStructures db1) /\
  filter (fun r => negb (structureKeyIs s c h m r)) (feeStructures db3) =
    filter (fun r => negb (structureKeyIs s c h m r)) (feeStructures db) /\
  structuresUnique db3.
Proof.
  intros Hc Hh Hm Ha Ha' Hu. cbv beta zeta.
  rewrite (setFeeStructure_valid user db Hc Hh Hm Ha). cbn [fst snd].
  rewrite (setFeeStructure_valid user _ Hc Hh Hm Ha). cbn [fst snd].
  rewrite (setFeeStructure_valid user _ Hc Hh Hm Ha'). cbn [fst snd].
  unfold countStructures, structuresUnique in *.
  destruct db as [sc us cl st at_ fh rows fp gr].
  cbn [feeStructures withFeeStructures] in *.
  set (s := schoolId user).
  set (d := mkFeeStructure s c h a m). set (d' := mkFeeStructure s c h a' m).
  assert (Hput : put sameStructure d (put sameStructure d rows) =
                 put sameStructure d rows)
    by apply (put_put structureKey sameStructure sameStructure_spec).
  assert (Hnd1 : NoDup (map structureKey (put sameStructure d rows)))
    by now apply (put_NoDup structureKey sameStructure sameStructure_spec).
  assert (Hf1 : filter (sameStructure d) (put sameStructure d rows) = [d])
    by now apply (put_filter_same structureKey sameStructure
                    sameStructure_spec).
  assert (Hf3 : filter (sameStructure d')
                  (put sameStructure d' (put sameStructure d rows)) = [d'])
    by now apply (put_filter_same structureKey sameStructure
                    sameStructure_spec).
  change (sameStructure d) with (structureKeyIs s c h m) in Hf1.
  change (sameStructure d') with (structureKeyIs s c h m) in Hf3.
  assert (Hhit : existsb (sameStructure d') (put sameStructure d rows) = true)
    by apply (put_exists structureKey sameStructure sameStructure_spec d).
  rewrite Hput, Hf1, Hf3.
  repeat split; try reflexivity.
  - now apply (put_length_hit structureKey sameStructure sameStructure_spec).
  - assert (Hother : forall x rows0,
              filter (fun r => negb (structureKeyIs s c h m r))
                (put sameStructure (mkFeeStructure s c h x m) rows0) =
              filter (fun r => negb (structureKeyIs s c h m r)) rows0).
    { intros x rows0. apply put_filter_other.
      - assert (E : structureKeyIs s c h m (mkFeeStructure s c h x m) = true)
          by now apply structureKeyIs_spec.
        now rewrite E.
      - intros r Hr. change (structureKeyIs s c h m r = true) in Hr.
        now rewrite Hr. }
    unfold d, d'. now rewrite !Hother.
  - now apply (put_NoDup structureKey sameStructure sameStructure_spec).
Qed.

End Structures.

Lemma setFeeStructure_idempotent_upsert_witness :
  countStructures "s1"%string "c1"%string "A"%string "2025-11"%string
    (snd (setFeeStructure Sample.written Sample.admin Sample.tuition1200
            (snd (setFeeStructure Sample.written Sample.admin
                    Sample.tuition1000
                    (snd (setFeeStructure Sample.written Sample.admin
                            Sample.tuition1000 Sample.db0)))))) = 1%nat.
Proof.
  refine (proj1 (proj2 (proj2 (proj2 (proj2 (proj2 (proj2
            (@setFeeStructure_idempotent_upsert Sample.written Sample.admin
               "c1"%string "A"%string "2025-11"%string 1000 1200
               Sample.db0 _ _ _ _ _ _))))))));
    try discriminate; try reflexivity.
  unfold structuresUnique. simpl.
  repeat constructor; simpl; intuition discriminate.
Defined.

End FeeStructureFacts.

(* ------------------------------------------------------------------ *)
(** ** Bulk recorders *)

Module BulkFacts.

Import Storage FeeRoutes BulkRoutes GradeKeys UpsertFacts.

Lemma Js_eqb_eq (v w : Js.value) : Js.eqb v w = true <-> v = w.
Proof.
  destruct v, w; simpl; split; intros H;
    try reflexivity; try discriminate.
  - apply Bool.eqb_prop in H. now subst.
  - injection H as ->. apply Bool.eqb_reflx.
  - apply FloatAxioms.Leibniz.eqb_spec in H. now subst.
  - injection H as ->. now apply FloatAxioms.Leibniz.eqb_spec.
  - apply String.eqb_eq in H. now subst.
  - injection H as ->. apply String.eqb_refl.
Qed.

Lemma attendanceMatches_spec (s : ObjectId) (st : Js.value) (d : Date)
    (r : Attendance) :
  attendanceMatches s st d r = true <-> attendanceKey r = (s, st, d).
Proof.
  unfold attendanceMatches, attendanceKey.
  rewrite !andb_true_iff, String.eqb_eq, Js_eqb_eq, Z.eqb_eq.
  split; [intros [[-> ->] ->]; reflexivity | intros [= -> -> ->]; auto].
Qed.

Lemma sameAttendance_spec (a r : Attendance) :
  sameAttendance a r = true <-> attendanceKey r = attendanceKey a.
Proof. unfold sameAttendance. apply attendanceMatches_spec. Qed.

(** One write is the replacing upsert of the document it leaves. *)
Lemma applyWrite_put (w : AttendanceWrite) (rows : list Attendance) :
  applyWrite w rows = put sameAttendance (rowOf w) rows.
Proof.
  unfold applyWrite, applyAttendance, put. apply upsert_ext.
  intros r Hr. apply attendanceMatches_spec in Hr.
  injection Hr as _ _ Hd. unfold rowOf. now rewrite Hd.
Qed.

Lemma applyWrites_rows (ws : list AttendanceWrite) :
  forall result rows,
    snd (applyWrites ws result rows) =
    putAll sameAttendance (map rowOf ws) rows.
Proof.
  induction ws as [| w rest IH]; intros result rows; simpl; [reflexivity |].
  now rewrite IH, applyWrite_put.
Qed.


(** The first record that lacks a required field ends the map. *)
Lemma mapThrow_thrown {A B} (f : A -> Result B) (bad : A -> bool)
    (e : Error) (l : list A) :
  (forall x, bad x = true -> f x = Thrown e) ->
  (forall x, bad x = false -> exists y, f x = Ok y) ->
  existsb bad l = true -> mapThrow f l = Thrown e.
Proof.
  intros Hbad Hgood. induction l as [| x rest IH]; simpl; [discriminate |].
  destruct (bad x) eqn:E; simpl.
  - intros _. now rewrite (Hbad x E).
  - intros H. destruct (Hgood x E) as (y & ->). now rewrite (IH H).
Qed.

(** [setUTCHours(0, 0, 0, 0)] goes back to the start of the UTC day. *)
Lemma utcMidnight_day (t : Date) :
  utcMidnight t = (86400000 * (t / 86400000))%Z.
Proof.
  unfold utcMidnight.
  pose proof (Z.div_mod t 86400000). lia.
Qed.

Section AttendanceFacts.

Variable toDate : Js.value -> option Date.

Lemma validRecord_operation (user : UserPayload) (r : AttendanceRecord) :
  validRecord toDate r = true ->
  exists op,
    attendanceOperation toDate user r = Ok op /\
    castAttendanceOp op = Ok (writeOf toDate user r).
Proof.
  unfold validRecord, attendanceOperation, writeOf, dayOf.
  rewrite !andb_true_iff. intros [[[-> ->] ->] Hd]. simpl.
  destruct (toDate (ar_date r)) as [t |]; [| discriminate].
  eexists. split; reflexivity.
Qed.

Lemma valid_batch_writes (user : UserPayload)
    (records : list AttendanceRecord) :
  forallb (validRecord toDate) records = true ->
  exists ops,
    mapThrow (attendanceOperation toDate user) records = Ok ops /\
    mapThrow castAttendanceOp ops = Ok (map (writeOf toDate user) records).
Proof.
  induction records as [| r rest IH]; simpl.
  - intros _. exists []. split; reflexivity.
  - rewrite andb_true_iff. intros [Hr Hrest].
    destruct (validRecord_operation user r Hr) as (op & Hop & Hcast).
    destruct (IH Hrest) as (ops & Hops & Hcasts).
    exists (op :: ops). rewrite Hop, Hops. simpl.
    now rewrite Hcast, Hcasts.
Qed.

(** A non-empty batch of valid records is answered 200 and applied
    write by write. *)
Lemma postAttendance_valid (user : UserPayload)
    (records : list AttendanceRecord) (db : Db) :
  records <> [] -> forallb (validRecord toDate) records = true ->
  postAttendance toDate user (Some records) db =
  (Json 200
     (fst (applyWrites (map (writeOf toDate user) records)
             (mkBulkResult 0 0) (attendance db))),
   withAttendance db
     (putAll sameAttendance (map rowOf (map (writeOf toDate user) records))
        (attendance db))).
Proof.
  intros Hne Hvalid. unfold postAttendance, attendanceBulkWrite.
  destruct records as [| r rest]; [contradiction |].
  destruct (valid_batch_writes user (r :: rest) Hvalid) as (ops & -> & ->).
  rewrite <- applyWrites_rows with (result := mkBulkResult 0 0).
  now destruct (applyWrites _ _ _).
Qed.





(** The first record that lacks a required field ends the construction
    of the operations. *)
Lemma attendance_incomplete_throws (user : UserPayload)
    (records : list AttendanceRecord) :
  existsb attendanceIncomplete records = true ->
  mapThrow (attendanceOperation toDate user) records =
  Thrown attendanceRequired.
Proof.
  apply mapThrow_thrown; intros r Hr; unfold attendanceOperation;
    unfold attendanceIncomplete in Hr; rewrite Hr; [reflexivity |].
  eexists. reflexivity.
Qed.

End AttendanceFacts.

Lemma grade_incomplete_throws (user : UserPayload)
    (gradesData : list GradeRecord) :
  existsb gradeIncomplete gradesData = true ->
  mapThrow (gradeOperation user) gradesData = Thrown gradeRequired.
Proof.
  apply mapThrow_thrown; intros g Hg; unfold gradeOperation;
    unfold gradeIncomplete in Hg; rewrite Hg; [reflexivity |].
  eexists. reflexivity.
Qed.

(** C9. A bulk attendance or bulk grade submission in which some record
    lacks a required field fails as a whole and writes nothing: the
    records are checked while the list of operations is built, before
    [bulkWrite] is called, so the route answers an error (500 for
    attendance, 400 with the message of the check for grades) and the
    database is the one it found. *)
Theorem bulk_validation_aborts_batch (toDate : Js.value -> option Date)
    (user : UserPayload) (db : Db) :
  (forall records,
     existsb attendanceIncomplete records = true ->
     postAttendance toDate user (Some records) db =
     (Message 500 "Server error recording attendance.", db)) /\
  (forall gradesData,
     existsb gradeIncomplete gradesData = true ->
     postGradesBulk user (Some gradesData) db =
     (Message 400 (message gradeRequired), db)).
Proof.
  split.
  - intros records Hbad. unfold postAttendance.
    destruct records as [| r rest]; [discriminate |].
    now rewrite (attendance_incomplete_throws toDate user _ Hbad).
  - intros gradesData Hbad. unfold postGradesBulk.
    destruct gradesData as [| g rest]; [discriminate |].
    now rewrite (grade_incomplete_throws user _ Hbad).
Qed.

Lemma sameGrade_spec (a r : Grade) :
  sameGrade a r = true <-> gradeKey r = gradeKey a.
Proof.
  unfold sameGrade, gradeKey.
  rewrite !Bool.andb_true_iff, String.eqb_eq, !Js_eqb_eq.
  split; [intros [[[-> ->] ->] ->]; reflexivity | intros [= -> -> -> ->]; auto].
Qed.

(** An upsert that does not fail writes the document of its operation
    under its key. *)
Lemma applyGrade_put (op : GradeOp) (rows rows' : list Grade) :
  applyGrade op rows = Ok rows' ->
  rows' = put sameGrade (gradeInsert op) rows.
Proof.
  unfold applyGrade.
  change (gradeMatches op) with (sameGrade (gradeInsert op)).
  destruct (existsb (sameGrade (gradeInsert op)) rows) eqn:Hhit.
  - intros [= <-]. unfold put. apply upsert_ext. intros r Hr.
    apply sameGrade_spec in Hr. injection Hr as Hs Hst He Hsub.
    destruct r. cbn in *. unfold gradeUpdate, gradeInsert. cbn.
    now rewrite Hs, Hst, He, Hsub.
  - destruct (existsb (gradeIndexClash op) rows); [discriminate |].
    intros [= <-]. symmetry.
    now apply put_miss.
Qed.

Lemma applyGrade_hit (op : GradeOp) (rows : list Grade) :
  existsb (gradeMatches op) rows = true ->
  applyGrade op rows = Ok (put sameGrade (gradeInsert op) rows).
Proof.
  intros Hhit.
  destruct (applyGrade op rows) as [rows' | e] eqn:Happly.
  - now rewrite (applyGrade_put _ _ Happly).
  - unfold applyGrade in Happly. rewrite Hhit in Happly. discriminate.
Qed.

Lemma gradeBulkWrite_rows (ops : list GradeOp) :
  forall result rows result' rows',
    gradeBulkWrite ops result rows = (Ok result', rows') ->
    rows' = putAll sameGrade (map gradeInsert ops) rows /\
    (matchedCount result' + upsertedCount result' =
     matchedCount result + upsertedCount result + List.length ops)%nat.
Proof.
  induction ops as [| op ops IH]; intros result rows result' rows'; cbn.
  - intros [= <- <-]. split; [reflexivity | lia].
  - destruct (applyGrade op rows) as [rows1 | e] eqn:Happly;
      [| discriminate].
    intros Hrest. apply IH in Hrest as [-> Hcount].
    rewrite (applyGrade_put _ _ Happly). split; [reflexivity |].
    rewrite Hcount. unfold tally.
    destruct (existsb (gradeMatches op) rows); cbn; lia.
Qed.

Lemma gradeBulkWrite_hits (ops : list GradeOp) :
  forall result rows,
    NoDup (map gradeKey rows) ->
    (forall op, In op ops -> existsb (gradeMatches op) rows = true) ->
    gradeBulkWrite ops result rows =
    (Ok (mkBulkResult (matchedCount result + List.length ops)%nat
           (upsertedCount result)),
     putAll sameGrade (map gradeInsert ops) rows).
Proof.
  induction ops as [| op ops IH]; intros result rows Hnd Hhits; cbn.
  - rewrite Nat.add_0_r. now destruct result.
  - assert (Hhit : existsb (gradeMatches op) rows = true)
      by (apply Hhits; now left).
    rewrite (applyGrade_hit _ _ Hhit), Hhit.
    rewrite IH.
    + cbn. do 3 f_equal. lia.
    + now apply (put_NoDup gradeKey sameGrade sameGrade_spec).
    + intros op' Hop'.
      change (gradeMatches op') with (sameGrade (gradeInsert op')).
      apply (existsb_same gradeKey sameGrade sameGrade_spec).
      rewrite (put_keys_hit gradeKey sameGrade sameGrade_spec)
        by exact Hhit.
      apply (existsb_same gradeKey sameGrade sameGrade_spec).
      apply Hhits. now right.
Qed.


Lemma mapThrow_length {A B} (f : A -> Result B) (l : list A) :
  forall l', mapThrow f l = Ok l' -> List.length l' = List.length l.
Proof.
  induction l as [| x l IH]; intros l'; cbn.
  - now intros [= <-].
  - destruct (f x); [| discriminate].
    destruct (mapThrow f l) as [ys |]; [| discriminate].
    intros [= <-]. cbn. now rewrite (IH ys).
Qed.






Lemma bulk_validation_aborts_batch_witness :
  postAttendance Sample.epoch Sample.admin
    (Some [Sample.present1; Sample.noStatus]) Sample.db0 =
  (Message 500 "Server error recording attendance."%string, Sample.db0).
Proof.
  refine (proj1 (bulk_validation_aborts_batch Sample.epoch Sample.admin
                   Sample.db0) [Sample.present1; Sample.noStatus] _).
  reflexivity.
Defined.


End BulkFacts.


(* ------------------------------------------------------------------ *)
(** ** Tenant registration *)

Module AuthFacts.

Import Storage BulkRoutes AuthRoutes.

Lemma insertClass_ok (d : Class) (db db' : Db) :
  insertClass d db = Ok db' -> db' = withClasses db (classes db ++ [d]).
Proof.
  unfold insertClass. destruct (existsb _ _); [discriminate |].
  now intros [= <-].
Qed.

Lemma insertClasses_ok (ds : list Class) :
  forall db db',
    insertClasses ds db = Ok db' -> db' = withClasses db (classes db ++ ds).
Proof.
  induction ds as [| d rest IH]; intros db db'; simpl.
  - intros [= <-]. destruct db. unfold withClasses. simpl.
    now rewrite app_nil_r.
  - destruct (insertClass d db) as [db1 |] eqn:E; [| discriminate].
    intros H. apply IH in H. apply insertClass_ok in E. subst db1 db'.
    destruct db. unfold withClasses. simpl. now rewrite <- app_assoc.
Qed.

(** *** The handler monad *)

Lemma quiet_ret {A} (a : A) : quiet (ret a).
Proof. intros s Hs. simpl. auto. Qed.

Lemma quiet_respond {A} (text : string) :
  quiet (@respond A (Message 400 text)).
Proof. intros s Hs. simpl. auto. Qed.

Lemma quiet_bind {A B} (m : Handler A) (k : A -> Handler B) :
  quiet m -> (forall a, quiet (k a)) -> quiet (AuthRoutes.bind m k).
Proof.
  intros Hm Hk s Hs. unfold AuthRoutes.bind.
  specialize (Hm s Hs). destruct (m s) as [[a | r | e] s1]; simpl in *.
  - destruct Hm as (Hc & Hv & _). specialize (Hk a s1 Hv).
    destruct Hk as (Hc' & Hv' & Hr). rewrite Hc' , Hc. auto.
  - exact Hm.
  - exact Hm.
Qed.

Lemma guarded_quiet {A} (m : Handler A) : quiet m -> guarded m.
Proof.
  intros Hm s Hs. destruct (Hm s Hs) as (Hc & _ & Hr).
  destruct (fst (m s)); auto.
Qed.

Lemma guarded_bind {A B} (m : Handler A) (k : A -> Handler B) :
  quiet m -> (forall a, guarded (k a)) -> guarded (AuthRoutes.bind m k).
Proof.
  intros Hm Hk s Hs. unfold AuthRoutes.bind.
  specialize (Hm s Hs). destruct (m s) as [[a | r | e] s1]; simpl in *.
  - destruct Hm as (Hc & Hv & _). specialize (Hk a s1 Hv).
    destruct (fst (k a s1)); [exact I | now rewrite <- Hc | now rewrite <- Hc].
  - destruct Hm as (Hc & _ & Hr). auto.
  - now destruct Hm.
Qed.

Lemma bind_Next {A B} (m : Handler A) (k : A -> Handler B) (s s2 : Session)
    (b : B) :
  AuthRoutes.bind m k s = (Next b, s2) ->
  exists a s1, m s = (Next a, s1) /\ k a s1 = (Next b, s2).
Proof.
  unfold AuthRoutes.bind. destruct (m s) as [[a | r | e] s1];
    [| discriminate | discriminate].
  intros H. now exists a, s1.
Qed.

Section RegisterFacts.

Variable hash : string -> string.
Variable generateAccessToken generateRefreshToken : UserPayload -> string.
Variable fault : Write -> option Error.
Variable userOid schoolOid feeHeadOid : ObjectId.
Variable classOid : nat -> ObjectId.

Lemma quiet_write (w : Write) (op : Db -> Result Db) : quiet (write fault w op).
Proof.
  intros s Hs. unfold write.
  destruct (fault w); [simpl; auto |].
  destruct (op (current s)); [| simpl; auto].
  unfold store. destruct (view s); [| contradiction].
  simpl. repeat split. discriminate.
Qed.

Lemma quiet_find (e : string) : quiet (findUserByEmail e).
Proof. intros s Hs. simpl. auto. Qed.

Lemma guarded_commit {A} (a : A) :
  guarded (AuthRoutes.bind (commit fault) (fun _ => ret a)).
Proof.
  intros s Hs. unfold AuthRoutes.bind, commit.
  destruct (fault Commit); simpl; auto.
Qed.

Lemma write_Next (w : Write) (op : Db -> Result Db) (s s1 : Session)
    (u : unit) :
  write fault w op s = (Next u, s1) ->
  fault w = None /\ exists db, op (current s) = Ok db /\ s1 = store s db.
Proof.
  unfold write. destruct (fault w); [discriminate |].
  destruct (op (current s)) as [db |]; [| discriminate].
  intros [= <-]. split; [reflexivity |]. now exists db.
Qed.

Lemma commit_Next (s s1 : Session) (u : unit) :
  commit fault s = (Next u, s1) ->
  fault Commit = None /\ s1 = commitTransaction s.
Proof.
  unfold commit. destruct (fault Commit); [discriminate |].
  now intros [= <-].
Qed.

Let tryBody :=
  registerTry hash generateAccessToken generateRefreshToken fault userOid
    schoolOid feeHeadOid classOid.

(** Whatever the request, the [try] block commits nothing unless it runs
    to its end. *)
Lemma registerTry_guarded (body : RegisterBody) : guarded (tryBody body).
Proof.
  unfold tryBody, registerTry.
  destruct (rb_fullName body), (rb_email body), (rb_password body),
    (rb_schoolName body), (rb_institutionType body);
    try (apply guarded_quiet, quiet_respond).
  destruct (_ || _); [apply guarded_quiet, quiet_respond |].
  apply guarded_bind; [apply quiet_find |].
  intros [u |]; [apply guarded_quiet, quiet_respond |].
  do 2 (apply guarded_bind; [apply quiet_write | intros _]).
  apply guarded_bind;
    [destruct (isSchool _); [apply quiet_write | apply quiet_ret] | intros _].
  do 2 (apply guarded_bind; [apply quiet_write | intros _]).
  apply guarded_commit.
Qed.

Let route :=
  register hash generateAccessToken generateRefreshToken fault userOid
    schoolOid feeHeadOid classOid.
Let done :=
  registered hash generateRefreshToken userOid schoolOid feeHeadOid classOid.

Lemma store_in_txn (db v v' : Db) :
  store (mkSession db (Some v)) v' = mkSession db (Some v').
Proof. reflexivity. Qed.

(** The end of the [try] block, from the default fee head on. *)
Lemma register_tail_Next (db dbc : Db) (token : string)
    (payload result : RegisterPayload) (s : Session) :
  (write fault SaveFeeHead
     (insertFeeHead
        (mkFeeHead feeHeadOid schoolOid "Tuition Fee" (Some false))) ;;;
   write fault SaveRefreshToken (setRefreshToken userOid token) ;;;
   commit fault ;;;
   ret payload) (mkSession db (Some dbc)) = (Next result, s) ->
  fault SaveFeeHead = None /\ fault SaveRefreshToken = None /\
  fault Commit = None /\
  exists db4 db5,
    insertFeeHead
      (mkFeeHead feeHeadOid schoolOid "Tuition Fee" (Some false)) dbc
      = Ok db4 /\
    setRefreshToken userOid token db4 = Ok db5 /\
    s = mkSession db5 None.
Proof.
  intros H.
  apply bind_Next in H as (u4 & s4 & H4 & H).
  apply write_Next in H4 as (F4 & db4 & E4 & ->).
  cbn [current view] in E4. rewrite store_in_txn in H.
  apply bind_Next in H as (u5 & s5 & H5 & H).
  apply write_Next in H5 as (F5 & db5 & E5 & ->).
  cbn [current view] in E5. rewrite store_in_txn in H.
  apply bind_Next in H as (u6 & s6 & H6 & H).
  apply commit_Next in H6 as (F6 & ->).
  unfold commitTransaction in H. cbn [view] in H.
  injection H as _ <-.
  repeat split; auto. now exists db4, db5.
Qed.

(** The refresh token is written on the owner, whose [_id] no other user
    has. *)
Lemma setRefreshToken_owner (us : list User) (owner : User) (token : string) :
  existsb (fun x => String.eqb (user_id x) (user_id owner) ||
                    String.eqb (email x) (email owner)) us = false ->
  map (fun u => if String.eqb (user_id u) (user_id owner)
                then mkUser (user_id u) (user_schoolId u) (email u)
                       (password u) (fullName u) (role u) (Some token)
                else u) (us ++ [owner]) =
  us ++ [mkUser (user_id owner) (user_schoolId owner) (email owner)
           (password owner) (fullName owner) (role owner) (Some token)].
Proof.
  intros Hfresh. rewrite map_app. cbn. rewrite String.eqb_refl. f_equal.
  transitivity (map (fun u : User => u) us); [| now rewrite map_id].
  apply map_ext_in. intros u Hu.
  destruct (String.eqb (user_id u) (user_id owner)) eqn:E; [| reflexivity].
  exfalso.
  assert (Hex : existsb (fun x => String.eqb (user_id x) (user_id owner)
                                  || String.eqb (email x) (email owner)) us
                = true); [| congruence].
  apply existsb_exists. exists u. split; [exact Hu | now rewrite E].
Qed.

(** When the [try] block runs to its end, no storage call failed and the
    transaction committed the school, its owner, the default classes and
    the default fee head together. *)
Lemma registerTry_Next (body : RegisterBody) (db : Db)
    (payload : RegisterPayload) (s : Session) :
  tryBody body (startTransaction (startSession db)) = (Next payload, s) ->
  exists db',
    s = mkSession db' None /\ done body db db' /\
    fault SaveSchool = None /\ fault SaveUser = None /\
    fault SaveFeeHead = None /\ fault SaveRefreshToken = None /\
    fault Commit = None /\
    (hasDefaultClasses body = true -> fault BulkWriteClasses = None) /\
    (forall e, rb_email body = Some e ->
       find (fun u => String.eqb (email u) (toLowerCase e)) (users db) = None).
Proof.
  unfold tryBody, registerTry, done, registered.
  destruct body as [[fullName |] [email |] [password |] [schoolName |]
                      [institutionType |]];
    cbn [rb_fullName rb_email rb_password rb_schoolName rb_institutionType];
    try discriminate.
  destruct (_ || _); [discriminate |].
  unfold startTransaction, startSession. cbn [committed].
  intros H.
  apply bind_Next in H as (existing & s0 & Hfind & H).
  unfold findUserByEmail in Hfind. cbn [current view] in Hfind.
  injection Hfind as <- <-.
  destruct (find _ (users db)) eqn:Hnone; [discriminate |].
  apply bind_Next in H as (u1 & s1 & H1 & H).
  apply write_Next in H1 as (F1 & db1 & E1 & ->).
  cbn [current view] in E1. rewrite store_in_txn in H.
  unfold insertSchool in E1.
  destruct (existsb _ (schools db)); [discriminate |]. injection E1 as <-.
  apply bind_Next in H as (u2 & s2 & H2 & H).
  apply write_Next in H2 as (F2 & db2 & E2 & ->).
  cbn [current view] in E2. rewrite store_in_txn in H.
  unfold insertUser in E2.
  destruct (existsb _ (users _)) eqn:Hfresh; [discriminate |].
  injection E2 as <-.
  apply bind_Next in H as (u3 & s3 & H3 & H).
  assert (Hclasses :
    exists db3,
      s3 = mkSession db (Some db3) /\
      schools db3 = schools db ++
        [mkSchool schoolOid schoolName institutionType userOid] /\
      users db3 = users db ++
        [mkUser userOid schoolOid (toLowerCase email) (hash password)
           fullName "Admin" None] /\
      classes db3 = classes db ++
        (if isSchool institutionType
         then classDocuments classOid schoolOid else []) /\
      feeHeads db3 = feeHeads db /\ students db3 = students db /\
      attendance db3 = attendance db /\
      feeStructures db3 = feeStructures db /\
      feePayments db3 = feePayments db /\ grades db3 = grades db /\
      (isSchool institutionType = true -> fault BulkWriteClasses = None)).
  { destruct (isSchool institutionType).
    - apply write_Next in H3 as (F3 & db3 & E3 & ->).
      cbn [current view] in E3. rewrite store_in_txn.
      apply insertClasses_ok in E3. exists db3. subst db3.
      destruct db. cbn. repeat split; auto.
    - injection H3 as _ <-. eexists. split; [reflexivity |].
      destruct db. cbn. rewrite app_nil_r. repeat split; auto.
      discriminate. }
  clear H3.
  destruct Hclasses
    as (db3 & -> & Hs & Hu & Hc & Hf & Hst & Ha & Hfs & Hfp & Hg & F3).
  apply register_tail_Next in H
    as (F4 & F5 & F6 & db4 & db5 & E4 & E5 & ->).
  unfold insertFeeHead in E4.
  destruct (existsb _ (feeHeads db3)); [discriminate |]. injection E4 as <-.
  unfold setRefreshToken in E5. injection E5 as <-.
  eexists. split; [reflexivity |]. split.
  - exists fullName, email, password, schoolName, institutionType.
    destruct db3 as [sc3 us3 cl3 st3 at3 fh3 fs3 fp3 gr3].
    cbn in *. subst.
    repeat split; try reflexivity.
    cbn in Hfresh.
    apply (setRefreshToken_owner (users db)
             (mkUser userOid schoolOid (toLowerCase email) (hash password)
                fullName "Admin" None)).
    destruct db; exact Hfresh.
  - repeat split; auto. intros e [= <-]. exact Hnone.
Qed.

(** C7. Tenant registration is atomic.  Whatever the request, the
    database and the failures of the storage layer, the route either
    answers 201 and the database gains, together, the school linked to
    its owner, the owner linked to the school, the default classes of a
    school and the default fee head, or it answers 400 or 500 and the
    database is the one it found.  In particular, when any write of the
    transaction fails nothing of the attempt persists, a failure of the
    default-fee-head insert leaves no school, user or class behind, and
    a registration under an e-mail already in use is refused with the
    database unchanged. *)
Theorem register_atomic (body : RegisterBody) (db : Db) :
  let reply := fst (route body db) in
  let db' := snd (route body db) in
  (((exists payload, reply = Json 201 payload) /\ done body db db') \/
   ((statusOf reply = 400%nat \/ statusOf reply = 500%nat) /\ db' = db)) /\
  (someWriteFails hash generateAccessToken generateRefreshToken fault userOid
     schoolOid feeHeadOid classOid body db ->
   (statusOf reply = 400%nat \/ statusOf reply = 500%nat) /\ db' = db) /\
  (fault SaveSchool <> None \/ fault SaveUser <> None \/
   (hasDefaultClasses body = true /\ fault BulkWriteClasses <> None) \/
   fault SaveFeeHead <> None \/ fault SaveRefreshToken <> None \/
   fault Commit <> None ->
   db' = db /\ schools db' = schools db /\ users db' = users db /\
   classes db' = classes db) /\
  (complete body = true ->
   (exists e u, rb_email body = Some e /\ In u (users db) /\
                email u = toLowerCase e) ->
   reply = Message 400 "This email is already in use." /\ db' = db).
Proof.
  cbv zeta.
  pose proof (registerTry_guarded body) as Hg.
  specialize (Hg (startTransaction (startSession db))).
  assert (Hv : view (startTransaction (startSession db)) <> None)
    by discriminate.
  specialize (Hg Hv). clear Hv.
  change (committed (startTransaction (startSession db))) with db in Hg.
  assert (Hfail : forall e s,
            tryBody body (startTransaction (startSession db)) = (Throw e, s) ->
            committed s = db)
    by (intros e s E; now rewrite E in Hg).
  assert (Hquiet :
            (statusOf (fst (route body db)) = 400%nat \/
             statusOf (fst (route body db)) = 500%nat) /\
            snd (route body db) = db \/
            exists payload db',
              tryBody body (startTransaction (startSession db)) =
                (Next payload, mkSession db' None) /\
              route body db = (Json 201 payload, db') /\ done body db db').
  { unfold route, register. fold tryBody.
    destruct (tryBody body _) as [[payload | r | e] s] eqn:E;
      cbn [fst snd] in *.
    - apply registerTry_Next in E as (db' & -> & Hdone & _).
      right. now exists payload, db'.
    - left. destruct Hg as [Hc Hr]. unfold endSession. cbn. auto.
    - left. unfold endSession. destruct (isDuplicateKey e); cbn; auto. }
  split; [| split; [| split]].
  - destruct Hquiet as [[Hs Hd] | (payload & db' & _ & -> & Hdone)]; auto.
    left. split; [now exists payload | exact Hdone].
  - intros (e & s & E).
    destruct Hquiet as [Hq | (payload & db' & E' & _)]; [exact Hq |].
    unfold tryBody in E'. congruence.
  - intros Hfault.
    destruct Hquiet as [[_ ->] | (payload & db' & E' & _)]; [auto |].
    apply registerTry_Next in E'
      as (? & _ & _ & F1 & F2 & F4 & F5 & F6 & F3 & _).
    destruct Hfault as [H | [H | [[Hc H] | [H | [H | H]]]]]; try contradiction.
    now apply F3 in Hc.
  - intros Hcomplete (e & u & He & Hu & Hmail).
    unfold complete in Hcomplete.
    repeat (apply andb_true_iff in Hcomplete as [Hcomplete ?]).
    unfold route, register, registerTry.
    destruct body as [[fullName |] [email |] [password |] [schoolName |]
                        [institutionType |]];
      cbn [rb_fullName rb_email rb_password rb_schoolName rb_institutionType]
        in *; try discriminate.
    repeat match goal with
           | H : Js.present _ = true |- _ => rewrite H; clear H
           end.
    cbn [negb orb]. injection He as <-.
    unfold AuthRoutes.bind, findUserByEmail, startTransaction, startSession.
    cbn [current view committed].
    destruct (find _ (users db)) as [u' |] eqn:Hfind.
    + split; reflexivity.
    + exfalso. apply (find_none _ _ Hfind) in Hu.
      rewrite Hmail, String.eqb_refl in Hu. discriminate.
Qed.

End RegisterFacts.

Lemma register_atomic_witness :
  snd (register Sample.sameString (Sample.tokenOf "access"%string)
         (Sample.tokenOf "refresh"%string) Sample.feeHeadFault "u9"%string
         "s9"%string "h9"%string Sample.classOid Sample.signup Sample.db0)
  = Sample.db0.
Proof.
  refine (proj1 (proj1 (proj2 (proj2
            (register_atomic Sample.sameString
               (Sample.tokenOf "access"%string)
               (Sample.tokenOf "refresh"%string) Sample.feeHeadFault
               "u9"%string "s9"%string "h9"%string Sample.classOid
               Sample.signup Sample.db0)))
            (or_intror (or_intror (or_intror (or_introl _)))))).
  discriminate.
Defined.

End AuthFacts.

(* ------------------------------------------------------------------ *)
(** ** Student ledger *)


(* ------------------------------------------------------------------ *)
(** ** The student ledger *)

Module LedgerFacts.

Import Storage FeeRoutes NumFacts.
Local Open Scope float_scope.

(** *** The JavaScript [Map] *)

Lemma getOrZero_held (m : Js.Map float) (k : string) :
  Js.getOrZero m k = Num.orZero (held m k).
Proof.
  unfold Js.getOrZero, held. now destruct (Js.get m k).
Qed.

Lemma get_set {V} (m : Js.Map V) (k k' : string) (v : V) :
  Js.get (Js.set m k v) k' =
  if String.eqb k k' then Some v else Js.get m k'.
Proof.
  induction m as [| [k0 v0] m IH]; simpl.
  - reflexivity.
  - destruct (String.eqb_spec k0 k) as [-> | Hne]; simpl.
    + destruct (String.eqb k k'); reflexivity.
    + rewrite IH. destruct (String.eqb_spec k0 k') as [-> | Hne'].
      * destruct (String.eqb_spec k k'); [congruence | reflexivity].
      * reflexivity.
Qed.

Lemma held_set (m : Js.Map float) (k k' : string) (v : float) :
  held (Js.set m k v) k' = if String.eqb k k' then v else held m k'.
Proof. unfold held. rewrite get_set. now destruct (String.eqb k k'). Qed.

Lemma set_fresh {V} (m : Js.Map V) (k : string) (v : V) :
  ~ In k (map fst m) -> Js.set m k v = m ++ [(k, v)].
Proof.
  induction m as [| [k0 v0] m IH]; simpl; [reflexivity |].
  intros Hnotin. destruct (String.eqb_spec k0 k) as [-> | Hne].
  - exfalso. apply Hnotin. now left.
  - f_equal. apply IH. tauto.
Qed.

Lemma set_keys {V} (m : Js.Map V) (k : string) (v : V) :
  map fst (Js.set m k v) =
  if existsb (String.eqb k) (map fst m) then map fst m else map fst m ++ [k].
Proof.
  induction m as [| [k0 v0] m IH]; simpl; [reflexivity |].
  rewrite (String.eqb_sym k k0).
  destruct (String.eqb k0 k); simpl; [reflexivity |].
  rewrite IH. now destruct (existsb (String.eqb k) (map fst m)).
Qed.

(** A [Map] never holds a key twice. *)
Lemma set_NoDup {V} (m : Js.Map V) (k : string) (v : V) :
  NoDup (map fst m) -> NoDup (map fst (Js.set m k v)).
Proof.
  intros Hnd. rewrite set_keys.
  destruct (existsb (String.eqb k) (map fst m)) eqn:E; [exact Hnd |].
  apply NoDup_app; [exact Hnd | repeat constructor; simpl; tauto |].
  intros x Hx [E' | []]. subst x.
  assert (existsb (String.eqb k) (map fst m) = true); [| congruence].
  apply existsb_exists. exists k. split; [exact Hx | apply String.eqb_refl].
Qed.

(** *** Payments *)

Lemma itemsOf_cons (h : ObjectId) (p : FeePayment) (l : list FeePayment) :
  itemsOf h (p :: l) =
  filter (fun it => String.eqb (pi_feeHeadId it) h) (items p) ++ itemsOf h l.
Proof. unfold itemsOf. simpl. apply filter_app. Qed.

Lemma findHeadById_id (db : Db) (id : ObjectId) (head : FeeHead) :
  findHeadById db id = Some head -> head_id head = id.
Proof.
  unfold findHeadById. intros H. apply find_some in H as [_ H].
  now apply String.eqb_eq.
Qed.

(** The loop over the items of a payment whose heads all exist adds each
    amount to what the map holds for its head. *)
Lemma itemLoop_populated (db : Db) (its : list PaymentItem) :
  forall paidMap,
    Forall (fun it => findHeadById db (pi_feeHeadId it) <> None) its ->
    exists paidMap',
      itemLoop
        (map (fun it => (findHeadById db (pi_feeHeadId it), pi_amountPaid it))
           its) paidMap = Some paidMap' /\
      forall h,
        held paidMap' h =
        fold_left credited
          (map pi_amountPaid
             (filter (fun it => String.eqb (pi_feeHeadId it) h) its))
          (held paidMap h).
Proof.
  induction its as [| it rest IH]; intros paidMap Hall; simpl.
  - exists paidMap. split; reflexivity.
  - inversion Hall as [| ? ? Hit Hrest]; subst.
    destruct (findHeadById db (pi_feeHeadId it)) as [head |] eqn:E;
      [| contradiction].
    apply findHeadById_id in E.
    destruct (IH (Js.set paidMap (head_id head)
                    (Js.getOrZero paidMap (head_id head) + pi_amountPaid it))
                 Hrest) as (m' & Hm' & Hheld).
    exists m'. split; [exact Hm' |]. intros h. rewrite Hheld, held_set, E.
    destruct (String.eqb (pi_feeHeadId it) h) eqn:Eh; simpl; [| reflexivity].
    apply String.eqb_eq in Eh. subst h.
    now rewrite getOrZero_held.
Qed.

Lemma paymentLoop_populated (db : Db) (payments : list PopulatedPayment) :
  forall totalPaid paidMap,
    Forall (populatedFrom db) payments ->
    exists paidMap',
      paymentLoop payments totalPaid paidMap =
        Some (fold_left add (map totalAmountPaid (map pay_doc payments))
                totalPaid,
              paidMap') /\
      forall h,
        held paidMap' h =
        fold_left credited
          (map pi_amountPaid (itemsOf h (map pay_doc payments)))
          (held paidMap h).
Proof.
  induction payments as [| pp rest IH]; intros totalPaid paidMap Hall; simpl.
  - exists paidMap. split; reflexivity.
  - inversion Hall as [| ? ? [Hpp Hits] Hrest]; subst.
    rewrite Hpp. cbn [pay_items populatePayment pay_doc].
    destruct (@itemLoop_populated db (items (pay_doc pp)) paidMap Hits)
      as (m1 & -> & Hheld1).
    cbn [FeeRoutes.bind].
    destruct (IH (totalPaid + totalAmountPaid (pay_doc pp)) m1 Hrest)
      as (m' & Hloop & Hheld).
    rewrite Hloop.
    exists m'. split; [reflexivity |].
    intros h. rewrite Hheld, Hheld1, itemsOf_cons, map_app, fold_left_app.
    reflexivity.
Qed.

(** *** Dues *)

Lemma dueLoop_entries (dues : list PopulatedDue) :
  forall totalDue dueMap,
    NoDup (map fst dueMap ++ map fst (dueEntries dues)) ->
    dueLoop dues totalDue dueMap =
    (fold_left add (dueAmounts dues) totalDue, dueMap ++ dueEntries dues).
Proof.
  induction dues as [| d rest IH]; intros totalDue dueMap Hnd; simpl.
  - now rewrite app_nil_r.
  - simpl in Hnd.
    destruct (due_feeHead d) as [head |]; simpl in *.
    + rewrite set_fresh.
      * rewrite IH.
        -- now rewrite <- app_assoc.
        -- rewrite map_app. simpl. now rewrite <- app_assoc.
      * apply NoDup_remove_2 in Hnd. intros Hin. apply Hnd.
        apply in_or_app. now left.
    + now apply IH.
Qed.

(** Whatever the structures, the map of the dues holds each head
    once. *)
Lemma dueLoop_NoDup (dues : list PopulatedDue) :
  forall totalDue dueMap,
    NoDup (map fst dueMap) ->
    NoDup (map fst (snd (dueLoop dues totalDue dueMap))).
Proof.
  induction dues as [| d rest IH]; intros totalDue dueMap Hnd; simpl;
    [exact Hnd |].
  destruct (due_feeHead d); [| now apply IH].
  apply IH. now apply set_NoDup.
Qed.

Lemma balanceDetails_rows (payments : list FeePayment)
    (paidMap : Js.Map float) (dues : list PopulatedDue) :
  (forall h, Js.getOrZero paidMap h = paidTo h payments) ->
  balanceDetails (dueEntries dues) paidMap =
  flat_map (ledgerRow payments) dues.
Proof.
  intros Hpaid. unfold balanceDetails, dueEntries.
  induction dues as [| d rest IH]; [reflexivity |].
  cbn [flat_map]. rewrite map_app. f_equal; [| exact IH].
  unfold ledgerRow. destruct (due_feeHead d); simpl; [| reflexivity].
  now rewrite Hpaid.
Qed.

Lemma balanceDetails_heads (dueMap : Js.Map (string * float))
    (paidMap : Js.Map float) :
  map Allocation.feeHeadId (balanceDetails dueMap paidMap) = map fst dueMap.
Proof.
  unfold balanceDetails. rewrite map_map. apply map_ext.
  now intros [k [n a]].
Qed.

Lemma dueEntries_keys (db : Db) (rows : list FeeStructure) :
  incl (map fst (dueEntries (map (populateDue db) rows)))
       (map fs_feeHeadId rows).
Proof.
  induction rows as [| r rest IH]; simpl; [apply incl_refl |].
  destruct (findHeadById db (fs_feeHeadId r)) as [head |] eqn:E; simpl.
  - apply findHeadById_id in E. rewrite E.
    intros k [<- | Hk]; [now left | right; now apply IH].
  - now apply incl_tl.
Qed.

Lemma dueEntries_NoDup (db : Db) (rows : list FeeStructure) :
  NoDup (map fs_feeHeadId rows) ->
  NoDup (map fst (dueEntries (map (populateDue db) rows))).
Proof.
  induction rows as [| r rest IH]; simpl; [constructor |].
  intros Hnd. inversion Hnd as [| ? ? Hnotin Hnd']; subst.
  destruct (findHeadById db (fs_feeHeadId r)) as [head |] eqn:E; simpl;
    [| now apply IH].
  apply findHeadById_id in E. rewrite E. constructor; [| now apply IH].
  intros Hin. apply Hnotin. now apply (dueEntries_keys db rest).
Qed.

(** Under the unique index, the structures of one class and month have
    distinct fee heads. *)
Lemma findStructures_heads (db : Db) (s c : ObjectId) (m : string) :
  structuresUnique db ->
  NoDup (map fs_feeHeadId (findStructures db s c m)).
Proof.
  unfold structuresUnique, findStructures.
  induction (feeStructures db) as [| r rest IH]; simpl; [constructor |].
  intros Hnd. inversion Hnd as [| ? ? Hnotin Hnd']; subst.
  destruct (String.eqb (fs_schoolId r) s && String.eqb (fs_classId r) c
            && String.eqb (fs_monthYear r) m) eqn:E; [| now apply IH].
  simpl. constructor; [| now apply IH].
  intros Hin. apply Hnotin. apply in_map_iff in Hin as (r' & Hh & Hr').
  apply filter_In in Hr' as [Hr' E'].
  apply in_map_iff. exists r'. split; [| exact Hr'].
  rewrite !andb_true_iff, !String.eqb_eq in E, E'.
  destruct E as [[F1 F2] F3], E' as [[E1 E2] E3].
  unfold structureKey. congruence.
Qed.

Lemma present_Some (x : string) :
  x <> ""%string -> Js.present (Some x) = true.
Proof.
  intros H. simpl.
  destruct (String.eqb_spec x ""); [contradiction | reflexivity].
Qed.

(** *** The sort *)

Lemma insertByDate_Permutation (p : PopulatedPayment)
    (l : list PopulatedPayment) :
  Permutation (insertByDate p l) (p :: l).
Proof.
  induction l as [| q rest IH]; simpl; [reflexivity |].
  destruct (Z.ltb _ _); [| reflexivity].
  rewrite IH. apply perm_swap.
Qed.

Lemma sortByDateDesc_Permutation (l : list PopulatedPayment) :
  Permutation (sortByDateDesc l) l.
Proof.
  induction l as [| p rest IH]; simpl; [reflexivity |].
  rewrite insertByDate_Permutation. now constructor.
Qed.

(** The payments that the route sorts are populated from the
    database. *)
Lemma sorted_populated (db : Db) (s sid : ObjectId) (my : string) :
  itemsPopulate db s sid my ->
  Forall (populatedFrom db)
    (sortByDateDesc (map (populatePayment db) (findPayments db s sid my))).
Proof.
  intros Hitems.
  apply (Permutation_Forall
           (Permutation_sym (sortByDateDesc_Permutation _))).
  apply Forall_map.
  apply (Forall_impl _ (P := fun p =>
           Forall (fun it => findHeadById db (pi_feeHeadId it) <> None)
             (items p))); [| exact Hitems].
  intros p Hp. split; [reflexivity | exact Hp].
Qed.

(** The route computes the ledger of the specification. *)
Lemma getStudentLedger_spec (user : UserPayload) (sid my : string) (db : Db)
    (student : Student) :
  sid <> ""%string -> my <> ""%string ->
  findStudent db sid (schoolId user) = Some student ->
  structuresUnique db ->
  itemsPopulate db (schoolId user) sid my ->
  getStudentLedger user (Some sid) (Some my) db =
  Json 200
    (ledgerSpec db (schoolId user) (student_classId student) sid my).
Proof.
  intros Hsid Hmy Hstudent Hunique Hitems.
  unfold getStudentLedger, ledgerSpec.
  rewrite !present_Some by assumption. cbn [negb orb]. rewrite Hstudent.
  set (structs :=
         findStructures db (schoolId user) (student_classId student) my).
  set (sorted := sortByDateDesc
                   (map (populatePayment db)
                      (findPayments db (schoolId user) sid my))).
  rewrite dueLoop_entries
    by (simpl; apply dueEntries_NoDup; now apply findStructures_heads).
  destruct (@paymentLoop_populated db sorted 0 []
              (sorted_populated Hitems))
    as (paidMap & Hloop & Hheld).
  rewrite Hloop. simpl app.
  rewrite (balanceDetails_rows (map pay_doc sorted)); [reflexivity |].
  intros h. now rewrite getOrZero_held, Hheld.
Qed.

(** *** Recording a payment *)

Section PaymentFacts.

Variable toDate : Js.value -> option Date.
Variable numberToString : float -> string.
Variable stringToNumber : string -> float.

(** What the route stores: the payment it builds, whose total is at
    least 1. *)
Lemma newFeePayment_total (user : UserPayload) (now : Date)
    (body : PaymentBody) (p : FeePayment) :
  newFeePayment toDate numberToString stringToNumber user now body = Some p ->
  pay_schoolId p = schoolId user /\ 1 <= totalAmountPaid p.
Proof.
  unfold newFeePayment, FeeRoutes.bind. intros Hnew.
  repeat match type of Hnew with
         | (if ?x then _ else _) = _ =>
             destruct x eqn:Hmin; try discriminate
         | match ?x with _ => _ end = _ => destruct x; try discriminate
         end.
  injection Hnew as <-. split; [reflexivity | exact Hmin].
Qed.

(** The route stores the payment it builds, or answers an error and
    stores nothing. *)
Lemma recordPayment_cases (user : UserPayload) (now : Date)
    (body : PaymentBody) (db : Db) :
  (exists p,
     newFeePayment toDate numberToString stringToNumber user now body
       = Some p /\
     recordPayment toDate numberToString stringToNumber user now body db =
       (Json 201 p, withFeePayments db (feePayments db ++ [p]))) \/
  ((statusOf (fst (recordPayment toDate numberToString stringToNumber user
                     now body db)) = 400%nat \/
    statusOf (fst (recordPayment toDate numberToString stringToNumber user
                     now body db)) = 500%nat) /\
   snd (recordPayment toDate numberToString stringToNumber user now body db)
     = db).
Proof.
  unfold recordPayment. destruct (_ || _); [right; auto |].
  destruct (newFeePayment toDate numberToString stringToNumber user now body)
    as [p |]; [left | right; auto].
  now exists p.
Qed.

Lemma recordPayment_stored (user : UserPayload) (now : Date)
    (body : PaymentBody) (db db' : Db) (p : FeePayment) :
  recordPayment toDate numberToString stringToNumber user now body db
    = (Json 201 p, db') ->
  db' = withFeePayments db (feePayments db ++ [p]) /\
  pay_schoolId p = schoolId user /\ 1 <= totalAmountPaid p.
Proof.
  intros H.
  destruct (recordPayment_cases user now body db)
    as [(p' & Hnew & Hrec) | [[Hs | Hs] _]];
    rewrite H in *; try discriminate.
  injection Hrec as <- <-. split; [reflexivity |].
  exact (newFeePayment_total _ _ _ Hnew).
Qed.

(** C4, as amended. [getStudentLedger] computes the ledger of the
    specification: one row [{head, due, paid, balance = due - paid}] per
    fee head that has a structure for the class of the student and the
    month, [totalDue] the sum of those structure amounts, [totalPaid]
    the sum of the recorded [totalAmountPaid] of the payments of the
    student for the month, and [balance] their difference, every sum
    and difference taken in doubles, the sums from the left.  Recording
    a payment leaves [totalDue] as it is; after the first payment of the
    student and month, recorded with [totalAmountPaid] equal to X
    against dues of D, the ledger reports [totalPaid = X] and
    [balance = D - X]. *)
Theorem getStudentLedger_refines_spec (user : UserPayload)
    (sid my : string) (db : Db) (student : Student) :
  sid <> ""%string -> my <> ""%string ->
  findStudent db sid (schoolId user) = Some student ->
  structuresUnique db ->
  itemsPopulate db (schoolId user) sid my ->
  let before :=
    ledgerSpec db (schoolId user) (student_classId student) sid my in
  getStudentLedger user (Some sid) (Some my) db = Json 200 before /\
  forall now body p db',
    recordPayment toDate numberToString stringToNumber user now body db
      = (Json 201 p, db') ->
    pay_studentId p = sid -> pay_monthYear p = my ->
    Forall (fun it => findHeadById db (pi_feeHeadId it) <> None) (items p) ->
    exists after,
      getStudentLedger user (Some sid) (Some my) db' = Json 200 after /\
      totalDue (summary after) = totalDue (summary before) /\
      (findPayments db (schoolId user) sid my = [] ->
       totalPaid (summary after) = totalAmountPaid p /\
       summaryBalance (summary after) =
         totalDue (summary before) - totalAmountPaid p).
Proof.
  intros Hsid Hmy Hstudent Hunique Hitems. cbv zeta.
  split; [now apply getStudentLedger_spec |].
  intros now body p db' Hrec Hp Hm Hheads.
  apply recordPayment_stored in Hrec as (-> & Hschool & Hmin).
  set (db' := withFeePayments db (feePayments db ++ [p])).
  assert (Hfound : findPayments db' (schoolId user) sid my =
                   findPayments db (schoolId user) sid my ++ [p]).
  { unfold findPayments, db'. destruct db. cbn. rewrite filter_app. cbn.
    now rewrite Hschool, Hp, Hm, !String.eqb_refl. }
  assert (Hstudent' : findStudent db' sid (schoolId user) = Some student)
    by (unfold db'; destruct db; exact Hstudent).
  assert (Hunique' : structuresUnique db')
    by (unfold db'; destruct db; exact Hunique).
  assert (Hheads' : forall h, findHeadById db' h = findHeadById db h)
    by (intros h; unfold db'; destruct db; reflexivity).
  assert (Hitems' : itemsPopulate db' (schoolId user) sid my).
  { unfold itemsPopulate. rewrite Hfound. apply Forall_app. split.
    - apply (Forall_impl _ (P := fun q =>
               Forall (fun it => findHeadById db (pi_feeHeadId it) <> None)
                 (items q))); [| exact Hitems].
      intros q Hq. apply (Forall_impl _ (P := fun it =>
               findHeadById db (pi_feeHeadId it) <> None)); [| exact Hq].
      intros it Hit. now rewrite Hheads'.
    - constructor; [| constructor].
      apply (Forall_impl _ (P := fun it =>
               findHeadById db (pi_feeHeadId it) <> None)); [| exact Hheads].
      intros it Hit. now rewrite Hheads'. }
  eexists. split;
    [exact (getStudentLedger_spec user Hsid Hmy Hstudent' Hunique' Hitems') |].
  unfold ledgerSpec. cbn [summary totalDue totalPaid summaryBalance].
  assert (Hdues : map (populateDue db')
                    (findStructures db' (schoolId user)
                       (student_classId student) my) =
                  map (populateDue db)
                    (findStructures db (schoolId user)
                       (student_classId student) my))
    by (unfold db'; destruct db; reflexivity).
  rewrite Hdues. split; [reflexivity |].
  intros Hnone. rewrite Hfound, Hnone. cbn.
  assert (Hpos : 0 < totalAmountPaid p) by (clear - Hmin; keys).
  rewrite (add_zero_l Hpos). split; reflexivity.
Qed.

End PaymentFacts.

(** The round trip of C4 as the specification states it fails:
    recording the request [pays80], whose one item allocates 50 while
    it records a total of 80, against dues of 150, the ledger reports 80
    paid, not 50, and a balance of 70, not 100. *)
Lemma ledger_round_trip_counterexample :
  exists p db' after,
    recordPayment Sample.noDate Sample.written Sample.readNumber Sample.admin
      0%Z Sample.pays80 Sample.db0 = (Json 201 p, db') /\
    Num.sum (map pi_amountPaid (items p)) = 50 /\
    getStudentLedger Sample.admin (Some "st1"%string) (Some "2025-10"%string)
      Sample.db0 = Json 200 Sample.ledger0 /\
    totalDue (summary Sample.ledger0) = 150 /\
    getStudentLedger Sample.admin (Some "st1"%string) (Some "2025-10"%string)
      db' = Json 200 after /\
    totalPaid (summary after) = 80 /\
    (totalPaid (summary after) =? 50) = false /\
    summaryBalance (summary after) = 70 /\
    (summaryBalance (summary after) =? 150 - 50) = false.
Proof.
  do 3 eexists.
  split; [vm_compute; reflexivity |].
  split; [reflexivity |].
  split; [reflexivity |].
  split; [reflexivity |].
  split; [vm_compute; reflexivity |].
  repeat split; reflexivity.
Qed.

Lemma getStudentLedger_refines_spec_witness :
  getStudentLedger Sample.admin (Some "st1"%string) (Some "2025-10"%string)
    Sample.db0 = Json 200 Sample.ledger0.
Proof.
  refine (proj1 (@getStudentLedger_refines_spec Sample.noDate Sample.written
                   Sample.readNumber Sample.admin
                   "st1"%string "2025-10"%string Sample.db0
                   (mkStudent "st1"%string "s1"%string "c1"%string
                      "Ali"%string) _ _ _ _ _)).
  - discriminate.
  - discriminate.
  - reflexivity.
  - unfold structuresUnique. simpl.
    repeat constructor; simpl; intuition discriminate.
  - constructor.
Defined.

End LedgerFacts.


(* ------------------------------------------------------------------ *)
(** ** Payments that exceed the balance *)

Module OverpaymentFacts.

Import Storage FeeRoutes Allocation PaymentPage.
Import NumFacts AllocationFacts FeeStructureFacts LedgerFacts.
Local Open Scope float_scope.

Section Overpayment.

Variable toISOString : string -> string.
Variable toDate : Js.value -> option Date.
Variable numberToString : float -> string.
Variable stringToNumber : string -> float.

(** What [onSubmit] has checked when it posts, and what it posts. *)
Lemma onSubmit_Post (ledger : option StudentLedger)
    (selectedStudentId selectedMonth : string) (token : option string)
    (students : list PaymentPage.Student) (data : PaymentFormData)
    (payload : Payload) :
  onSubmit toISOString ledger selectedStudentId selectedMonth token students
    data = Post payload ->
  exists l,
    ledger = Some l /\
    (summaryBalance (summary l) + 0.01 <? formAmount data) = false /\
    (formAmount data <? 0.01) = false /\
    p_totalAmountPaid payload = formAmount data /\
    p_items payload = fst (allocatePayment (formAmount data) (ledgerDues l)) /\
    p_items payload <> [].
Proof.
  unfold onSubmit. destruct ledger as [l |]; [| discriminate].
  destruct (_ || _); [discriminate |].
  destruct (summaryBalance (summary l) + 0.01 <? formAmount data) eqn:Hover;
    [discriminate |].
  destruct (formAmount data <? 0.01) eqn:Hsmall; [discriminate |].
  destruct (fst (allocatePayment (formAmount data) (ledgerDues l)))
    as [| it its] eqn:Hitems; [discriminate |].
  destruct token; [| discriminate].
  destruct (classOf _); [| discriminate].
  intros [= <-]. exists l. cbn.
  repeat split; try reflexivity; try assumption.
  - now rewrite Hitems.
  - discriminate.
Qed.

(** The items of a request whose items hold a fee head and a number
    each. *)
Lemma castItems_typed (its : list (string * float)) :
  Forall (fun it => fst it <> ""%string /\ is_nan (snd it) = false) its ->
  castItems stringToNumber
    (map (fun it => (Js.Str (fst it), Js.Number (snd it))) its) =
  Some (map (fun it => mkPaymentItem (fst it) (snd it)) its).
Proof.
  induction 1 as [| [h a] its [Hh Ha] _ IH]; [reflexivity |].
  cbn [map castItems fst snd]. unfold castItem. cbn [fst snd castNumber].
  cbn in Hh, Ha. rewrite (castId_Str Hh), Ha. cbn [FeeRoutes.bind].
  now rewrite IH.
Qed.

Lemma truthy_Number (t : float) : 1 <= t -> Js.truthy (Js.Number t) = true.
Proof.
  intros Ht. cbn. unfold Num.falsy.
  assert (Hnan : is_nan t = false) by (clear - Ht; keys).
  assert (Hnz : (t =? 0) = false) by (clear - Ht; keys).
  now rewrite Hnan, Hnz.
Qed.

(** A request with its fields, typed as the schema types them and with
    a total of at least 1, is stored as it stands, whatever the
    database holds. *)
Lemma recordPayment_typed (user : UserPayload) (now : Date) (db : Db)
    (s c m : string) (t : float) (its : list (string * float)) :
  s <> ""%string -> c <> ""%string -> m <> ""%string -> 1 <= t ->
  its <> [] ->
  Forall (fun it => fst it <> ""%string /\ is_nan (snd it) = false) its ->
  let p :=
    mkFeePayment (schoolId user) s c m now (userId user)
      (map (fun it => mkPaymentItem (fst it) (snd it)) its) t Js.Undefined in
  recordPayment toDate numberToString stringToNumber user now
    (mkPaymentBody (Js.Str s) (Js.Str c) (Js.Str m) (Js.Number t)
       (Some (map (fun it => (Js.Str (fst it), Js.Number (snd it))) its))
       Js.Undefined Js.Undefined) db =
  (Json 201 p, withFeePayments db (feePayments db ++ [p])).
Proof.
  intros Hs Hc Hm Ht Hne Hits. cbv zeta.
  unfold recordPayment, newFeePayment.
  cbn [pb_studentId pb_classId pb_monthYear pb_totalAmountPaid pb_items
       pb_remarks pb_paymentDate].
  rewrite !truthy_Str, (truthy_Number Ht) by assumption.
  assert (Hmissing : itemsMissing
            (Some (map (fun it => (Js.Str (fst it), Js.Number (snd it))) its))
          = false) by (destruct its; [contradiction | reflexivity]).
  rewrite Hmissing. cbn [negb orb].
  rewrite !castId_Str by assumption.
  cbn [FeeRoutes.bind castString castNumber Js.truthy].
  assert (Hnan : is_nan t = false) by (clear - Ht; keys).
  rewrite Hnan, (castItems_typed Hits). cbn [FeeRoutes.bind].
  now rewrite Ht.
Qed.

(** C5, as amended.  The payment form refuses, before it sends any
    request, an amount above the balance of the ledger summary plus
    0.01, the sum rounded as doubles are; what it posts records the
    amount typed, not above that sum and not below 0.01, with the items
    of its allocation.  The route [POST /fees/payments] consults no
    balance: its answer does not depend on the database; it stores every
    request that has its required fields and passes the casts and
    validators of the schema, so every request typed as the schema types
    it with a total of at least 1; and a request that it does not answer
    with 201 leaves the database as it is. *)
Theorem overpayment_checked_by_form (user : UserPayload) (now : Date)
    (body : PaymentBody) (db : Db) :
  (forall ledger sid month token students data payload,
     summaryBalance (summary ledger) + 0.01 < formAmount data ->
     onSubmit toISOString (Some ledger) sid month token students data
     <> Post payload) /\
  (forall ledger sid month token students data payload,
     onSubmit toISOString (Some ledger) sid month token students data
     = Post payload ->
     p_totalAmountPaid payload = formAmount data /\
     (summaryBalance (summary ledger) + 0.01 <? formAmount data) = false /\
     (formAmount data <? 0.01) = false /\
     p_items payload =
       fst (allocatePayment (formAmount data) (ledgerDues ledger))) /\
  (forall db2,
     fst (recordPayment toDate numberToString stringToNumber user now body
            db) =
     fst (recordPayment toDate numberToString stringToNumber user now body
            db2)) /\
  (forall s c m t its,
     s <> ""%string -> c <> ""%string -> m <> ""%string -> 1 <= t ->
     its <> [] ->
     Forall (fun it => fst it <> ""%string /\ is_nan (snd it) = false) its ->
     let p :=
       mkFeePayment (schoolId user) s c m now (userId user)
         (map (fun it => mkPaymentItem (fst it) (snd it)) its) t
         Js.Undefined in
     recordPayment toDate numberToString stringToNumber user now
       (mkPaymentBody (Js.Str s) (Js.Str c) (Js.Str m) (Js.Number t)
          (Some (map (fun it => (Js.Str (fst it), Js.Number (snd it))) its))
          Js.Undefined Js.Undefined) db =
     (Json 201 p, withFeePayments db (feePayments db ++ [p]))) /\
  (forall p,
     Js.truthy (pb_studentId body) = true ->
     Js.truthy (pb_classId body) = true ->
     Js.truthy (pb_monthYear body) = true ->
     Js.truthy (pb_totalAmountPaid body) = true ->
     itemsMissing (pb_items body) = false ->
     newFeePayment toDate numberToString stringToNumber user now body
       = Some p ->
     recordPayment toDate numberToString stringToNumber user now body db =
     (Json 201 p, withFeePayments db (feePayments db ++ [p]))) /\
  (statusOf (fst (recordPayment toDate numberToString stringToNumber user
                    now body db)) <> 201%nat ->
   snd (recordPayment toDate numberToString stringToNumber user now body db)
     = db).
Proof.
  split; [| split; [| split; [| split; [| split]]]].
  - intros ledger sid month token students data payload Hover Hpost.
    apply onSubmit_Post in Hpost as (l & [= <-] & Hle & _).
    unfold Num.lt in Hover. congruence.
  - intros ledger sid month token students data payload Hpost.
    apply onSubmit_Post in Hpost
      as (l & [= <-] & Hle & Hge & Htotal & Hitems & _).
    repeat split; auto.
  - intros db2. unfold recordPayment.
    destruct (_ || _); [reflexivity |].
    now destruct (newFeePayment _ _ _ user now body).
  - intros s c m t its. now apply recordPayment_typed.
  - intros p H1 H2 H3 H4 H5 Hnew. unfold recordPayment.
    now rewrite H1, H2, H3, H4, H5, Hnew.
  - destruct (recordPayment_cases toDate numberToString stringToNumber user
                now body db) as [(p & _ & ->) | [_ ->]]; [| reflexivity].
    cbn. intros H. now contradiction H.
Qed.

End Overpayment.

(** The rejection of C5 as the specification states it fails.  With
    dues of 150 outstanding, the form posts a payment of 150.01, which
    the route stores although it exceeds the balance and its allocation
    leaves a remainder; and the route stores a request of 200 posted to
    it, whose allocation leaves 50. *)
Lemma overpayment_stored_counterexample :
  getStudentLedger Sample.admin (Some "st1"%string) (Some "2025-10"%string)
    Sample.db0 = Json 200 Sample.ledger0 /\
  summaryBalance (summary Sample.ledger0) = 150 /\
  (exists payload p db',
     onSubmit Sample.sameString (Some Sample.ledger0) "st1" "2025-10"
       (Some "token"%string) Sample.pageStudents Sample.form150_01
       = Post payload /\
     recordPayment Sample.epoch Sample.written Sample.readNumber Sample.admin
       0%Z (bodyOf payload) Sample.db0 = (Json 201 p, db') /\
     In p (feePayments db') /\
     totalAmountPaid p = 150.01 /\
     150 < totalAmountPaid p /\
     0 < snd (allocatePayment 150.01 (ledgerDues Sample.ledger0))) /\
  (exists p db',
     recordPayment Sample.noDate Sample.written Sample.readNumber Sample.admin
       0%Z Sample.pays200 Sample.db0 = (Json 201 p, db') /\
     In p (feePayments db') /\
     totalAmountPaid p = 200 /\
     150 < totalAmountPaid p /\
     snd (allocatePayment 200 (ledgerDues Sample.ledger0)) = 50).
Proof.
  split; [reflexivity |]. split; [reflexivity |].
  split.
  - do 3 eexists. split; [vm_compute; reflexivity |].
    split; [vm_compute; reflexivity |].
    split; [simpl; now left |].
    repeat split; reflexivity.
  - do 2 eexists. split; [vm_compute; reflexivity |].
    split; [simpl; now left |].
    repeat split; reflexivity.
Qed.

Lemma overpayment_checked_by_form_witness :
  onSubmit Sample.sameString (Some Sample.ledger0) "st1"%string
    "2025-10"%string (Some "token"%string) Sample.pageStudents
    Sample.form200
  <> Post (mkPayload "st1"%string "c1"%string "2025-10"%string 200
             [mkItem "A"%string 100; mkItem "B"%string 50]
             ""%string "2025-10-06"%string).
Proof.
  refine (proj1 (overpayment_checked_by_form Sample.sameString Sample.noDate
                   Sample.written Sample.readNumber
                   Sample.admin 0%Z Sample.pays200 Sample.db0)
            Sample.ledger0 "st1"%string "2025-10"%string
            (Some "token"%string) Sample.pageStudents Sample.form200 _ _).
  reflexivity.
Defined.

End OverpaymentFacts.

(* ------------------------------------------------------------------ *)
(** ** The preview, the form and the route *)

Module PaymentFlowFacts.

Import Storage FeeRoutes Allocation PaymentPage PaymentPreview.
Import NumFacts AllocationFacts FeeStructureFacts LedgerFacts.
Local Open Scope float_scope.

(** *** The preview *)

(** Nothing is allocated from an amount that is not positive, [NaN]
    included. *)
Lemma allocLoop_nothing (dues : list LedgerDue) (r : float) :
  (0 <? r) = false -> allocLoop dues [] r = ([], r).
Proof.
  intros Hr. induction dues as [| d rest IH]; [reflexivity |].
  cbn [allocLoop]. destruct (r <=? 0); [reflexivity |].
  destruct (0 <? balance d); [| exact IH].
  destruct (0 <? Num.min r (balance d)) eqn:Ha; [| exact IH].
  apply min_positive_inv in Ha as [Hpos _]. congruence.
Qed.

(** The first item never exceeds the amount. *)
Lemma allocLoop_first (dues : list LedgerDue) :
  forall r it rest,
    fst (allocLoop dues [] r) = it :: rest -> amountPaid it <= r.
Proof.
  induction dues as [| d dues IH]; intros r it rest; [discriminate |].
  cbn [allocLoop]. destruct (r <=? 0); [discriminate |].
  destruct (0 <? balance d); [| apply IH].
  destruct (0 <? Num.min r (balance d)) eqn:Ha; [| apply IH].
  rewrite allocLoop_acc. cbn. intros [= <- _]. cbn.
  now apply min_le_l.
Qed.

(** An amount that the preview does not discard is positive. *)
Lemma preview_amount_positive (a : float) :
  (negb (Js.truthy (Js.Number a)) || (a <=? 0))%bool = false -> 0 < a.
Proof.
  cbn. unfold Num.falsy. intros H.
  apply Bool.orb_false_iff in H as [Hfalsy Hle].
  apply Bool.negb_false_iff, Bool.negb_true_iff in Hfalsy.
  apply Bool.orb_false_iff in Hfalsy as [Hnan _].
  now apply not_le_lt.
Qed.

(** X4. The preview under the amount field has only positive lines:
    they are the items that [allocatePayment] makes, in the order of the
    dues, from distinct dues with a positive balance, none above the
    balance of its due, and the first exceeds neither the amount typed
    nor the balance of the ledger summary.  The preview is empty unless
    the amount typed is a positive number and the summary balance is
    positive. *)
Theorem paymentAllocationPreview_bounded (ledger : StudentLedger)
    (amountToPay : Js.value) :
  let rows := paymentAllocationPreview (Some ledger) amountToPay in
  Forall (fun row => 0 < amountAllocated row) rows /\
  (exists items,
     rows = map (previewRow (ledgerDues ledger)) items /\
     allocatedFrom (ledgerDues ledger) items) /\
  (rows <> [] ->
   exists a row rest,
     amountToPay = Js.Number a /\ 0 < a /\
     0 < summaryBalance (summary ledger) /\
     rows = row :: rest /\
     amountAllocated row <= a /\
     amountAllocated row <= summaryBalance (summary ledger)) /\
  (summaryBalance (summary ledger) <= 0 -> rows = []).
Proof.
  cbv zeta. unfold paymentAllocationPreview.
  assert (Hnone :
            Forall (fun row => 0 < amountAllocated row) [] /\
            (exists items,
               [] = map (previewRow (ledgerDues ledger)) items /\
               allocatedFrom (ledgerDues ledger) items) /\
            (@nil PreviewRow <> [] ->
             exists a row rest,
               amountToPay = Js.Number a /\ 0 < a /\
               0 < summaryBalance (summary ledger) /\
               [] = row :: rest /\
               amountAllocated row <= a /\
               amountAllocated row <= summaryBalance (summary ledger)) /\
            (summaryBalance (summary ledger) <= 0 -> @nil PreviewRow = [])).
  { split; [constructor |]. split; [exists []; split; constructor |].
    split; [congruence | reflexivity]. }
  destruct amountToPay as [| | b | a | s]; try exact Hnone.
  destruct (negb (Js.truthy (Js.Number a)) || (a <=? 0))%bool eqn:Hkept;
    [exact Hnone |].
  clear Hnone. apply preview_amount_positive in Hkept.
  set (bal := summaryBalance (summary ledger)).
  set (v := Num.min a bal).
  pose proof (allocatePayment_allocatedFrom v (ledgerDues ledger)) as Hfrom.
  split; [| split; [| split]].
  - apply Forall_map.
    apply (Forall_impl _ (P := fun it => 0 < amountPaid it)); [tauto |].
    exact (allocatedFrom_positive Hfrom).
  - now exists (fst (allocatePayment v (ledgerDues ledger))).
  - intros Hrows. destruct (0 <? v) eqn:Hv.
    + destruct (min_positive_inv _ _ Hv) as [_ Hbal].
      destruct (fst (allocatePayment v (ledgerDues ledger)))
        as [| it its] eqn:Hitems; [contradiction |].
      apply allocLoop_first in Hitems.
      exists a, (previewRow (ledgerDues ledger) it),
        (map (previewRow (ledgerDues ledger)) its).
      split; [reflexivity |]. split; [exact Hkept |].
      split; [exact Hbal |]. split; [reflexivity |]. cbn.
      split.
      * exact (le_trans Hitems (min_le_l _ _ Hv)).
      * exact (le_trans Hitems (min_le_r _ _ Hv)).
    + exfalso. apply Hrows. unfold allocatePayment.
      now rewrite allocLoop_nothing.
  - intros Hbal. unfold allocatePayment.
    rewrite allocLoop_nothing; [reflexivity |].
    destruct (0 <? v) eqn:Hv; [| reflexivity].
    destruct (min_positive_inv _ _ Hv) as [_ Hpos].
    fold bal in Hbal. clear - Hbal Hpos. keys.
Qed.

Section Flow.

Variable toISOString : string -> string.
Variable toDate : Js.value -> option Date.
Variable numberToString : float -> string.
Variable stringToNumber : string -> float.

(** What [onSubmit] posts. *)
Lemma onSubmit_payload (ledger : option StudentLedger)
    (sid month : string) (token : option string)
    (students : list PaymentPage.Student) (data : PaymentFormData)
    (payload : Payload) :
  onSubmit toISOString ledger sid month token students data = Post payload ->
  exists l c,
    ledger = Some l /\ sid <> ""%string /\ month <> ""%string /\
    c <> ""%string /\
    (summaryBalance (summary l) + 0.01 <? formAmount data) = false /\
    (formAmount data <? 0.01) = false /\
    fst (allocatePayment (formAmount data) (ledgerDues l)) <> [] /\
    payload =
      mkPayload sid c month (formAmount data)
        (fst (allocatePayment (formAmount data) (ledgerDues l)))
        (formRemarks data) (toISOString (formPaymentDate data)).
Proof.
  unfold onSubmit. destruct ledger as [l |]; [| discriminate].
  destruct (String.eqb_spec sid "") as [| Hsid]; [discriminate |].
  destruct (String.eqb_spec month "") as [| Hmonth]; [discriminate |].
  cbn [orb].
  destruct (summaryBalance (summary l) + 0.01 <? formAmount data) eqn:Hover;
    [discriminate |].
  destruct (formAmount data <? 0.01) eqn:Hsmall; [discriminate |].
  destruct (fst (allocatePayment (formAmount data) (ledgerDues l)))
    as [| it its] eqn:Hitems; [discriminate |].
  destruct token; [| discriminate].
  destruct (classOf _) as [c |] eqn:Hclass; [| discriminate].
  intros [= <-]. exists l, c.
  split; [reflexivity |]. split; [exact Hsid |]. split; [exact Hmonth |].
  split.
  { unfold classOf in Hclass.
    destruct (find _ students) as [st |]; [| discriminate].
    destruct (classId st) as [c' |]; [| discriminate].
    destruct (String.eqb_spec c' "") as [| Hc]; [discriminate |].
    now injection Hclass as <-. }
  split; [exact Hover |]. split; [reflexivity |].
  rewrite ?Hitems. split; [discriminate | reflexivity].
Qed.

(** An amount that passes the lower check of the form, and is a number,
    is positive. *)
Lemma posted_positive (a : float) :
  is_nan a = false -> (a <? 0.01) = false -> 0 < a.
Proof. intros Hnan Hge. clear - Hnan Hge. keys. Qed.


(** *** What the server makes of the request of the form *)

(** The items of an allocation over finite balances are finite, so
    [JSON.stringify] writes each as a number. *)
Lemma allocated_finite (dues : list LedgerDue) (its : list Item) :
  allocatedFrom dues its -> finiteBalances dues ->
  Forall (fun it => is_finite (amountPaid it) = true) its.
Proof.
  induction 1 as [dues | d dues its _ IH | d dues its a Hb Ha Hle _ IH];
    intros Hfin.
  - constructor.
  - apply IH. now inversion Hfin.
  - inversion Hfin as [| ? ? Hd Hrest]; subst. constructor.
    + cbn. apply (@between_finite a 0 infinity Ha).
      exact (le_lt_trans Hle (finite_lt_infinity _ Hd)).
    + now apply IH.
Qed.

Lemma finite_not_nan (x : float) : is_finite x = true -> is_nan x = false.
Proof.
  unfold is_finite. intros H. apply Bool.negb_true_iff in H.
  now apply Bool.orb_false_iff in H as [H _].
Qed.

Lemma castItems_heads (its : list Item) :
  Forall (fun it => itemHead it <> ""%string) its ->
  Forall (fun it => is_finite (amountPaid it) = true) its ->
  castItems stringToNumber
    (map (fun it => (Js.Str (itemHead it), Js.ofNumber (amountPaid it))) its)
  = Some (map storedItem its).
Proof.
  induction 1 as [| it its Hit _ IH]; intros Hfin; [reflexivity |].
  inversion Hfin as [| ? ? Ha Hrest]; subst.
  cbn [map castItems]. unfold castItem. cbn [fst snd].
  unfold Js.ofNumber at 1. rewrite Ha. cbn [castNumber].
  rewrite (finite_not_nan _ Ha).
  rewrite (castId_Str Hit). cbn [FeeRoutes.bind].
  now rewrite (IH Hrest).
Qed.

Lemma required_fields_posted (sid c month remarks iso : string) (a : float)
    (its : list Item) :
  sid <> ""%string -> c <> ""%string -> month <> ""%string ->
  0 < a -> is_finite a = true -> its <> [] ->
  let body := bodyOf (mkPayload sid c month a its remarks iso) in
  (negb (Js.truthy (pb_studentId body)) || negb (Js.truthy (pb_classId body))
   || negb (Js.truthy (pb_monthYear body))
   || negb (Js.truthy (pb_totalAmountPaid body))
   || itemsMissing (pb_items body))%bool = false.
Proof.
  intros Hsid Hc Hmonth Ha Hfin Hits. cbn. unfold Js.ofNumber.
  destruct (String.eqb_spec sid ""); [contradiction |].
  destruct (String.eqb_spec c ""); [contradiction |].
  destruct (String.eqb_spec month ""); [contradiction |].
  rewrite Hfin. cbn. unfold Num.falsy.
  rewrite (lt_not_nan_r Ha).
  assert (Hnz : (a =? 0) = false) by (clear - Ha; keys).
  rewrite Hnz. destruct its; [contradiction | reflexivity].
Qed.

(** X6. The form accepts an amount of one hundredth or more, the schema
    of [FeePayment] requires [totalAmountPaid] to be at least 1: a
    request that the form posts for an amount below 1 passes the check
    of the route for required fields, fails in [save()], is answered 500
    and stores nothing. *)
Theorem small_payment_refused_by_server (user : UserPayload) (now : Date)
    (db : Db) (ledger : option StudentLedger) (sid month : string)
    (token : option string) (students : list PaymentPage.Student)
    (data : PaymentFormData) (payload : Payload) :
  onSubmit toISOString ledger sid month token students data = Post payload ->
  formAmount data < 1 ->
  recordPayment toDate numberToString stringToNumber user now
    (bodyOf payload) db =
  (Message 500 "Server error recording payment.", db).
Proof.
  intros Hpost Hsmall.
  apply onSubmit_payload in Hpost
    as (l & c & _ & Hsid & Hmonth & Hc & _ & Hge & Hits & ->).
  pose proof (posted_positive (lt_not_nan_l Hsmall) Hge) as Hpos.
  pose proof (between_finite Hpos Hsmall) as Hfin.
  unfold recordPayment.
  rewrite required_fields_posted by assumption.
  unfold newFeePayment.
  cbn [bodyOf pb_studentId pb_classId pb_monthYear pb_totalAmountPaid
       pb_items pb_remarks pb_paymentDate p_studentId p_classId p_monthYear
       p_totalAmountPaid p_items p_remarks p_paymentDate].
  unfold Js.ofNumber at 1. rewrite Hfin.
  rewrite !castId_Str by assumption.
  cbn [FeeRoutes.bind castString castNumber].
  rewrite (lt_not_nan_l Hsmall).
  destruct (castItems _ _); [| reflexivity]. cbn [FeeRoutes.bind].
  destruct (if Js.truthy _ then _ else _); [| reflexivity].
  cbn [FeeRoutes.bind].
  now rewrite (lt_not_le Hsmall).
Qed.

(** X7. A request that the form posts for an amount of at least 1 is
    stored as posted, once its date parses and no due of the ledger has
    an empty head: the route answers 201 with the payment, which carries
    the school and the user of the caller's token, the student, class
    and month of the page, the amount typed and the items of the
    allocation, and appends it to the payments.  The amount typed and
    the balances of the ledger are finite: [JSON.stringify] writes any
    other number as [null]. *)
Theorem form_payment_stored (user : UserPayload) (now date : Date) (db : Db)
    (ledger : StudentLedger) (sid month : string) (token : option string)
    (students : list PaymentPage.Student) (data : PaymentFormData)
    (payload : Payload) :
  onSubmit toISOString (Some ledger) sid month token students data
    = Post payload ->
  1 <= formAmount data -> formAmount data < infinity ->
  finiteBalances (ledgerDues ledger) ->
  Forall (fun d => feeHeadId d <> ""%string) (ledgerDues ledger) ->
  p_paymentDate payload <> ""%string ->
  toDate (Js.Str (p_paymentDate payload)) = Some date ->
  let stored :=
    mkFeePayment (schoolId user) sid (p_classId payload) month date
      (userId user)
      (map storedItem
         (fst (allocatePayment (formAmount data) (ledgerDues ledger))))
      (formAmount data) (Js.Str (formRemarks data)) in
  recordPayment toDate numberToString stringToNumber user now
    (bodyOf payload) db =
  (Json 201 stored, withFeePayments db (feePayments db ++ [stored])).
Proof.
  intros Hpost Hone Hbound Hfinite Hheads Hiso Hdate.
  apply onSubmit_payload in Hpost
    as (l & c & [= <-] & Hsid & Hmonth & Hc & _ & Hge & Hits & ->).
  cbn [p_paymentDate p_classId] in *. cbv zeta.
  assert (Hpos : 0 < formAmount data) by (clear - Hone; keys).
  pose proof (between_finite Hpos Hbound) as Hfin.
  pose proof (allocatePayment_allocatedFrom (formAmount data)
                (ledgerDues ledger)) as Hfrom.
  unfold recordPayment.
  rewrite required_fields_posted by assumption.
  unfold newFeePayment.
  cbn [bodyOf pb_studentId pb_classId pb_monthYear pb_totalAmountPaid
       pb_items pb_remarks pb_paymentDate p_studentId p_classId p_monthYear
       p_totalAmountPaid p_items p_remarks p_paymentDate].
  unfold Js.ofNumber at 1. rewrite Hfin.
  rewrite !castId_Str by assumption.
  cbn [FeeRoutes.bind castString castNumber castOptionalString].
  rewrite (finite_not_nan _ Hfin). cbn [FeeRoutes.bind].
  rewrite castItems_heads.
  - cbn [FeeRoutes.bind]. rewrite truthy_Str by assumption. rewrite Hdate.
    cbn [FeeRoutes.bind]. now rewrite Hone.
  - pose proof (allocatedFrom_heads Hfrom) as Hincl.
    apply Forall_forall. intros it Hit.
    assert (Hin : In (itemHead it) (map feeHeadId (ledgerDues ledger)))
      by (apply Hincl; now apply in_map).
    apply in_map_iff in Hin as (d & <- & Hd).
    exact (proj1 (Forall_forall _ _) Hheads d Hd).
  - exact (allocated_finite Hfrom Hfinite).
Qed.

End Flow.


Lemma small_payment_refused_by_server_witness :
  recordPayment Sample.epoch Sample.written Sample.readNumber Sample.admin
    0%Z
    (bodyOf (mkPayload "st1"%string "c1"%string "2025-10"%string
               0.5 [mkItem "A"%string 0.5] ""%string
               "2025-10-06"%string)) Sample.db0 =
  (Message 500 "Server error recording payment.", Sample.db0).
Proof.
  refine (@small_payment_refused_by_server Sample.sameString Sample.epoch
            Sample.written Sample.readNumber
            Sample.admin 0%Z Sample.db0 (Some Sample.ledger0) "st1"%string
            "2025-10"%string (Some "token"%string) Sample.pageStudents
            Cases.formHalf _ _ _).
  - vm_compute. reflexivity.
  - vm_compute. reflexivity.
Defined.

Lemma form_payment_stored_witness :
  fst (recordPayment Sample.epoch Sample.written Sample.readNumber
         Sample.admin 7%Z (bodyOf Cases.payload120) Sample.db0) =
  Json 201
    (mkFeePayment "s1"%string "st1"%string "c1"%string "2025-10"%string 0%Z
       "u1"%string
       (map storedItem
          (fst (allocatePayment 120 (ledgerDues Sample.ledger0))))
       120 (Js.Str ""%string)).
Proof.
  refine (f_equal fst
            (@form_payment_stored Sample.sameString Sample.epoch
               Sample.written Sample.readNumber Sample.admin
               7%Z 0%Z Sample.db0 Sample.ledger0 "st1"%string
               "2025-10"%string (Some "token"%string) Sample.pageStudents
               Sample.form120 Cases.payload120 _ _ _ _ _ _ _)).
  - vm_compute. reflexivity.
  - vm_compute. reflexivity.
  - vm_compute. reflexivity.
  - repeat constructor.
  - repeat constructor; discriminate.
  - discriminate.
  - reflexivity.
Defined.

End PaymentFlowFacts.

(* ------------------------------------------------------------------ *)
(** ** What the ledger reads, and what it serves *)

Module LedgerFlowFacts.

Import Storage FeeRoutes Allocation Tenancy.
Import NumFacts FeeStructureFacts LedgerFacts.
Local Open Scope float_scope.

Lemma ledgerRow_heads (l : list FeePayment) (dues : list PopulatedDue) :
  map feeHeadId (flat_map (ledgerRow l) dues) = map fst (dueEntries dues).
Proof.
  induction dues as [| d dues IH]; cbn; [reflexivity |].
  rewrite !map_app, IH. f_equal.
  unfold ledgerRow. now destruct (due_feeHead d).
Qed.

Lemma ledgerSpec_heads_NoDup (db : Db) (s c sid : ObjectId) (m : string) :
  structuresUnique db ->
  NoDup (map feeHeadId (ledgerDues (ledgerSpec db s c sid m))).
Proof.
  intros Hunique. unfold ledgerSpec. cbn [ledgerDues].
  rewrite ledgerRow_heads.
  apply dueEntries_NoDup. now apply findStructures_heads.
Qed.

(** *** What the ledger reads *)

Lemma getStudentLedger_ext (user : UserPayload) (sid my : string)
    (db db2 : Db) :
  findStudent db2 sid (schoolId user) = findStudent db sid (schoolId user) ->
  (forall c,
     findStructures db2 (schoolId user) c my =
     findStructures db (schoolId user) c my) ->
  findPayments db2 (schoolId user) sid my =
    findPayments db (schoolId user) sid my ->
  feeHeads db2 = feeHeads db ->
  getStudentLedger user (Some sid) (Some my) db2 =
  getStudentLedger user (Some sid) (Some my) db.
Proof.
  intros Hst Hfs Hpay Hheads. unfold getStudentLedger.
  destruct (_ || _)%bool; [reflexivity |].
  rewrite Hst. destruct (findStudent db sid (schoolId user)) as [student |];
    [| reflexivity].
  rewrite Hfs, Hpay.
  replace (map (populateDue db2)
             (findStructures db (schoolId user) (student_classId student) my))
    with (map (populateDue db)
            (findStructures db (schoolId user) (student_classId student) my))
    by (apply map_ext; intros r; unfold populateDue, findHeadById;
        now rewrite Hheads).
  replace (map (populatePayment db2) (findPayments db (schoolId user) sid my))
    with (map (populatePayment db) (findPayments db (schoolId user) sid my))
    by (apply map_ext; intros q; unfold populatePayment, findHeadById;
        now rewrite Hheads).
  reflexivity.
Qed.





Section Recorded.

Variable toDate : Js.value -> option Date.
Variable numberToString : float -> string.
Variable stringToNumber : string -> float.

(** The school, student, month and receiver of the payment that the
    route builds: the school and the user of the token, and the student
    and month of the request as the schema casts them. *)
Lemma newFeePayment_fields (user : UserPayload) (now : Date)
    (body : PaymentBody) (p : FeePayment) :
  newFeePayment toDate numberToString stringToNumber user now body = Some p ->
  pay_schoolId p = schoolId user /\
  castId (pb_studentId body) = Some (pay_studentId p) /\
  castString numberToString (pb_monthYear body) = Some (pay_monthYear p) /\
  receivedBy p = userId user.
Proof.
  unfold newFeePayment. intros Hnew.
  destruct (castId (pb_studentId body)) as [s |]; [| discriminate].
  cbn [FeeRoutes.bind] in Hnew.
  destruct (castId (pb_classId body)) as [c |]; [| discriminate].
  cbn [FeeRoutes.bind] in Hnew.
  destruct (castString numberToString (pb_monthYear body)) as [m |];
    [| discriminate].
  cbn [FeeRoutes.bind] in Hnew.
  destruct (castNumber stringToNumber (pb_totalAmountPaid body)) as [t |];
    [| discriminate].
  cbn [FeeRoutes.bind] in Hnew.
  destruct (FeeRoutes.bind (pb_items body) (castItems stringToNumber))
    as [its |]; [| discriminate].
  cbn [FeeRoutes.bind] in Hnew.
  destruct (if Js.truthy (pb_paymentDate body) then _ else _) as [d |];
    [| discriminate].
  cbn [FeeRoutes.bind] in Hnew.
  destruct (1 <=? t); [| discriminate].
  injection Hnew as <-. cbn. repeat split; reflexivity.
Qed.

(** X10. Recording a payment changes the ledger of no other student, no
    other month and no other school: whatever the route answers to a
    request of a caller of another school, or whose student or month,
    as the schema casts them, are not those of a ledger, that ledger is
    served afterwards as before. *)
Theorem ledger_unchanged_by_other_payments (payer user : UserPayload)
    (now : Date) (body : PaymentBody) (sid my : string) (db : Db) :
  schoolId payer <> schoolId user \/
  castId (pb_studentId body) <> Some sid \/
  castString numberToString (pb_monthYear body) <> Some my ->
  getStudentLedger user (Some sid) (Some my)
    (snd (recordPayment toDate numberToString stringToNumber payer now body
            db)) =
  getStudentLedger user (Some sid) (Some my) db.
Proof.
  intros Hother.
  destruct (recordPayment_cases toDate numberToString stringToNumber payer
              now body db) as [(p & Hnew & ->) | [_ ->]]; [| reflexivity].
  cbn [snd].
  apply newFeePayment_fields in Hnew as (Hschool & Hstudent & Hmonth & _).
  apply getStudentLedger_ext; try (destruct db; reflexivity).
  unfold findPayments. destruct db. cbn.
  rewrite filter_app. cbn.
  destruct (String.eqb_spec (pay_schoolId p) (schoolId user)) as [Hs | _];
    [| now rewrite app_nil_r].
  destruct (String.eqb_spec (pay_studentId p) sid) as [Hi | _];
    [| now rewrite app_nil_r].
  destruct (String.eqb_spec (pay_monthYear p) my) as [Hm | _];
    [| now rewrite app_nil_r].
  exfalso. destruct Hother as [H | [H | H]]; apply H;
    [congruence | now rewrite Hstudent, Hi | now rewrite Hmonth, Hm].
Qed.

End Recorded.

Lemma ledger_unchanged_by_other_payments_witness :
  getStudentLedger Sample.admin (Some "st2"%string) (Some "2025-10"%string)
    (snd (recordPayment Sample.noDate Sample.written Sample.readNumber
            Sample.admin 0%Z Sample.pays50 Sample.db0)) =
  getStudentLedger Sample.admin (Some "st2"%string) (Some "2025-10"%string)
    Sample.db0.
Proof.
  refine (@ledger_unchanged_by_other_payments Sample.noDate Sample.written
            Sample.readNumber Sample.admin Sample.admin 0%Z Sample.pays50
            "st2"%string "2025-10"%string Sample.db0 _).
  right. left. discriminate.
Defined.

(** *** A payment whose head is gone *)

Lemma itemLoop_null (its : list (option FeeHead * float)) (a : float) :
  In (None, a) its -> forall paidMap, itemLoop its paidMap = None.
Proof.
  induction its as [| [[head |] a'] its IH]; intros Hin paidMap; cbn.
  - contradiction.
  - destruct Hin as [Hin | Hin]; [discriminate | now apply IH].
  - reflexivity.
Qed.

Lemma paymentLoop_null (payments : list PopulatedPayment)
    (pp : PopulatedPayment) (a : float) :
  In pp payments -> In (None, a) (pay_items pp) ->
  forall totalPaid paidMap, paymentLoop payments totalPaid paidMap = None.
Proof.
  induction payments as [| q payments IH]; intros Hin Hnull totalPaid paidMap;
    [contradiction |].
  cbn. unfold FeeRoutes.bind. destruct Hin as [-> | Hin].
  - now rewrite (itemLoop_null _ _ Hnull).
  - destruct (itemLoop (pay_items q) paidMap); [| reflexivity].
    now apply IH.
Qed.

(** X11. One item that names a fee head which does not exist makes the
    ledger of its student and month unavailable: [populate] leaves
    [null] in the item, the loop over the items throws on it, and the
    route answers 500 instead of a ledger. *)
Theorem ledger_fails_on_lost_head (user : UserPayload) (sid my : string)
    (db : Db) (student : Storage.Student) (p : FeePayment)
    (it : PaymentItem) :
  sid <> ""%string -> my <> ""%string ->
  findStudent db sid (schoolId user) = Some student ->
  In p (findPayments db (schoolId user) sid my) ->
  In it (items p) -> findHeadById db (pi_feeHeadId it) = None ->
  getStudentLedger user (Some sid) (Some my) db =
  Message 500 "Server error fetching ledger.".
Proof.
  intros Hsid Hmy Hstudent Hp Hit Hnone. unfold getStudentLedger.
  rewrite !present_Some by assumption. cbn [negb orb]. rewrite Hstudent.
  destruct (dueLoop _ _ _) as [totalDue dueMap].
  rewrite (@paymentLoop_null _ (populatePayment db p) (pi_amountPaid it));
    [reflexivity | |].
  - apply (Permutation_in _
             (Permutation_sym (sortByDateDesc_Permutation _))).
    now apply in_map.
  - unfold populatePayment. cbn [pay_items].
    apply in_map_iff. exists it. now rewrite Hnone.
Qed.

Lemma ledger_fails_on_lost_head_witness :
  getStudentLedger Sample.admin (Some "st1"%string) (Some "2025-10"%string)
    Cases.dbLostHead = Message 500 "Server error fetching ledger.".
Proof.
  refine (@ledger_fails_on_lost_head Sample.admin "st1"%string
            "2025-10"%string Cases.dbLostHead
            (Storage.mkStudent "st1"%string "s1"%string "c1"%string
               "Ali"%string)
            Cases.paidToLostHead
            (mkPaymentItem "Z"%string 10) _ _ _ _ _ _).
  - discriminate.
  - discriminate.
  - reflexivity.
  - left. reflexivity.
  - left. reflexivity.
  - reflexivity.
Defined.

(** *** The rows and the summary *)





End LedgerFlowFacts.

(* ------------------------------------------------------------------ *)
(** ** The first payment of a month, from the form to the ledger *)

Module FirstPaymentFacts.

Import Storage FeeRoutes Allocation PaymentPage PaymentPreview.
Import NumFacts AllocationFacts FeeStructureFacts LedgerFacts.
Import PaymentFlowFacts LedgerFlowFacts.
Local Open Scope float_scope.

(** *** The ledger before any payment *)

Lemma paidTo_nil (h : ObjectId) : paidTo h [] = 0.
Proof. reflexivity. Qed.

Lemma ledgerRow_unpaid (dues : list PopulatedDue) :
  Forall (fun d => paid d = 0 /\ balance d = due d)
    (flat_map (ledgerRow []) dues).
Proof.
  induction dues as [| d dues IH]; cbn; [constructor |].
  apply Forall_app. split; [| exact IH].
  unfold ledgerRow. destruct (due_feeHead d); [| constructor].
  constructor; [| constructor]. cbn [paid balance due]. rewrite paidTo_nil.
  split; [reflexivity | apply sub_zero_r].
Qed.

Lemma ledgerSpec_heads_exist (db : Db) (s c sid : ObjectId) (m : string) :
  Forall (fun d => findHeadById db (feeHeadId d) <> None)
    (ledgerDues (ledgerSpec db s c sid m)).
Proof.
  unfold ledgerSpec. cbn [ledgerDues].
  induction (findStructures db s c m) as [| r rows IH]; cbn; [constructor |].
  apply Forall_app. split; [| exact IH].
  unfold ledgerRow, populateDue. cbn.
  destruct (findHeadById db (fs_feeHeadId r)) as [head |] eqn:Hhead;
    [| constructor].
  constructor; [| constructor]. cbn.
  rewrite (findHeadById_id _ _ Hhead), Hhead. discriminate.
Qed.

(** *** What an allocation gives to one head *)

Lemma filter_absent (h : string) (its : list Item) :
  ~ In h (map itemHead its) ->
  filter (fun it => String.eqb (itemHead it) h) its = [].
Proof.
  induction its as [| it its IH]; intros Hnot; [reflexivity |].
  cbn in *. destruct (String.eqb_spec (itemHead it) h) as [Heq | _];
    [tauto |].
  apply IH. tauto.
Qed.

Lemma filter_none_absent (h : string) (its : list Item) :
  filter (fun it => String.eqb (itemHead it) h) its = [] ->
  ~ In h (map itemHead its).
Proof.
  induction its as [| it its IH]; cbn; [tauto |].
  destruct (String.eqb_spec (itemHead it) h) as [Heq | Hne];
    [discriminate |].
  intros Hnone [Hin | Hin]; [contradiction | now apply IH].
Qed.

(** Over dues with distinct heads, an allocation holds at most one item
    for a due, positive and not above its balance. *)
Lemma allocatedFrom_at (dues : list LedgerDue) (its : list Item) :
  allocatedFrom dues its -> NoDup (map feeHeadId dues) ->
  forall d, In d dues ->
    filter (fun it => String.eqb (itemHead it) (feeHeadId d)) its = [] \/
    exists a,
      filter (fun it => String.eqb (itemHead it) (feeHeadId d)) its =
        [mkItem (feeHeadId d) a] /\
      0 < a /\ a <= balance d.
Proof.
  induction 1
    as [dues | d0 dues its Hfrom IH | d0 dues its a Hb Ha Hab Hfrom IH];
    intros Hnd d Hin.
  - now left.
  - cbn in Hnd. apply NoDup_cons_iff in Hnd as [Hfresh Hnd].
    destruct Hin as [<- | Hin]; [| now apply IH].
    left. apply filter_absent. intros Habs. apply Hfresh.
    exact (allocatedFrom_heads Hfrom _ Habs).
  - cbn in Hnd. apply NoDup_cons_iff in Hnd as [Hfresh Hnd].
    cbn [filter itemHead].
    destruct Hin as [<- | Hin].
    + rewrite String.eqb_refl. right. exists a.
      rewrite filter_absent; [now repeat split |].
      intros Habs. apply Hfresh.
      exact (allocatedFrom_heads Hfrom _ Habs).
    + destruct (String.eqb_spec (feeHeadId d0) (feeHeadId d)) as [Heq | _];
        [| now apply IH].
      exfalso. apply Hfresh. rewrite Heq. now apply in_map.
Qed.

(** What the ledger credits to a head after one payment that holds the
    items of an allocation. *)
Lemma paidTo_one (h : ObjectId) (p : FeePayment) (its : list Item) :
  items p = map storedItem its ->
  (filter (fun it => String.eqb (itemHead it) h) its = [] ->
   paidTo h [p] = 0) /\
  (forall a,
     filter (fun it => String.eqb (itemHead it) h) its = [mkItem h a] ->
     0 < a -> paidTo h [p] = a).
Proof.
  intros Hits.
  assert (Hof : itemsOf h [p] =
                map storedItem
                  (filter (fun it => String.eqb (itemHead it) h) its)).
  { unfold itemsOf. cbn [flat_map]. rewrite app_nil_r, Hits.
    clear Hits. induction its as [| it its IH]; [reflexivity |].
    cbn. destruct (String.eqb (itemHead it) h); cbn; now rewrite IH. }
  unfold paidTo. rewrite Hof. split.
  - intros ->. reflexivity.
  - intros a -> Ha. cbn. unfold credited.
    change (Num.orZero 0) with 0%float. rewrite (add_zero_l Ha).
    unfold Num.orZero, Num.falsy. rewrite (lt_not_nan_r Ha).
    assert (Hnz : (a =? 0) = false) by (clear - Ha; keys).
    now rewrite Hnz.
Qed.

Lemma Forall2_flat_map {A B C} (R : B -> C -> Prop) (f : A -> list B)
    (g : A -> list C) (l : list A) :
  (forall x, In x l -> Forall2 R (f x) (g x)) ->
  Forall2 R (flat_map f l) (flat_map g l).
Proof.
  induction l as [| x l IH]; intros H; cbn; [constructor |].
  apply Forall2_app; [apply H; now left |].
  apply IH. intros y Hy. apply H. now right.
Qed.

Section Flow.

Variable toISOString : string -> string.
Variable toDate : Js.value -> option Date.
Variable numberToString : float -> string.
Variable stringToNumber : string -> float.

(** The items of a request of the form that pass the casts are the
    items of the form, all finite. *)
Lemma castItems_posted (its : list Item) (l : list PaymentItem) :
  castItems stringToNumber
    (map (fun it => (Js.Str (itemHead it), Js.ofNumber (amountPaid it))) its)
  = Some l ->
  l = map storedItem its /\
  Forall (fun it => is_finite (amountPaid it) = true) its.
Proof.
  revert l. induction its as [| it its IH]; intros l; cbn [map castItems].
  - intros [= <-]. split; constructor.
  - unfold castItem. cbn [fst snd castId].
    destruct (String.eqb (itemHead it) ""); [discriminate |].
    cbn [FeeRoutes.bind]. unfold Js.ofNumber at 1.
    destruct (is_finite (amountPaid it)) eqn:Hfin; [| discriminate].
    cbn [castNumber]. rewrite (finite_not_nan _ Hfin). cbn [FeeRoutes.bind].
    destruct (castItems _ _) as [l' |]; [| discriminate].
    cbn [FeeRoutes.bind]. intros [= <-].
    destruct (IH l' eq_refl) as [-> Hall].
    split; [reflexivity | now constructor].
Qed.

Lemma newFeePayment_items (user : UserPayload) (now : Date)
    (body : PaymentBody) (p : FeePayment) :
  newFeePayment toDate numberToString stringToNumber user now body = Some p ->
  FeeRoutes.bind (pb_items body) (castItems stringToNumber) = Some (items p).
Proof.
  unfold newFeePayment. intros Hnew.
  destruct (castId (pb_studentId body)) as [s |]; [| discriminate].
  cbn [FeeRoutes.bind] in Hnew.
  destruct (castId (pb_classId body)) as [c |]; [| discriminate].
  cbn [FeeRoutes.bind] in Hnew.
  destruct (castString numberToString (pb_monthYear body)) as [m |];
    [| discriminate].
  cbn [FeeRoutes.bind] in Hnew.
  destruct (castNumber stringToNumber (pb_totalAmountPaid body)) as [t |];
    [| discriminate].
  cbn [FeeRoutes.bind] in Hnew.
  destruct (FeeRoutes.bind (pb_items body) (castItems stringToNumber))
    as [its |]; [| discriminate].
  cbn [FeeRoutes.bind] in Hnew.
  destruct (if Js.truthy (pb_paymentDate body) then _ else _) as [d |];
    [| discriminate].
  cbn [FeeRoutes.bind] in Hnew.
  destruct (1 <=? t); [| discriminate].
  now injection Hnew as <-.
Qed.

(** What the route stores of a request of the form. *)
Lemma recordPayment_posted (user : UserPayload) (now : Date)
    (payload : Payload) (db db' : Db) (p : FeePayment) :
  recordPayment toDate numberToString stringToNumber user now
    (bodyOf payload) db = (Json 201 p, db') ->
  db' = withFeePayments db (feePayments db ++ [p]) /\
  pay_schoolId p = schoolId user /\
  pay_studentId p = p_studentId payload /\
  pay_monthYear p = p_monthYear payload /\
  items p = map storedItem (p_items payload) /\
  Forall (fun it => is_finite (amountPaid it) = true) (p_items payload).
Proof.
  intros Hrec.
  destruct (recordPayment_cases toDate numberToString stringToNumber user
              now (bodyOf payload) db)
    as [(p' & Hnew & Hrec') | [[Hs | Hs] _]];
    rewrite Hrec in *; try discriminate.
  injection Hrec' as <- ->. split; [reflexivity |].
  pose proof (newFeePayment_items _ _ _ Hnew) as Hitems.
  apply newFeePayment_fields in Hnew as (Hschool & Hstudent & Hmonth & _).
  cbn [bodyOf pb_studentId pb_monthYear pb_items castString castId
       FeeRoutes.bind] in Hstudent, Hmonth, Hitems.
  destruct (String.eqb (p_studentId payload) ""); [discriminate |].
  injection Hstudent as Hstudent. injection Hmonth as Hmonth.
  apply castItems_posted in Hitems as [Hitems Hfinite].
  now repeat split.
Qed.

(** X8. The first payment of a student for a month, made through the
    form on the ledger that the route has just served, is credited head
    by head and overpays no head.  Before it every row has nothing paid
    and its whole due as balance.  After it the ledger has the same
    rows, in the same order, each with [balance = due - paid]; a row
    whose head has no item in the allocation has nothing paid and the
    balance it had; a row whose head has an item has that item's amount
    as [paid], an amount that is positive and not above the balance the
    row had, and its new balance is not negative. *)
Theorem first_form_payment_credits_heads (user : UserPayload) (now : Date)
    (db db' : Db) (sid my : string) (student : Storage.Student)
    (token : option string) (students : list PaymentPage.Student)
    (data : PaymentFormData) (payload : Payload) (p : FeePayment) :
  sid <> ""%string -> my <> ""%string ->
  findStudent db sid (schoolId user) = Some student ->
  structuresUnique db ->
  findPayments db (schoolId user) sid my = [] ->
  let before :=
    ledgerSpec db (schoolId user) (student_classId student) sid my in
  onSubmit toISOString (Some before) sid my token students data
    = Post payload ->
  recordPayment toDate numberToString stringToNumber user now
    (bodyOf payload) db = (Json 201 p, db') ->
  getStudentLedger user (Some sid) (Some my) db = Json 200 before /\
  Forall (fun d => paid d = 0 /\ balance d = due d) (ledgerDues before) /\
  items p = map storedItem (p_items payload) /\
  exists after,
    getStudentLedger user (Some sid) (Some my) db' = Json 200 after /\
    Forall2
      (fun d d' =>
         feeHeadId d' = feeHeadId d /\ name d' = name d /\
         due d' = due d /\ balance d' = due d' - paid d' /\
         ((~ In (feeHeadId d) (map itemHead (p_items payload)) /\
           paid d' = 0 /\ balance d' = balance d) \/
          (In (mkItem (feeHeadId d) (paid d')) (p_items payload) /\
           0 < paid d' /\ paid d' <= balance d /\ 0 <= balance d')))
      (ledgerDues before) (ledgerDues after).
Proof.
  intros Hsid Hmy Hstudent Hunique Hnone before Hpost Hrec.
  assert (Hitems0 : itemsPopulate db (schoolId user) sid my)
    by (unfold itemsPopulate; rewrite Hnone; constructor).
  pose proof (getStudentLedger_spec user Hsid Hmy Hstudent Hunique Hitems0)
    as Hbefore.
  split; [exact Hbefore |].
  assert (Hrows : Forall (fun d => paid d = 0 /\ balance d = due d)
                    (ledgerDues before)).
  { unfold before, ledgerSpec. cbn [ledgerDues]. rewrite Hnone. cbn.
    apply ledgerRow_unpaid. }
  split; [exact Hrows |].
  apply onSubmit_payload in Hpost
    as (l & c & [= <-] & _ & _ & _ & _ & _ & _ & ->).
  apply recordPayment_posted in Hrec
    as (-> & Hschool & Hp & Hm & Hits & Hfinite).
  cbn [p_studentId p_monthYear p_items] in *.
  split; [exact Hits |].
  set (alloc := fst (allocatePayment (formAmount data) (ledgerDues before)))
    in *.
  assert (Hfrom : allocatedFrom (ledgerDues before) alloc)
    by apply allocatePayment_allocatedFrom.
  assert (Hnd : NoDup (map feeHeadId (ledgerDues before)))
    by now apply ledgerSpec_heads_NoDup.
  set (db' := withFeePayments db (feePayments db ++ [p])).
  assert (Hfound : findPayments db' (schoolId user) sid my = [p]).
  { assert (Happ : findPayments db' (schoolId user) sid my =
                   findPayments db (schoolId user) sid my ++ [p]).
    { unfold findPayments, db'. destruct db. cbn. rewrite filter_app. cbn.
      now rewrite Hschool, Hp, Hm, !String.eqb_refl. }
    now rewrite Happ, Hnone. }
  assert (Hstudent' : findStudent db' sid (schoolId user) = Some student)
    by (unfold db'; destruct db; exact Hstudent).
  assert (Hunique' : structuresUnique db')
    by (unfold db'; destruct db; exact Hunique).
  assert (Hheads' : forall h, findHeadById db' h = findHeadById db h)
    by (intros h; unfold db'; destruct db; reflexivity).
  assert (Hitems' : itemsPopulate db' (schoolId user) sid my).
  { unfold itemsPopulate. rewrite Hfound. constructor; [| constructor].
    rewrite Hits. apply Forall_map. apply Forall_forall. intros it Hit.
    cbn [storedItem pi_feeHeadId]. rewrite Hheads'.
    assert (Hin : In (itemHead it) (map feeHeadId (ledgerDues before)))
      by (apply (allocatedFrom_heads Hfrom); now apply in_map).
    apply in_map_iff in Hin as (d & <- & Hd).
    exact (proj1 (Forall_forall _ _)
             (ledgerSpec_heads_exist db (schoolId user)
                (student_classId student) sid my) d Hd). }
  eexists. split;
    [exact (getStudentLedger_spec user Hsid Hmy Hstudent' Hunique' Hitems') |].
  assert (Hdues : map (populateDue db')
                    (findStructures db' (schoolId user)
                       (student_classId student) my) =
                  map (populateDue db)
                    (findStructures db (schoolId user)
                       (student_classId student) my))
    by (unfold db'; destruct db; reflexivity).
  assert (Hbeforerows :
            ledgerDues before =
            flat_map (ledgerRow [])
              (map (populateDue db)
                 (findStructures db (schoolId user)
                    (student_classId student) my)))
    by (unfold before, ledgerSpec; cbn [ledgerDues]; now rewrite Hnone).
  unfold ledgerSpec at 1. cbn [ledgerDues]. rewrite Hfound, Hdues.
  cbn [map sortByDateDesc fold_right insertByDate pay_doc populatePayment].
  rewrite Hbeforerows.
  apply Forall2_flat_map. intros d0 Hd0.
  unfold ledgerRow. destruct (due_feeHead d0) as [head |] eqn:Hhead;
    [| constructor].
  constructor; [| constructor]. cbn [feeHeadId name due paid balance].
  rewrite paidTo_nil.
  set (row := mkDue (head_id head) (headName head) (amount (due_doc d0)) 0
                (amount (due_doc d0) - 0)).
  assert (Hrow : In row (ledgerDues before)).
  { rewrite Hbeforerows. apply in_flat_map. exists d0.
    split; [exact Hd0 |]. unfold ledgerRow. rewrite Hhead. now left. }
  destruct (@paidTo_one (head_id head) p alloc Hits) as [Hzero Hone].
  repeat (split; [reflexivity |]).
  destruct (@allocatedFrom_at _ _ Hfrom Hnd row Hrow)
    as [Hno | (a & Ha & Hpos & Hle)];
    cbn [feeHeadId balance row] in *.
  - left. split; [now apply filter_none_absent |].
    split; [now apply Hzero |]. now rewrite (Hzero Hno).
  - right. rewrite (Hone a Ha Hpos).
    assert (Hin : In (mkItem (head_id head) a) alloc).
    { assert (H : In (mkItem (head_id head) a) [mkItem (head_id head) a])
        by now left.
      rewrite <- Ha in H. now apply filter_In in H. }
    split; [exact Hin |]. split; [exact Hpos |]. split; [exact Hle |].
    rewrite sub_zero_r in Hle.
    apply sub_nonneg; [exact Hpos | exact Hle |].
    apply finite_lt_infinity.
    exact (proj1 (Forall_forall _ _) Hfinite _ Hin).
Qed.

End Flow.

Lemma first_form_payment_credits_heads_witness :
  exists after,
    getStudentLedger Sample.admin (Some "st1"%string) (Some "2025-10"%string)
      (withFeePayments Sample.db0 [Cases.paid120]) = Json 200 after /\
    map paid (ledgerDues after) = [100; 20] /\
    map balance (ledgerDues after) = [0; 30].
Proof.
  destruct (@first_form_payment_credits_heads Sample.sameString Sample.epoch
              Sample.written Sample.readNumber
              Sample.admin 0%Z Sample.db0
              (withFeePayments Sample.db0 [Cases.paid120])
              "st1"%string "2025-10"%string
              (Storage.mkStudent "st1"%string "s1"%string "c1"%string
                 "Ali"%string)
              (Some "token"%string) Sample.pageStudents Sample.form120
              Cases.payload120 Cases.paid120)
    as (_ & _ & _ & after & Hafter & _).
  - discriminate.
  - discriminate.
  - reflexivity.
  - unfold structuresUnique. simpl.
    repeat constructor; simpl; intuition discriminate.
  - reflexivity.
  - vm_compute. reflexivity.
  - vm_compute. reflexivity.
  - exists after. split; [exact Hafter |].
    vm_compute in Hafter. injection Hafter as <-. split; reflexivity.
Defined.

End FirstPaymentFacts.

(* ------------------------------------------------------------------ *)
(** ** Fee structures, fee heads and their listings *)

Module FeeCatalogFacts.

Import Storage FeeRoutes BulkRoutes FeeCatalog UpsertFacts FeeStructureFacts.
Import NumFacts LedgerFacts LedgerFlowFacts.
Local Open Scope float_scope.

Lemma NoDup_snoc {A} (l : list A) (a : A) :
  NoDup l -> ~ In a l -> NoDup (l ++ [a]).
Proof.
  intros Hl Ha. apply NoDup_app; [exact Hl | repeat constructor; tauto |].
  intros x Hx [E | []]. subst x. contradiction.
Qed.

Section Structures.

Variable numberToString : float -> string.

(** How the route ends: it stores, under the key that the casts of the
    schema make of the request, the amount of the request, or it answers
    an error and stores nothing. *)
Lemma setFeeStructure_cases (user : UserPayload) (body : StructureBody)
    (db : Db) :
  (exists c h m a,
     castId (sb_classId body) = Some c /\
     castId (sb_feeHeadId body) = Some h /\
     castString numberToString (sb_monthYear body) = Some m /\
     sb_amount body = Js.Number a /\ 0 <= a /\
     setFeeStructure numberToString user body db =
     (Json 200 (mkFeeStructure (schoolId user) c h a m),
      withFeeStructures db
        (put sameStructure (mkFeeStructure (schoolId user) c h a m)
           (feeStructures db)))) \/
  ((statusOf (fst (setFeeStructure numberToString user body db)) = 400%nat \/
    statusOf (fst (setFeeStructure numberToString user body db)) = 500%nat) /\
   snd (setFeeStructure numberToString user body db) = db).
Proof.
  unfold setFeeStructure.
  destruct (_ || _)%bool; [right; auto |].
  destruct (sb_amount body) as [| | b | a | s]; try (right; now auto).
  destruct (a <? 0) eqn:Hneg; [right; auto |].
  destruct (castId (sb_classId body)) as [c |]; [| right; now auto].
  destruct (castId (sb_feeHeadId body)) as [h |]; [| right; now auto].
  destruct (castString numberToString (sb_monthYear body)) as [m |];
    [| right; now auto].
  destruct (is_nan a) eqn:Hnan; [right; auto |].
  left. exists c, h, m, a. repeat (split; [reflexivity |]).
  split; [| reflexivity].
  apply not_lt_le; [exact Hnan | reflexivity | exact Hneg].
Qed.

(** X13. Whatever the request, [POST /fees/structures] keeps what the
    fee structures rely on: the unique index of
    [(schoolId, classId, feeHeadId, monthYear)] holds afterwards if it
    held before; no negative amount is ever stored, while an amount of
    zero is; the structures of every other school stay as they are; no
    other collection changes; and a request that is not answered 200
    changes nothing.  A month sent as a number is cast by the schema and
    stored as that number is written. *)
Theorem setFeeStructure_keeps_invariants (user : UserPayload)
    (body : StructureBody) (db : Db) :
  let reply := fst (setFeeStructure numberToString user body db) in
  let db' := snd (setFeeStructure numberToString user body db) in
  (structuresUnique db -> structuresUnique db') /\
  (Forall (fun r => 0 <= amount r) (feeStructures db) ->
   Forall (fun r => 0 <= amount r) (feeStructures db')) /\
  filter (fun r => negb (String.eqb (fs_schoolId r) (schoolId user)))
    (feeStructures db') =
  filter (fun r => negb (String.eqb (fs_schoolId r) (schoolId user)))
    (feeStructures db) /\
  db' = withFeeStructures db (feeStructures db') /\
  (statusOf reply <> 200%nat -> db' = db) /\
  (forall c h m,
     c <> ""%string -> h <> ""%string -> m <> ""%string ->
     body = mkStructureBody (Js.Str c) (Js.Str h) (Js.Number 0) (Js.Str m) ->
     reply = Json 200 (mkFeeStructure (schoolId user) c h 0 m)) /\
  (forall c h n a,
     c <> ""%string -> h <> ""%string ->
     Js.truthy (Js.Number n) = true -> 0 <= a ->
     body = mkStructureBody (Js.Str c) (Js.Str h) (Js.Number a)
              (Js.Number n) ->
     reply =
       Json 200 (mkFeeStructure (schoolId user) c h a (numberToString n)) /\
     In (mkFeeStructure (schoolId user) c h a (numberToString n))
       (feeStructures db')).
Proof.
  cbv zeta.
  split; [| split; [| split; [| split; [| split; [| split]]]]].
  6:{ intros c h m Hc Hh Hm ->.
      rewrite setFeeStructure_valid by (assumption || reflexivity).
      reflexivity. }
  6:{ intros c h n a Hc Hh Hn Ha ->.
      destruct (setFeeStructure_cases user
                  (mkStructureBody (Js.Str c) (Js.Str h) (Js.Number a)
                     (Js.Number n)) db)
        as [(c' & h' & m' & a' & Ec & Eh & Em & Ea & _ & Hset) | [Hst _]].
      - cbn [sb_classId sb_feeHeadId sb_monthYear sb_amount castString]
          in Ec, Eh, Em, Ea.
        rewrite (castId_Str Hc) in Ec. rewrite (castId_Str Hh) in Eh.
        injection Ec as <-. injection Eh as <-. injection Em as <-.
        injection Ea as <-. rewrite Hset. cbn [fst snd].
        split; [reflexivity |]. destruct db. cbn.
        apply (put_In sameStructure).
      - exfalso. unfold setFeeStructure in Hst.
        cbn [sb_classId sb_feeHeadId sb_monthYear sb_amount castString
             Js.isNullish] in Hst.
        rewrite !truthy_Str, Hn in Hst by assumption.
        rewrite !castId_Str in Hst by assumption.
        cbn [negb orb] in Hst. rewrite (le_not_lt Ha) in Hst.
        assert (Hnan : is_nan a = false) by (clear - Ha; keys).
        rewrite Hnan in Hst. cbn in Hst.
        destruct Hst; discriminate. }
  all: destruct (setFeeStructure_cases user body db)
         as [(c & h & m & a & _ & _ & _ & _ & Ha & ->) | [_ ->]];
    cbn [fst snd]; try tauto; try (destruct db; reflexivity).
  - unfold structuresUnique. destruct db. cbn.
    apply (put_NoDup structureKey sameStructure sameStructure_spec).
  - intros Hall. destruct db. cbn in *. apply Forall_forall.
    intros x Hx. apply put_from in Hx as [-> | Hx]; [exact Ha |].
    exact (proj1 (Forall_forall _ _) Hall x Hx).
  - destruct db. cbn. apply put_filter_other.
    + cbn. now rewrite String.eqb_refl.
    + intros r Hr. apply sameStructure_spec in Hr.
      injection Hr as Hs _ _ _. cbn in Hs. rewrite Hs.
      now rewrite String.eqb_refl.
Qed.

Lemma structureKeyIs_split (s c h : ObjectId) (m : string)
    (r : FeeStructure) :
  structureKeyIs s c h m r =
  ((String.eqb (fs_schoolId r) s && String.eqb (fs_classId r) c &&
    String.eqb (fs_monthYear r) m) && String.eqb (fs_feeHeadId r) h)%bool.
Proof.
  unfold structureKeyIs.
  destruct (String.eqb (fs_schoolId r) s), (String.eqb (fs_classId r) c),
    (String.eqb (fs_feeHeadId r) h), (String.eqb (fs_monthYear r) m);
    reflexivity.
Qed.

Lemma filter_and {A} (p q : A -> bool) (l : list A) :
  filter (fun x => q x && p x)%bool l = filter p (filter q l).
Proof.
  induction l as [| x l IH]; cbn; [reflexivity |].
  destruct (q x); cbn; [| exact IH].
  destruct (p x); now rewrite IH.
Qed.

(** X14. What [POST /fees/structures] stores, [GET /fees/structures]
    lists: after a valid request on a collection that respects the
    unique index, the listing of the class and month shows exactly one
    structure for the fee head, with the amount of the request and the
    head populated, and shows for the other heads what it showed
    before; the listings of another school, class or month do not
    change. *)
Theorem getFeeStructures_after_set (user : UserPayload) (c h m : string)
    (a : float) (db : Db) :
  c <> ""%string -> h <> ""%string -> m <> ""%string -> 0 <= a ->
  structuresUnique db ->
  let doc := mkFeeStructure (schoolId user) c h a m in
  let db' :=
    snd (setFeeStructure numberToString user
           (mkStructureBody (Js.Str c) (Js.Str h) (Js.Number a) (Js.Str m))
           db) in
  let isHead (d : PopulatedDue) := String.eqb (fs_feeHeadId (due_doc d)) h in
  exists before after,
    getFeeStructures user (Some m) (Some c) db = Json 200 before /\
    getFeeStructures user (Some m) (Some c) db' = Json 200 after /\
    filter isHead after = [mkPopulatedDue doc (findHeadById db h)] /\
    filter (fun d => negb (isHead d)) after =
      filter (fun d => negb (isHead d)) before /\
    forall other m' c',
      (schoolId other, c', m') <> (schoolId user, c, m) ->
      getFeeStructures other (Some m') (Some c') db' =
      getFeeStructures other (Some m') (Some c') db.
Proof.
  intros Hc Hh Hm Ha Hunique. cbv zeta.
  rewrite setFeeStructure_valid by assumption. cbn [snd].
  set (s := schoolId user). set (doc := mkFeeStructure s c h a m).
  unfold getFeeStructures. rewrite !present_Some by assumption.
  cbn [negb orb]. do 2 eexists.
  split; [reflexivity |]. split; [reflexivity |].
  unfold structuresUnique in Hunique.
  destruct db as [sc us cl st at_ fh rows fp gr].
  cbn [feeStructures withFeeStructures] in *.
  unfold findStructures. cbn [feeStructures withFeeStructures].
  assert (Hpop : forall db1 db2 r, feeHeads db1 = feeHeads db2 ->
                   populateDue db1 r = populateDue db2 r).
  { intros db1 db2 r E. unfold populateDue, findHeadById. now rewrite E. }
  split; [| split].
  - rewrite filter_map_swap. cbn [due_doc populateDue].
    rewrite <- (filter_and (fun r => String.eqb (fs_feeHeadId r) h)).
    rewrite (filter_ext _ (structureKeyIs s c h m))
      by (intros r; now rewrite structureKeyIs_split).
    change (structureKeyIs s c h m) with (sameStructure doc).
    rewrite (put_filter_same structureKey sameStructure sameStructure_spec)
      by exact Hunique.
    reflexivity.
  - rewrite !filter_map_swap. cbn [due_doc populateDue].
    rewrite <- !(filter_and (fun r => negb (String.eqb (fs_feeHeadId r) h))).
    rewrite put_filter_other.
    + apply map_ext. intros r. now apply Hpop.
    + cbn. rewrite !String.eqb_refl. reflexivity.
    + intros r Hr. apply sameStructure_spec in Hr.
      injection Hr as _ _ Hhead _. cbn in Hhead. rewrite Hhead.
      rewrite String.eqb_refl. cbn. now rewrite Bool.andb_false_r.
  - intros other m' c' Hother.
    destruct (Js.present (Some m')), (Js.present (Some c')); cbn [negb orb];
      try reflexivity.
    f_equal. rewrite put_filter_other.
    + apply map_ext. intros r. now apply Hpop.
    + cbn. fold s.
      destruct (String.eqb_spec s (schoolId other)) as [Es | _];
        [| reflexivity].
      destruct (String.eqb_spec c c') as [Ec | _]; [| reflexivity].
      destruct (String.eqb_spec m m') as [Em | _]; [| reflexivity].
      exfalso. apply Hother. congruence.
    + intros r Hr. apply sameStructure_spec in Hr.
      injection Hr as Es Ec _ Em. cbn in Es, Ec, Em. rewrite Es, Ec, Em.
      fold s.
      destruct (String.eqb_spec s (schoolId other)) as [Es' | _];
        [| reflexivity].
      destruct (String.eqb_spec c c') as [Ec' | _]; [| reflexivity].
      destruct (String.eqb_spec m m') as [Em' | _]; [| reflexivity].
      exfalso. apply Hother. congruence.
Qed.

End Structures.

Lemma setFeeStructure_keeps_invariants_witness :
  structuresUnique
    (snd (setFeeStructure Sample.written Sample.admin Sample.tuition1000
            Sample.db0)).
Proof.
  refine (proj1 (@setFeeStructure_keeps_invariants Sample.written
                   Sample.admin Sample.tuition1000 Sample.db0) _).
  unfold structuresUnique. simpl.
  repeat constructor; simpl; intuition discriminate.
Defined.

Lemma getFeeStructures_after_set_witness :
  exists after,
    getFeeStructures Sample.admin (Some "2025-10"%string) (Some "c1"%string)
      (snd (setFeeStructure Sample.written Sample.admin
              (mkStructureBody (Js.Str "c1"%string) (Js.Str "B"%string)
                 (Js.Number 75) (Js.Str "2025-10"%string))
              Sample.db0)) = Json 200 after /\
    map (fun d => amount (due_doc d)) after = [100; 75].
Proof.
  destruct (@getFeeStructures_after_set Sample.written Sample.admin
              "c1"%string "B"%string "2025-10"%string 75 Sample.db0)
    as (before & after & _ & Hafter & _).
  - discriminate.
  - discriminate.
  - discriminate.
  - reflexivity.
  - unfold structuresUnique. simpl.
    repeat constructor; simpl; intuition discriminate.
  - exists after. split; [exact Hafter |].
    vm_compute in Hafter. injection Hafter as <-. reflexivity.
Defined.

(** *** Fee heads *)

Lemma insertFeeHead_cases (d : FeeHead) (db : Db) :
  (AuthRoutes.insertFeeHead d db = Thrown duplicateKey /\
   exists x, In x (feeHeads db) /\
             (head_id x = head_id d \/ headKey x = headKey d)) \/
  (AuthRoutes.insertFeeHead d db = Ok (withFeeHeads db (feeHeads db ++ [d])) /\
   ~ In (head_id d) (map head_id (feeHeads db)) /\
   ~ In (headKey d) (map headKey (feeHeads db))).
Proof.
  unfold AuthRoutes.insertFeeHead.
  destruct (existsb _ (feeHeads db)) eqn:Hex.
  - left. split; [reflexivity |].
    apply existsb_exists in Hex as (x & Hx & Hclash). exists x.
    split; [exact Hx |].
    apply Bool.orb_true_iff in Hclash as [Hid | Hkey].
    + left. now apply String.eqb_eq.
    + right. apply Bool.andb_true_iff in Hkey as [Hs Hn].
      apply String.eqb_eq in Hs, Hn. unfold headKey. congruence.
  - right. split; [reflexivity |].
    assert (Hall : forall x, In x (feeHeads db) ->
              head_id x <> head_id d /\ headKey x <> headKey d).
    { intros x Hx.
      assert (Hfalse : (String.eqb (head_id x) (head_id d) ||
                        (String.eqb (head_schoolId x) (head_schoolId d) &&
                         String.eqb (headName x) (headName d)))%bool = false).
      { destruct (_ || _)%bool eqn:E; [| reflexivity].
        rewrite <- Hex. symmetry. apply existsb_exists. now exists x. }
      apply Bool.orb_false_iff in Hfalse as [Hid Hkey].
      split.
      - now apply String.eqb_neq.
      - unfold headKey. intros [= Hs Hn].
        now rewrite Hs, Hn, !String.eqb_refl in Hkey. }
    split; intros Hin; apply in_map_iff in Hin as (x & Heq & Hx);
      destruct (Hall x Hx); congruence.
Qed.

Section Heads.

Variable numberToString : float -> string.

(** X15. Fee head names are unique within a school and only there.
    Whatever the request, [POST /fees/heads] keeps the unique index of
    [(schoolId, name)] and the uniqueness of [_id], and changes nothing
    unless it answers 201.  A request is judged by what the schema
    makes of it: when its name is cast to a name that the caller's
    school already has, it is answered 400 and stored nowhere; when the
    name is cast to one that only other schools have, it is accepted,
    stored under the caller's school with [isOneTime] as cast, and
    listed last by [GET /fees/heads] for that school, while the listing
    of every other school stays as it was.  An [isOneTime] that the
    schema cannot cast is answered 500. *)
Theorem postFeeHead_unique_names (user : UserPayload) (headOid : ObjectId)
    (body : FeeHeadBody) (db : Db) :
  headsUnique db ->
  let reply := fst (postFeeHead numberToString user headOid body db) in
  let db' := snd (postFeeHead numberToString user headOid body db) in
  let own d :=
    filter (fun x => String.eqb (head_schoolId x) (schoolId user))
      (feeHeads d) in
  headsUnique db' /\
  (statusOf reply <> 201%nat -> db' = db) /\
  (forall other, schoolId other <> schoolId user ->
     getFeeHeads other db' = getFeeHeads other db) /\
  (Js.truthy (fh_name body) = true ->
   castOneTime (fh_isOneTime body) = None ->
   reply = Message 500 "Server error") /\
  (forall n once,
     Js.truthy (fh_name body) = true ->
     castString numberToString (fh_name body) = Some n ->
     castOneTime (fh_isOneTime body) = Some once ->
     (In n (map headName (own db)) ->
      reply = Message 400 "A fee head with this name already exists." /\
      db' = db) /\
     (~ In n (map headName (own db)) ->
      ~ In headOid (map head_id (feeHeads db)) ->
      let h := mkFeeHead headOid (schoolId user) n once in
      reply = Json 201 h /\
      db' = withFeeHeads db (feeHeads db ++ [h]) /\
      getFeeHeads user db' = Json 200 (own db ++ [h]))).
Proof.
  intros [Hkeys Hids]. cbv zeta.
  assert (Hcases :
            snd (postFeeHead numberToString user headOid body db) = db /\
            statusOf (fst (postFeeHead numberToString user headOid body db))
              <> 201%nat \/
            exists n b,
              ~ In headOid (map head_id (feeHeads db)) /\
              ~ In (schoolId user, n) (map headKey (feeHeads db)) /\
              postFeeHead numberToString user headOid body db =
              (Json 201 (mkFeeHead headOid (schoolId user) n b),
               withFeeHeads db
                 (feeHeads db ++ [mkFeeHead headOid (schoolId user) n b]))).
  { unfold postFeeHead.
    destruct (negb (Js.truthy (fh_name body))); [left; now split |].
    destruct (castString numberToString (fh_name body)) as [n |];
      [| left; now split].
    destruct (castOneTime (fh_isOneTime body)) as [b |]; [| left; now split].
    destruct (insertFeeHead_cases (mkFeeHead headOid (schoolId user) n b) db)
      as [[-> _] | (-> & Hid & Hkey)].
    - left. cbn. now split.
    - right. exists n, b. now repeat split. }
  split; [| split; [| split; [| split]]].
  - destruct Hcases as [[-> _] | (n & b & Hid & Hkey & ->)];
      [now split |].
    unfold headsUnique. cbn [snd]. destruct db. cbn in *.
    rewrite !map_app. cbn. split; now apply NoDup_snoc.
  - destruct Hcases as [[-> _] | (n & b & _ & _ & ->)];
      [reflexivity |].
    intros H. now contradiction H.
  - intros other Hother.
    destruct Hcases as [[-> _] | (n & b & _ & _ & ->)];
      [reflexivity |].
    unfold getFeeHeads. cbn [snd]. destruct db. cbn. rewrite filter_app. cbn.
    destruct (String.eqb_spec (schoolId user) (schoolId other));
      [congruence | now rewrite app_nil_r].
  - intros Hname Honce. unfold postFeeHead. rewrite Hname, Honce.
    cbn [negb]. now destruct (castString numberToString (fh_name body)).
  - intros n b Htruthy Hname Hb.
    assert (Hown : In n
                     (map headName
                        (filter (fun x => String.eqb (head_schoolId x)
                                            (schoolId user)) (feeHeads db)))
                   <-> In (schoolId user, n) (map headKey (feeHeads db))).
    { rewrite !in_map_iff. split.
      - intros (x & <- & Hx). apply filter_In in Hx as [Hx Hs].
        apply String.eqb_eq in Hs. exists x. unfold headKey.
        now rewrite Hs.
      - intros (x & [= Hs <-] & Hx). exists x. split; [reflexivity |].
        apply filter_In. split; [exact Hx | now apply String.eqb_eq]. }
    unfold postFeeHead. rewrite Htruthy, Hname, Hb. cbn [negb].
    destruct (insertFeeHead_cases (mkFeeHead headOid (schoolId user) n b) db)
      as [[-> (x & Hx & Hclash)] | (-> & Hid & Hkey)]; cbn [fst snd].
    + split; [now split |].
      intros Hnew Hfresh. exfalso.
      destruct Hclash as [Hid | Hkey].
      * apply Hfresh. cbn in Hid. rewrite <- Hid. now apply in_map.
      * apply Hnew, Hown. cbn in Hkey. unfold headKey at 2 in Hkey.
        cbn in Hkey. rewrite <- Hkey. now apply in_map.
    + split.
      * intros Hold. exfalso. apply Hkey. now apply Hown.
      * intros _ _. split; [reflexivity |]. split; [reflexivity |].
        unfold getFeeHeads. destruct db. cbn. rewrite filter_app. cbn.
        now rewrite String.eqb_refl.
Qed.

End Heads.

Lemma postFeeHead_unique_names_witness :
  postFeeHead Sample.written Sample.admin "h9"%string
    (mkFeeHeadBody (Js.Str "Lab Fee"%string) (Js.Str "yes"%string))
    Sample.db0 =
  (Message 400 "A fee head with this name already exists.", Sample.db0).
Proof.
  destruct (@postFeeHead_unique_names Sample.written Sample.admin
              "h9"%string
              (mkFeeHeadBody (Js.Str "Lab Fee"%string) (Js.Str "yes"%string))
              Sample.db0) as (_ & _ & _ & _ & Hname).
  - split; simpl; repeat constructor; simpl; intuition discriminate.
  - destruct (Hname "Lab Fee"%string (Some true) eq_refl eq_refl eq_refl)
      as [Hold _].
    destruct Hold as [Hreply Hdb].
    + right. left. reflexivity.
    + now apply injective_projections.
Defined.

(** *** Payments *)

Section Payments.

Variable toDate : Js.value -> option Date.
Variable numberToString : float -> string.
Variable stringToNumber : string -> float.

(** [Number.prototype.toString] writes at least one character. *)
Hypothesis numberToString_written :
  forall x, numberToString x <> ""%string.

(** A value that is truthy is cast to a string that is not empty. *)
Lemma castString_truthy (v : Js.value) (s : string) :
  Js.truthy v = true -> castString numberToString v = Some s ->
  s <> ""%string.
Proof.
  destruct v as [| | b | n | x]; cbn; try discriminate.
  - destruct b; intros _ [= <-]; discriminate.
  - intros _ [= <-]. apply numberToString_written.
  - destruct (String.eqb_spec x ""); [discriminate |]. now intros _ [= <-].
Qed.

(** X16. What [POST /fees/payments] stores, [GET /fees/payments] lists:
    after a request answered 201, the listing of the student and month
    of the payment, for the school of the caller, is the listing before
    the request followed by the new payment, which names the caller as
    [receivedBy]; the listing of any other student, month or school is
    unchanged. *)
Theorem getFeePayments_after_record (user : UserPayload) (now : Date)
    (body : PaymentBody) (db db' : Db) (p : FeePayment) :
  recordPayment toDate numberToString stringToNumber user now body db
    = (Json 201 p, db') ->
  receivedBy p = userId user /\
  (exists before,
     getFeePayments user (Some (pay_studentId p)) (Some (pay_monthYear p)) db
       = Json 200 before /\
     getFeePayments user (Some (pay_studentId p)) (Some (pay_monthYear p)) db'
       = Json 200 (before ++ [listPayment db p])) /\
  (forall other sid m,
     (schoolId other, sid, m) <>
       (schoolId user, pay_studentId p, pay_monthYear p) ->
     getFeePayments other (Some sid) (Some m) db' =
     getFeePayments other (Some sid) (Some m) db).
Proof.
  intros Hrec.
  assert (Hbody : Js.truthy (pb_monthYear body) = true).
  { unfold recordPayment in Hrec.
    destruct (Js.truthy (pb_monthYear body)); [reflexivity |].
    rewrite !Bool.orb_true_r in Hrec. cbn in Hrec. discriminate. }
  destruct (recordPayment_cases toDate numberToString stringToNumber user now
              body db)
    as [(p' & Hnew & Hrec') | [[Hs | Hs] _]];
    rewrite Hrec in *; try discriminate.
  injection Hrec' as <- ->.
  apply newFeePayment_fields in Hnew as (Hschool & Hstudent & Hcast & Hby).
  assert (Hsid : pay_studentId p <> ""%string).
  { destruct (pb_studentId body) as [| | | | s]; try discriminate.
    cbn in Hstudent. destruct (String.eqb_spec s ""); [discriminate |].
    now injection Hstudent as <-. }
  pose proof (castString_truthy _ Hbody Hcast) as Hmonth.
  assert (Hlist : forall q, listPayment
                              (withFeePayments db (feePayments db ++ [p])) q
                            = listPayment db q)
    by (intros q; destruct db; reflexivity).
  split; [exact Hby |]. split.
  - unfold getFeePayments. rewrite !present_Some by assumption.
    cbn [negb orb]. eexists. split; [reflexivity |]. f_equal.
    unfold findPayments. destruct db. cbn. rewrite filter_app. cbn.
    rewrite Hschool, !String.eqb_refl. cbn. rewrite map_app. cbn.
    reflexivity.
  - intros other sid m Hother. unfold getFeePayments.
    destruct (_ || _)%bool; [reflexivity |]. f_equal.
    unfold findPayments.
    replace (feePayments (withFeePayments db (feePayments db ++ [p])))
      with (feePayments db ++ [p]) by (destruct db; reflexivity).
    rewrite filter_app. cbn.
    destruct (String.eqb_spec (pay_schoolId p) (schoolId other)) as [Es | _];
      cbn; [| rewrite app_nil_r; apply map_ext; exact Hlist].
    destruct (String.eqb_spec (pay_studentId p) sid) as [Ei | _];
      cbn; [| rewrite app_nil_r; apply map_ext; exact Hlist].
    destruct (String.eqb_spec (pay_monthYear p) m) as [Em | _];
      cbn; [| rewrite app_nil_r; apply map_ext; exact Hlist].
    exfalso. apply Hother. congruence.
Qed.

End Payments.

Lemma getFeePayments_after_record_witness :
  receivedBy Cases.paid120 = "u1"%string.
Proof.
  refine (proj1 (@getFeePayments_after_record Sample.epoch Sample.written
                   Sample.readNumber _ Sample.admin 0%Z
                   (PaymentPage.bodyOf Cases.payload120) Sample.db0
                   (withFeePayments Sample.db0 [Cases.paid120])
                   Cases.paid120 _)).
  - intros x. unfold Sample.written.
    destruct (x =? 202511); discriminate.
  - vm_compute. reflexivity.
Defined.

End FeeCatalogFacts.

(* ------------------------------------------------------------------ *)
(** ** The fee summary of a month *)

Module FeeReportFacts.

Import Storage FeeRoutes FeeReports LedgerFacts.
Local Open Scope float_scope.

Lemma insertRow_Permutation (r : SummaryRow) (l : list SummaryRow) :
  Permutation (insertRow r l) (r :: l).
Proof.
  induction l as [| x l IH]; cbn; [reflexivity |].
  destruct (rowLe r x); [reflexivity |].
  rewrite IH. apply perm_swap.
Qed.

Lemma sortRows_Permutation (l : list SummaryRow) :
  Permutation (sortRows l) l.
Proof.
  induction l as [| r l IH]; cbn; [reflexivity |].
  rewrite insertRow_Permutation. now constructor.
Qed.

Section Summary.

Variable isValid : string -> bool.
Variable sum : list float -> float.

(** What a row says of its student. *)
Lemma summaryRow_student (db : Db) (m : string) (st : Student)
    (classInfo : option Class) :
  let row := summaryRow sum db m (st, classInfo) in
  row_studentId row = student_id st /\
  row_fullName row = studentName st /\
  row_balance row = row_amountDue row - row_amountPaid row.
Proof. cbn. repeat split. Qed.

(** Where the rows of the report come from. *)
Lemma getFeeSummary_rows (user : UserPayload)
    (monthYear classId : option string) (db : Db) (rows : list SummaryRow) :
  getFeeSummary isValid sum user monthYear classId db = Json 200 rows ->
  exists m,
    given monthYear = Some m /\
    Permutation rows
      (map (summaryRow sum db m)
         (flat_map (fun st => unwindClass st (lookupClass db st))
            (matchStudents (schoolId user) classId db))).
Proof.
  unfold getFeeSummary.
  destruct (given monthYear) as [m |]; [| discriminate].
  destruct (match given classId with
            | Some c => negb (isValid c)
            | None => false
            end); [discriminate |].
  intros [= <-]. exists m. split; [reflexivity |].
  apply sortRows_Permutation.
Qed.

Lemma unwindClass_student (st st' : Student) (classInfo : list Class)
    (ci : option Class) :
  In (st', ci) (unwindClass st classInfo) -> st' = st.
Proof.
  destruct classInfo as [| c cs]; cbn.
  - now intros [[= <- _] | []].
  - intros [[= <- _] | Hin]; [reflexivity |].
    apply in_map_iff in Hin as (x & [= <- _] & _). reflexivity.
Qed.

Lemma unwindClass_inhabited (st : Student) (classInfo : list Class) :
  exists ci, In (st, ci) (unwindClass st classInfo) /\
             (classInfo = [] -> ci = None).
Proof.
  destruct classInfo as [| c cs]; cbn.
  - exists None. split; [now left | reflexivity].
  - exists (Some c). split; [now left | discriminate].
Qed.

Lemma matchStudents_In (s : ObjectId) (classId : option string) (db : Db)
    (st : Student) :
  In st (matchStudents s classId db) <->
  In st (students db) /\ student_schoolId st = s /\
  (forall c, given classId = Some c -> student_classId st = c).
Proof.
  unfold matchStudents. rewrite filter_In, Bool.andb_true_iff, String.eqb_eq.
  destruct (given classId) as [c |].
  - rewrite String.eqb_eq. split.
    + intros (Hin & Hs & Hc). repeat split; try assumption.
      now intros c' [= <-].
    + intros (Hin & Hs & Hc). repeat split; try assumption. now apply Hc.
  - split; [| tauto]. intros (Hin & Hs & _). repeat split; try assumption.
    discriminate.
Qed.

(** X18. The fee summary lists the students of the caller's school, and
    no other: every row is made from a student of that school, of the
    class asked for when one is given, with
    [balance = amountDue - amountPaid]; every such student has a row,
    under the class name [N/A] when the class is gone; and when class
    ids are unique there is exactly one row per student.  A request
    without a month, or with a class id that is not an [ObjectId], is
    answered 400. *)
Theorem fee_summary_lists_own_students (user : UserPayload)
    (monthYear classId : option string) (db : Db) :
  (given monthYear = None \/
   (exists c, given classId = Some c /\ isValid c = false) ->
   statusOf (getFeeSummary isValid sum user monthYear classId db) = 400%nat) /\
  forall rows,
    getFeeSummary isValid sum user monthYear classId db = Json 200 rows ->
    (forall row, In row rows ->
       row_balance row = row_amountDue row - row_amountPaid row /\
       exists st,
         In st (students db) /\ student_schoolId st = schoolId user /\
         (forall c, given classId = Some c -> student_classId st = c) /\
         row_studentId row = student_id st /\
         row_fullName row = studentName st) /\
    (forall st,
       In st (students db) -> student_schoolId st = schoolId user ->
       (forall c, given classId = Some c -> student_classId st = c) ->
       exists row,
         In row rows /\ row_studentId row = student_id st /\
         (lookupClass db st = [] -> row_className row = "N/A"%string)) /\
    (NoDup (map class_id (classes db)) ->
     Permutation (map row_studentId rows)
       (map student_id (matchStudents (schoolId user) classId db))).
Proof.
  split.
  { unfold getFeeSummary. intros [-> | (c & -> & ->)]; [reflexivity |].
    now destruct (given monthYear). }
  intros rows Hrows.
  apply getFeeSummary_rows in Hrows as (m & _ & Hperm).
  split; [| split].
  - intros row Hrow. apply (Permutation_in _ Hperm) in Hrow.
    apply in_map_iff in Hrow as ([st ci] & <- & Hentry).
    apply in_flat_map in Hentry as (st' & Hst' & Hentry).
    apply unwindClass_student in Hentry as ->.
    apply matchStudents_In in Hst' as (Hin & Hschool & Hclass).
    destruct (summaryRow_student db m st' ci) as (Hid & Hname & Hb).
    split; [exact Hb |]. exists st'. now repeat split.
  - intros st Hin Hschool Hclass.
    destruct (unwindClass_inhabited st (lookupClass db st))
      as (ci & Hci & Hnone).
    exists (summaryRow sum db m (st, ci)). split; [| split].
    + apply (Permutation_in _ (Permutation_sym Hperm)).
      apply in_map. apply in_flat_map. exists st.
      split; [| exact Hci]. now apply matchStudents_In.
    + reflexivity.
    + intros Hgone. now rewrite (Hnone Hgone).
  - intros Hclasses.
    rewrite (Permutation_map row_studentId Hperm), map_map.
    assert (Hone : forall st, (List.length (lookupClass db st) <= 1)%nat).
    { intros st. unfold lookupClass. clear - Hclasses.
      induction (classes db) as [| c l IH]; cbn; [lia |].
      cbn in Hclasses. apply NoDup_cons_iff in Hclasses as [Hc Hl].
      destruct (String.eqb_spec (class_id c) (student_classId st)) as [E |];
        [| now apply IH].
      cbn. assert (filter (fun c0 => String.eqb (class_id c0)
                                       (student_classId st)) l = []) as ->.
      { clear IH Hl. induction l as [| x l IH]; cbn; [reflexivity |].
        destruct (String.eqb_spec (class_id x) (student_classId st)) as [E' |].
        - exfalso. apply Hc. left. congruence.
        - apply IH. intros Hin. apply Hc. now right. }
      cbn. lia. }
    clear Hperm.
    induction (matchStudents (schoolId user) classId db) as [| st l IH];
      cbn; [reflexivity |].
    rewrite map_app. specialize (Hone st).
    destruct (lookupClass db st) as [| c [| c' cs]];
      [| | cbn in Hone; lia]; cbn; apply perm_skip; exact IH.
Qed.

(** X17. The fee summary adds up the documents that the ledger reads:
    the row of a student reports as [amountDue] the [$sum] of the
    amounts of the fee structures of the student's school, class and
    month, and as [amountPaid] the [$sum] of the recorded totals of the
    student's payments of the month, each 0 when there is no such
    document, and as [balance] their difference.  (The ledger adds the
    same amounts in its own loops, the payments latest first, and
    leaves out a structure whose head is gone.) *)
Theorem fee_summary_sums_ledger_documents (user : UserPayload)
    (monthYear classId : option string) (db : Db) (rows : list SummaryRow)
    (row : SummaryRow) :
  getFeeSummary isValid sum user monthYear classId db = Json 200 rows ->
  In row rows ->
  exists m st,
    given monthYear = Some m /\
    In st (students db) /\ student_schoolId st = schoolId user /\
    row_studentId row = student_id st /\
    row_amountDue row =
      firstOrZero
        (groupSum sum
           (map amount
              (findStructures db (schoolId user) (student_classId st) m)))
    /\
    row_amountPaid row =
      firstOrZero
        (groupSum sum
           (map totalAmountPaid
              (findPayments db (schoolId user) (student_id st) m))) /\
    row_balance row = row_amountDue row - row_amountPaid row.
Proof.
  intros Hrows Hrow.
  apply getFeeSummary_rows in Hrows as (m & Hm & Hperm).
  apply (Permutation_in _ Hperm) in Hrow.
  apply in_map_iff in Hrow as ([st ci] & <- & Hentry).
  apply in_flat_map in Hentry as (st' & Hst' & Hentry).
  apply unwindClass_student in Hentry as ->.
  apply matchStudents_In in Hst' as (Hin & Hschool & _).
  exists m, st'. repeat (split; [assumption || reflexivity |]).
  cbn. unfold duesInfo, paymentsInfo. rewrite Hschool.
  repeat split.
  - do 3 f_equal. unfold findStructures. apply filter_ext. intros r.
    now rewrite (Bool.andb_comm (String.eqb (fs_classId r) _)).
  - do 3 f_equal. unfold findPayments. apply filter_ext. intros p.
    now rewrite (Bool.andb_comm (String.eqb (pay_studentId p) _)).
Qed.

End Summary.

Lemma fee_summary_sums_ledger_documents_witness :
  exists m st,
    given (Some "2025-10"%string) = Some m /\
    In st (students Sample.db0) /\ student_schoolId st = "s1"%string /\
    student_id st = "st1"%string /\
    150 =
      firstOrZero
        (groupSum Num.sum
           (map amount
              (findStructures Sample.db0 "s1"%string (student_classId st) m)))
    /\
    0 =
      firstOrZero
        (groupSum Num.sum
           (map totalAmountPaid
              (findPayments Sample.db0 "s1"%string (student_id st) m))) /\
    150 = 150 - 0.
Proof.
  destruct (@fee_summary_sums_ledger_documents Sample.validId Num.sum
              Sample.admin (Some "2025-10"%string) None Sample.db0
              [mkSummaryRow "st1"%string "Ali"%string "N/A"%string None
                 150 0 150]
              (mkSummaryRow "st1"%string "Ali"%string "N/A"%string None
                 150 0 150))
    as (m & st & Hm & Hst & Hschool & Hid & Hdue & Hpaid & Hbal).
  - vm_compute. reflexivity.
  - left. reflexivity.
  - exists m, st. cbn in Hid, Hdue, Hpaid, Hbal, Hschool.
    repeat split; auto.
Defined.

End FeeReportFacts.

(* ------------------------------------------------------------------ *)
(** ** Attendance: what a batch leaves, and what the day lists *)

Module AttendanceMoreFacts.

Import Storage FeeRoutes BulkRoutes AttendanceQuery UpsertFacts BulkFacts.
Import LedgerFacts.

(** *** Batches of upserts *)

Section Batches.

Variable toDate : Js.value -> option Date.

Lemma operations_valid (user : UserPayload)
    (records : list AttendanceRecord) :
  forall ops ws,
    mapThrow (attendanceOperation toDate user) records = Ok ops ->
    mapThrow castAttendanceOp ops = Ok ws ->
    forallb (validRecord toDate) records = true.
Proof.
  induction records as [| r records IH]; intros ops ws; cbn; [reflexivity |].
  unfold attendanceOperation at 1, validRecord at 1.
  destruct (Js.truthy (ar_studentId r)); cbn; [| discriminate].
  destruct (Js.truthy (ar_date r)); cbn; [| discriminate].
  destruct (Js.truthy (ar_status r)); cbn; [| discriminate].
  destruct (mapThrow (attendanceOperation toDate user) records)
    as [ops' | e] eqn:Hops; [| discriminate].
  intros [= <-]. cbn. unfold castAttendanceOp at 1. cbn.
  destruct (toDate (ar_date r)) as [t |]; cbn; [| discriminate].
  destruct (mapThrow castAttendanceOp ops') as [ws' | e] eqn:Hws;
    [| discriminate].
  intros _. now apply (IH ops' ws').
Qed.

(** How the route ends: it applies every write of a batch of valid
    records, or it answers an error and stores nothing. *)
Lemma postAttendance_cases (user : UserPayload)
    (body : option (list AttendanceRecord)) (db : Db) :
  (exists records,
     body = Some records /\ records <> [] /\
     forallb (validRecord toDate) records = true /\
     statusOf (fst (postAttendance toDate user body db)) = 200%nat /\
     snd (postAttendance toDate user body db) =
     withAttendance db
       (putAll sameAttendance
          (map rowOf (map (writeOf toDate user) records)) (attendance db)))
  \/
  ((statusOf (fst (postAttendance toDate user body db)) = 400%nat \/
    statusOf (fst (postAttendance toDate user body db)) = 500%nat) /\
   snd (postAttendance toDate user body db) = db).
Proof.
  destruct body as [[| r records] |]; try (right; cbn; now auto).
  destruct (forallb (validRecord toDate) (r :: records)) eqn:Hvalid.
  - left. exists (r :: records).
    rewrite (postAttendance_valid toDate user (records := r :: records))
      by (discriminate || assumption).
    repeat split; try reflexivity; try assumption. discriminate.
  - right. unfold postAttendance, attendanceBulkWrite.
    destruct (mapThrow (attendanceOperation toDate user) (r :: records))
      as [ops | e] eqn:Hops; [| cbn; now auto].
    destruct (mapThrow castAttendanceOp ops) as [ws | e] eqn:Hws;
      [| cbn; now auto].
    rewrite (operations_valid user (r :: records) Hops Hws) in Hvalid.
    discriminate.
Qed.

Lemma written_row (user : UserPayload) (r : AttendanceRecord) :
  validRecord toDate r = true ->
  let a := rowOf (writeOf toDate user r) in
  att_schoolId a = schoolId user /\ markedBy a = userId user /\
  att_studentId a = ar_studentId r /\ att_status a = ar_status r /\
  (att_date a mod 86400000 = 0)%Z /\
  exists t, toDate (ar_date r) = Some t /\ att_date a = utcMidnight t.
Proof.
  unfold validRecord. rewrite !Bool.andb_true_iff. intros [_ Hdate]. cbn.
  unfold dayOf. destruct (toDate (ar_date r)) as [t |]; [| discriminate].
  repeat split; try reflexivity.
  - rewrite utcMidnight_day, Z.mul_comm. apply Z.mod_mul. lia.
  - now exists t.
Qed.

(** X19. Whatever the body, [POST /attendance] keeps what the
    attendance relies on: the unique index of
    [(schoolId, studentId, date)] holds afterwards if it held before; the
    documents of every other school, and every other collection, stay as
    they are; a request that is not answered 200 changes nothing; and
    every document that the request adds or changes belongs to the
    caller's school, names the caller as [markedBy], and is dated at
    midnight UTC. *)
Theorem postAttendance_keeps_invariants (user : UserPayload)
    (body : option (list AttendanceRecord)) (db : Db) :
  let reply := fst (postAttendance toDate user body db) in
  let db' := snd (postAttendance toDate user body db) in
  (attendanceUnique db -> attendanceUnique db') /\
  filter (fun r => negb (String.eqb (att_schoolId r) (schoolId user)))
    (attendance db') =
  filter (fun r => negb (String.eqb (att_schoolId r) (schoolId user)))
    (attendance db) /\
  db' = withAttendance db (attendance db') /\
  (statusOf reply <> 200%nat -> db' = db) /\
  (forall r, In r (attendance db') ->
     In r (attendance db) \/
     (att_schoolId r = schoolId user /\ markedBy r = userId user /\
      (att_date r mod 86400000 = 0)%Z)).
Proof.
  cbv zeta.
  destruct (postAttendance_cases user body db)
    as [(records & -> & Hne & Hvalid & Hstatus & ->) | [_ ->]].
  2:{ repeat split; try tauto; try (destruct db; reflexivity). }
  assert (Hrows : forall a,
            In a (map rowOf (map (writeOf toDate user) records)) ->
            att_schoolId a = schoolId user /\ markedBy a = userId user /\
            (att_date a mod 86400000 = 0)%Z).
  { intros a Ha. apply in_map_iff in Ha as (w & <- & Hw).
    apply in_map_iff in Hw as (r & <- & Hr).
    assert (Hv : validRecord toDate r = true)
      by (exact (proj1 (forallb_forall _ _) Hvalid r Hr)).
    destruct (written_row user r Hv) as (H1 & H2 & _ & _ & H3 & _).
    auto. }
  split; [| split; [| split; [| split]]].
  - unfold attendanceUnique. destruct db. cbn.
    apply (putAll_NoDup attendanceKey sameAttendance sameAttendance_spec).
  - destruct db. cbn. apply putAll_filter_other.
    intros a Ha. destruct (Hrows a Ha) as (Hs & _). split.
    + now rewrite Hs, String.eqb_refl.
    + intros r Hr. apply sameAttendance_spec in Hr.
      injection Hr as Hs' _ _. now rewrite Hs', Hs, String.eqb_refl.
  - destruct db. reflexivity.
  - intros H. now contradiction H.
  - intros r Hr. destruct db. cbn in Hr |- *.
    apply putAll_from in Hr as [Hr | Hr]; [right; now apply Hrows | now left].
Qed.



End Batches.



End AttendanceMoreFacts.

(* ------------------------------------------------------------------ *)
(** ** Grades: a batch sent twice, and a batch that fails midway *)

Module GradeMoreFacts.

Import Storage FeeRoutes BulkRoutes GradeKeys UpsertFacts BulkFacts.

(** X22. Recording grades in bulk is idempotent.  On grades that
    respect the unique index, a batch that [POST /grades/bulk] answers
    with 200 accounts for each of its records as matched or upserted;
    sent again, every operation matches a document, none is inserted,
    and the database is the one that the first request left. *)
Theorem postGradesBulk_idempotent (user : UserPayload)
    (gradesData : list GradeRecord) (db db1 : Db)
    (result : BulkWriteResult) :
  gradesUnique db ->
  postGradesBulk user (Some gradesData) db = (Json 200 result, db1) ->
  (matchedCount result + upsertedCount result)%nat
    = List.length gradesData /\
  gradesUnique db1 /\
  postGradesBulk user (Some gradesData) db1 =
  (Json 200 (mkBulkResult (List.length gradesData) 0), db1).
Proof.
  unfold gradesUnique. intros Hunique Hfirst.
  unfold postGradesBulk in *.
  destruct gradesData as [| g gs]; [discriminate |].
  destruct (mapThrow (gradeOperation user) (g :: gs)) as [ops | e] eqn:Hops.
  2:{ destruct (includes _ _); discriminate. }
  pose proof (mapThrow_length _ _ Hops) as Hlen.
  destruct (gradeBulkWrite ops (mkBulkResult 0 0) (grades db))
    as [[result' | e] rows1] eqn:Hwrite.
  2:{ destruct (includes _ _); discriminate. }
  injection Hfirst as <- <-.
  apply gradeBulkWrite_rows in Hwrite as [-> Hcount]. cbn in Hcount.
  assert (Hnd1 : NoDup (map gradeKey
                          (putAll sameGrade (map gradeInsert ops)
                             (grades db))))
    by now apply (putAll_NoDup gradeKey sameGrade sameGrade_spec).
  split; [lia |]. split; [destruct db; exact Hnd1 |].
  replace (grades (withGrades db
                     (putAll sameGrade (map gradeInsert ops) (grades db))))
    with (putAll sameGrade (map gradeInsert ops) (grades db))
    by (destruct db; reflexivity).
  rewrite gradeBulkWrite_hits.
  - rewrite (putAll_idempotent gradeKey sameGrade sameGrade_spec)
      by exact Hunique.
    cbn [matchedCount upsertedCount]. rewrite Hlen.
    destruct db. reflexivity.
  - exact Hnd1.
  - intros op Hop.
    change (gradeMatches op) with (sameGrade (gradeInsert op)).
    apply (putAll_exists gradeKey sameGrade sameGrade_spec).
    now apply in_map.
Qed.


Lemma postGradesBulk_idempotent_witness :
  postGradesBulk Sample.admin
    (Some [Sample.gradeNoTotal; Sample.gradeOutOf50])
    (snd (postGradesBulk Sample.admin
            (Some [Sample.gradeNoTotal; Sample.gradeOutOf50]) Sample.db0)) =
  (Json 200 (mkBulkResult 2 0),
   snd (postGradesBulk Sample.admin
          (Some [Sample.gradeNoTotal; Sample.gradeOutOf50]) Sample.db0)).
Proof.
  refine (proj2 (proj2
            (@postGradesBulk_idempotent Sample.admin
               [Sample.gradeNoTotal; Sample.gradeOutOf50] Sample.db0 _
               (mkBulkResult 0 2) _ _))).
  - constructor.
  - vm_compute. reflexivity.
Defined.


End GradeMoreFacts.

(* ------------------------------------------------------------------ *)
(** ** Sessions: login, refresh and logout *)

Module SessionFacts.

Import Storage BulkRoutes AuthRoutes SessionRoutes.

Section Sessions.

Variable compare : string -> string -> bool.
Variable generateAccessToken generateRefreshToken : UserPayload -> string.
Variable verify : string -> option UserPayload.

Lemma login_ok (body : LoginBody) (db db' : Db) (payload : RegisterPayload) :
  login compare generateAccessToken generateRefreshToken body db
    = (Json 200 payload, db') ->
  exists u,
    find (fun x => String.eqb (email x) (toLowerCase (lb_email body)))
      (users db) = Some u /\
    compare (lb_password body) (password u) = true /\
    payload =
      mkRegisterPayload (generateAccessToken (payloadOf u))
        (generateRefreshToken (payloadOf u)) /\
    db' =
      withUsers db
        (map (fun x => if String.eqb (user_id x) (user_id u)
                       then withToken (generateRefreshToken (payloadOf u)) x
                       else x) (users db)).
Proof.
  unfold login.
  destruct (find _ (users db)) as [u |]; [| discriminate].
  destruct (compare (lb_password body) (password u)) eqn:Hmatch;
    [| discriminate].
  cbn. intros [= <- <-]. exists u. repeat split; auto.
Qed.


Lemma refresh_forbidden (token : string) (db : Db) :
  token <> ""%string ->
  (forall u decoded,
     In u (users db) -> holds token u = true ->
     verify token = Some decoded -> user_id u <> userId decoded) ->
  refresh generateAccessToken verify (Some token) db =
  Message 403 "Forbidden".
Proof.
  intros Htoken Hnone. unfold refresh.
  destruct (String.eqb_spec token ""); [contradiction |].
  destruct (find (holds token) (users db)) as [u |] eqn:Hfind;
    [| reflexivity].
  apply find_some in Hfind as [Hin Hholds].
  destruct (verify token) as [decoded |] eqn:Hverify; [| reflexivity].
  destruct (String.eqb_spec (user_id u) (userId decoded)) as [Heq |];
    [| reflexivity].
  now destruct (Hnone u decoded Hin Hholds eq_refl).
Qed.

Lemma holds_spec (token : string) (u : User) :
  holds token u = true <-> refreshToken u = Some token.
Proof.
  unfold holds. destruct (refreshToken u) as [t |]; [| split; discriminate].
  rewrite String.eqb_eq. split; [now intros -> | now intros [= ->]].
Qed.

Lemma NoDup_same_id (us : list User) (x y : User) :
  NoDup (map user_id us) -> In x us -> In y us -> user_id x = user_id y ->
  x = y.
Proof.
  induction us as [| u us IH]; [contradiction |].
  cbn. intros Hnd Hx Hy Heq. apply NoDup_cons_iff in Hnd as [Hu Hnd].
  destruct Hx as [-> | Hx], Hy as [-> | Hy]; try reflexivity.
  - exfalso. apply Hu. rewrite Heq. now apply in_map.
  - exfalso. apply Hu. rewrite <- Heq. now apply in_map.
  - now apply IH.
Qed.

(** X25. The cookie that a successful login sets is accepted by
    [GET /auth/refresh], which answers with an access token for the same
    user, school and role.  This holds when user ids are unique, a
    refresh token that has just been signed verifies to its payload and
    is not empty, and every stored token that verifies names its holder,
    which login maintains together with the uniqueness of ids. *)
Theorem refresh_after_login (body : LoginBody) (db db' : Db)
    (payload : RegisterPayload) :
  usersUnique db -> tokensNameHolders verify db ->
  (forall u, In u (users db) ->
     verify (generateRefreshToken (payloadOf u)) = Some (payloadOf u)) ->
  (forall u, In u (users db) ->
     generateRefreshToken (payloadOf u) <> ""%string) ->
  login compare generateAccessToken generateRefreshToken body db
    = (Json 200 payload, db') ->
  exists u,
    In u (users db) /\ email u = toLowerCase (lb_email body) /\
    accessToken payload = generateAccessToken (payloadOf u) /\
    jwtCookie payload = generateRefreshToken (payloadOf u) /\
    refresh generateAccessToken verify (Some (jwtCookie payload)) db' =
      Json 200 (generateAccessToken (payloadOf u)) /\
    usersUnique db' /\ tokensNameHolders verify db'.
Proof.
  intros Hunique Hnames Hround Hnonempty Hlogin.
  apply login_ok in Hlogin as (u & Hfind & _ & -> & ->).
  apply find_some in Hfind as [Hin Hemail]. apply String.eqb_eq in Hemail.
  exists u. cbn [accessToken jwtCookie].
  set (token := generateRefreshToken (payloadOf u)).
  set (upd := fun x => if String.eqb (user_id x) (user_id u)
                       then withToken token x else x).
  assert (Husers : users (withUsers db (map upd (users db))) =
                   map upd (users db)) by (destruct db; reflexivity).
  assert (Hid : forall x, user_id (upd x) = user_id x).
  { intros x. unfold upd. now destruct (String.eqb (user_id x) (user_id u)). }
  assert (Hupd : forall x, In x (users db) ->
            upd x = withToken token u /\ x = u \/
            upd x = x /\ user_id x <> user_id u).
  { intros x Hx. unfold upd.
    destruct (String.eqb_spec (user_id x) (user_id u)) as [Heq | Hne].
    - left. now rewrite (NoDup_same_id _ _ _ Hunique Hx Hin Heq).
    - now right. }
  repeat split; try assumption; try reflexivity.
  - unfold refresh. fold token.
    destruct (String.eqb_spec token ""); [now destruct (Hnonempty u Hin) |].
    rewrite Husers.
    destruct (find (holds token) (map upd (users db))) as [u' |] eqn:Hfind.
    + apply find_some in Hfind as [Hin' Hholds].
      apply in_map_iff in Hin' as (x & <- & Hx).
      assert (Hv : verify token = Some (payloadOf u)) by now apply Hround.
      rewrite Hv. cbn [userId payloadOf].
      destruct (Hupd x Hx) as [[Hux ->] | [Hux Hne]].
      * rewrite Hux. cbn. now rewrite String.eqb_refl.
      * exfalso. apply Hne. rewrite Hux in Hholds.
        apply holds_spec in Hholds.
        exact (eq_sym (Hnames x (payloadOf u) token Hx Hholds
                         (Hround u Hin))).
    + exfalso.
      pose proof (find_none _ _ Hfind (upd u) (in_map upd _ _ Hin)) as Hno.
      unfold upd, holds in Hno. rewrite String.eqb_refl in Hno.
      cbn in Hno. rewrite String.eqb_refl in Hno. discriminate.
  - unfold usersUnique. rewrite Husers, map_map.
    erewrite map_ext; [exact Hunique | exact Hid].
  - intros x' decoded t Hin' Htoken Hverify. rewrite Husers in Hin'.
    apply in_map_iff in Hin' as (x & <- & Hx).
    destruct (Hupd x Hx) as [[Hux ->] | [Hux Hne]]; rewrite Hux in *.
    + cbn in Htoken. injection Htoken as <-. unfold token in Hverify.
      rewrite (Hround u Hin) in Hverify. now injection Hverify as <-.
    + exact (Hnames x decoded t Hx Htoken Hverify).
Qed.

(** X26. A new login revokes the refresh token that the user held: once
    [POST /auth/login] has answered 200, [GET /auth/refresh] answers 403
    to the token that the user held before, provided it differs from
    the one just issued and every stored token that verifies names its
    holder. *)
Theorem login_revokes_previous_token (body : LoginBody) (db db' : Db)
    (payload : RegisterPayload) (u : User) (previous : string) :
  tokensNameHolders verify db ->
  login compare generateAccessToken generateRefreshToken body db
    = (Json 200 payload, db') ->
  find (fun x => String.eqb (email x) (toLowerCase (lb_email body)))
    (users db) = Some u ->
  refreshToken u = Some previous ->
  previous <> jwtCookie payload -> previous <> ""%string ->
  refresh generateAccessToken verify (Some previous) db' =
  Message 403 "Forbidden".
Proof.
  intros Hnames Hlogin Hfind Hheld Hnew Hnonempty.
  apply login_ok in Hlogin as (u' & Hfind' & _ & -> & ->).
  rewrite Hfind in Hfind'. injection Hfind' as <-.
  cbn [jwtCookie] in Hnew.
  apply find_some in Hfind as [Hin _].
  apply refresh_forbidden; [exact Hnonempty |].
  intros x' decoded Hin' Hholds Hverify.
  replace (users (withUsers db _)) with
    (map (fun x => if String.eqb (user_id x) (user_id u)
                   then withToken (generateRefreshToken (payloadOf u)) x
                   else x) (users db)) in Hin'
    by (destruct db; reflexivity).
  apply in_map_iff in Hin' as (x & <- & Hx).
  destruct (String.eqb_spec (user_id x) (user_id u)) as [Heq | Hne].
  - apply holds_spec in Hholds. cbn in Hholds. congruence.
  - apply holds_spec in Hholds.
    pose proof (Hnames x decoded previous Hx Hholds Hverify) as Ex.
    pose proof (Hnames u decoded previous Hin Hheld Hverify) as Eu.
    congruence.
Qed.

Lemma updateFirst_holder (token : string) (us : list User) (u' : User) :
  NoDup (map user_id us) ->
  In u' (updateFirst (holds token) unsetRefreshToken us) ->
  holds token u' = true ->
  exists u0,
    In u0 us /\ holds token u0 = true /\ In u' us /\
    user_id u0 <> user_id u'.
Proof.
  induction us as [| x us IH]; [contradiction |].
  cbn. intros Hnd Hin Hholds. apply NoDup_cons_iff in Hnd as [Hx Hnd].
  destruct (holds token x) eqn:Hxholds.
  - destruct Hin as [<- | Hin]; [discriminate |].
    exists x. repeat split; auto.
    intros Heq. apply Hx. rewrite Heq. now apply in_map.
  - destruct Hin as [<- | Hin]; [congruence |].
    destruct (IH Hnd Hin Hholds) as (u0 & H0 & Hh & Hu' & Hne).
    exists u0. repeat split; auto.
Qed.

Lemma updateFirst_others (token : string) (us : list User) (u : User) :
  In u us -> holds token u = false ->
  In u (updateFirst (holds token) unsetRefreshToken us).
Proof.
  induction us as [| x us IH]; [contradiction |].
  cbn. intros [-> | Hin] Hholds.
  - rewrite Hholds. now left.
  - destruct (holds token x); right; auto.
Qed.

(** X27. Logout revokes the token of its cookie: after
    [POST /auth/logout], which always answers 204,
    [GET /auth/refresh] answers 403 to that token, when user ids are
    unique and every stored token that verifies names its holder.  The
    users that did not hold the token are left as they were, and so is
    every other collection. *)
Theorem logout_revokes_token (token : string) (db : Db) :
  usersUnique db -> tokensNameHolders verify db -> token <> ""%string ->
  let db' := snd (logout (Some token) db) in
  statusOf (fst (logout (Some token) db)) = 204%nat /\
  refresh generateAccessToken verify (Some token) db' =
    Message 403 "Forbidden" /\
  (forall u, In u (users db) -> holds token u = false -> In u (users db')) /\
  db' = withUsers db (users db').
Proof.
  intros Hunique Hnames Htoken. cbv zeta. unfold logout.
  destruct (String.eqb_spec token ""); [contradiction |]. cbn [fst snd].
  assert (Husers : users (withUsers db
                            (updateFirst (holds token) unsetRefreshToken
                               (users db))) =
                   updateFirst (holds token) unsetRefreshToken (users db))
    by (destruct db; reflexivity).
  split; [reflexivity |]. split; [| split].
  - apply refresh_forbidden; [exact Htoken |].
    intros u' decoded Hin' Hholds Hverify. rewrite Husers in Hin'.
    destruct (updateFirst_holder _ _ _ Hunique Hin' Hholds)
      as (u0 & H0 & Hh0 & Hu' & Hne).
    apply holds_spec in Hholds, Hh0.
    pose proof (Hnames u0 decoded token H0 Hh0 Hverify) as E0.
    pose proof (Hnames u' decoded token Hu' Hholds Hverify) as E'.
    congruence.
  - intros u Hin Hholds. rewrite Husers. now apply updateFirst_others.
  - destruct db. reflexivity.
Qed.

End Sessions.


Lemma refresh_after_login_witness :
  exists u,
    In u (users Cases.dbUsers) /\
    email u = toLowerCase "Amna@School.pk"%string /\
    "access:u5"%string = Sample.tokenOf "access"%string (payloadOf u) /\
    "refresh:u5"%string = Sample.tokenOf "refresh"%string (payloadOf u) /\
    refresh (Sample.tokenOf "access"%string) Cases.verifyTeacher
      (Some "refresh:u5"%string)
      (withUsers Cases.dbUsers
         [withToken "refresh:u5"%string Cases.teacher]) =
      Json 200 (Sample.tokenOf "access"%string (payloadOf u)) /\
    usersUnique
      (withUsers Cases.dbUsers
         [withToken "refresh:u5"%string Cases.teacher]) /\
    tokensNameHolders Cases.verifyTeacher
      (withUsers Cases.dbUsers
         [withToken "refresh:u5"%string Cases.teacher]).
Proof.
  refine (@refresh_after_login Cases.samePassword
            (Sample.tokenOf "access"%string)
            (Sample.tokenOf "refresh"%string) Cases.verifyTeacher
            (mkLoginBody "Amna@School.pk"%string "pw"%string)
            Cases.dbUsers
            (withUsers Cases.dbUsers
               [withToken "refresh:u5"%string Cases.teacher])
            (mkRegisterPayload "access:u5"%string "refresh:u5"%string)
            _ _ _ _ _).
  - repeat constructor; simpl; intuition discriminate.
  - intros u decoded token [<- | []] [= <-] [= <-]. reflexivity.
  - intros u [<- | []]. reflexivity.
  - intros u [<- | []]. discriminate.
  - reflexivity.
Defined.

Lemma login_revokes_previous_token_witness :
  refresh (Sample.tokenOf "access"%string) Cases.verifyTeacher
    (Some "old:u5"%string)
    (withUsers Cases.dbUsers [withToken "refresh:u5"%string Cases.teacher])
  = Message 403 "Forbidden".
Proof.
  refine (@login_revokes_previous_token Cases.samePassword
            (Sample.tokenOf "access"%string)
            (Sample.tokenOf "refresh"%string) Cases.verifyTeacher
            (mkLoginBody "Amna@School.pk"%string "pw"%string)
            Cases.dbUsers
            (withUsers Cases.dbUsers
               [withToken "refresh:u5"%string Cases.teacher])
            (mkRegisterPayload "access:u5"%string "refresh:u5"%string)
            Cases.teacher "old:u5"%string _ _ _ _ _ _).
  - intros u decoded token [<- | []] [= <-] [= <-]. reflexivity.
  - reflexivity.
  - reflexivity.
  - reflexivity.
  - discriminate.
  - discriminate.
Defined.

Lemma logout_revokes_token_witness :
  refresh (Sample.tokenOf "access"%string) Cases.verifyTeacher
    (Some "old:u5"%string)
    (snd (logout (Some "old:u5"%string) Cases.dbUsers))
  = Message 403 "Forbidden".
Proof.
  refine (proj1 (proj2
            (@logout_revokes_token (Sample.tokenOf "access"%string)
               Cases.verifyTeacher "old:u5"%string Cases.dbUsers _ _ _))).
  - repeat constructor; simpl; intuition discriminate.
  - intros u decoded token [<- | []] [= <-] [= <-]. reflexivity.
  - discriminate.
Defined.

End SessionFacts.

(* ------------------------------------------------------------------ *)
(** ** From registration to a session *)

Module RegisterSessionFacts.

Import Storage BulkRoutes AuthRoutes SessionRoutes AuthFacts.

Section Registered.

Variable hash : string -> string.
Variable compare : string -> string -> bool.
Variable generateAccessToken generateRefreshToken : UserPayload -> string.
Variable verify : string -> option UserPayload.
Variable fault : Write -> option Error.
Variable userOid schoolOid feeHeadOid : ObjectId.
Variable classOid : nat -> ObjectId.

Lemma registerTry_payload (body : RegisterBody) (s s' : Session)
    (payload : RegisterPayload) :
  registerTry hash generateAccessToken generateRefreshToken fault userOid
    schoolOid feeHeadOid classOid body s = (Next payload, s') ->
  payload =
    mkRegisterPayload
      (generateAccessToken (mkPayload userOid schoolOid "Admin"))
      (generateRefreshToken (mkPayload userOid schoolOid "Admin")).
Proof.
  unfold registerTry.
  destruct body as [[fn |] [em |] [pw |] [sn |] [it |]];
    cbn [rb_fullName rb_email rb_password rb_schoolName rb_institutionType];
    try discriminate.
  destruct (_ || _)%bool; [discriminate |].
  intros H. apply bind_Next in H as (existing & s1 & _ & H).
  destruct existing; [discriminate |]. cbv zeta in H.
  repeat (apply bind_Next in H as (? & ? & _ & H)).
  unfold ret in H. now injection H as <- _.
Qed.

(** X28. An administrator that has just registered has a session and
    can sign in.  After [POST /auth/register] has answered 201, the
    cookie it set is accepted by [GET /auth/refresh], which answers with
    an access token for the new user as [Admin] of the new school, and
    [POST /auth/login] with the e-mail and the password of the request
    answers 200.  This holds when the refresh token just signed
    verifies to its payload, is not empty and is not already stored,
    and when the password matches its own hash. *)
Theorem registered_admin_signs_in (body : RegisterBody) (db db' : Db)
    (payload : RegisterPayload) :
  let admin := mkPayload userOid schoolOid "Admin" in
  register hash generateAccessToken generateRefreshToken fault userOid
    schoolOid feeHeadOid classOid body db = (Json 201 payload, db') ->
  verify (generateRefreshToken admin) = Some admin ->
  generateRefreshToken admin <> ""%string ->
  (forall u, In u (users db) ->
     refreshToken u <> Some (generateRefreshToken admin)) ->
  (forall pw, rb_password body = Some pw -> compare pw (hash pw) = true) ->
  payload =
    mkRegisterPayload (generateAccessToken admin)
      (generateRefreshToken admin) /\
  refresh generateAccessToken verify (Some (jwtCookie payload)) db' =
    Json 200 (generateAccessToken admin) /\
  exists e pw,
    rb_email body = Some e /\ rb_password body = Some pw /\
    fst (login compare generateAccessToken generateRefreshToken
           (mkLoginBody e pw) db') =
    Json 200
      (mkRegisterPayload (generateAccessToken admin)
         (generateRefreshToken admin)).
Proof.
  intros admin Hregister Hround Hnonempty Hfresh Hmatch.
  unfold register in Hregister.
  destruct (registerTry _ _ _ _ _ _ _ _ body _)
    as [[payload' | r | e] s] eqn:Htry.
  2:{ exfalso.
      pose proof (registerTry_guarded hash generateAccessToken
                    generateRefreshToken fault userOid schoolOid feeHeadOid
                    classOid body) as Hg.
      specialize (Hg (startTransaction (startSession db))).
      rewrite Htry in Hg. cbn in Hg.
      destruct Hg as [_ Hstatus]; [discriminate |].
      injection Hregister as -> _. discriminate. }
  2:{ destruct (isDuplicateKey e); discriminate. }
  pose proof (registerTry_payload _ _ Htry) as ->.
  apply registerTry_Next in Htry
    as (db1 & -> & Hdone & _ & _ & _ & _ & _ & _ & Hnew).
  injection Hregister as <- <-.
  unfold endSession, abortTransaction. cbn [committed].
  destruct Hdone as (fn & em & pw & sn & it & Hfn & Hem & Hpw & _ & _ & Hdb).
  cbv zeta in Hdb. destruct Hdb as (_ & Husers & _).
  fold admin in Husers |- *.
  set (token := generateRefreshToken admin) in *.
  set (adminUser := mkUser userOid schoolOid (toLowerCase em) (hash pw) fn
                      "Admin" (Some token)) in *.
  assert (Hholder : find (holds token) (users db1) = Some adminUser).
  { rewrite Husers. clear - Hfresh.
    induction (users db) as [| u us IH]; cbn.
    - unfold holds. cbn. now rewrite String.eqb_refl.
    - destruct (holds token u) eqn:Hu.
      + exfalso. apply (Hfresh u (or_introl eq_refl)).
        unfold holds in Hu. destruct (refreshToken u) as [t |];
          [| discriminate].
        apply String.eqb_eq in Hu. now rewrite Hu.
      + apply IH. intros x Hx. apply Hfresh. now right. }
  assert (Hemail : find (fun x => String.eqb (email x) (toLowerCase em))
                     (users db1) = Some adminUser).
  { rewrite Husers. specialize (Hnew em Hem). clear - Hnew.
    induction (users db) as [| u us IH]; cbn in *.
    - now rewrite String.eqb_refl.
    - destruct (String.eqb (email u) (toLowerCase em)); [discriminate |].
      now apply IH. }
  split; [reflexivity |]. split.
  - cbn [jwtCookie]. unfold refresh.
    destruct (String.eqb_spec token ""); [contradiction |].
    rewrite Hholder, Hround. cbn. now rewrite String.eqb_refl.
  - exists em, pw. split; [exact Hem |]. split; [exact Hpw |].
    unfold login. cbn [lb_email lb_password]. rewrite Hemail.
    cbn [password adminUser]. rewrite (Hmatch pw Hpw). reflexivity.
Qed.

End Registered.

Lemma registered_admin_signs_in_witness :
  refresh (Sample.tokenOf "access"%string) Cases.verifyAdmin
    (Some "refresh:u9"%string)
    (snd (register Sample.sameString (Sample.tokenOf "access"%string)
            (Sample.tokenOf "refresh"%string) Sample.noFault "u9"%string
            "s9"%string "h9"%string Sample.classOid Sample.signup
            Sample.db0)) =
  Json 200 "access:u9"%string.
Proof.
  refine (proj1 (proj2
            (@registered_admin_signs_in Sample.sameString String.eqb
               (Sample.tokenOf "access"%string)
               (Sample.tokenOf "refresh"%string) Cases.verifyAdmin
               Sample.noFault "u9"%string "s9"%string "h9"%string
               Sample.classOid Sample.signup Sample.db0 _
               (mkRegisterPayload "access:u9"%string "refresh:u9"%string)
               _ _ _ _ _))).
  - vm_compute. reflexivity.
  - reflexivity.
  - discriminate.
  - intros u [].
  - intros pw [= <-]. reflexivity.
Defined.

End RegisterSessionFacts.

(* ------------------------------------------------------------------ *)
(** ** Deleting a class *)

Module ClassFacts.

Import Storage ClassRoutes.

Lemma deleteOne_spec {A} (matches : A -> bool) (rows : list A) :
  (fst (deleteOne matches rows) = 0%nat /\
   snd (deleteOne matches rows) = rows /\
   forall r, In r rows -> matches r = false) \/
  (fst (deleteOne matches rows) = 1%nat /\
   exists l1 r l2,
     rows = l1 ++ r :: l2 /\ matches r = true /\
     (forall x, In x l1 -> matches x = false) /\
     snd (deleteOne matches rows) = l1 ++ l2).
Proof.
  induction rows as [| r rows IH]; cbn.
  - left. repeat split; auto. contradiction.
  - destruct (matches r) eqn:Hr.
    + right. split; [reflexivity |]. exists [], r, rows.
      repeat split; auto. contradiction.
    + destruct (deleteOne matches rows) as [n rest]. cbn in *.
      destruct IH
        as [(-> & -> & Hnone) | (-> & l1 & x & l2 & -> & Hx & Hl1 & ->)].
      * left. repeat split; auto. intros y [<- | Hy]; auto.
      * right. split; [reflexivity |]. exists (r :: l1), x, l2.
        repeat split; auto. intros y [<- | Hy]; auto.
Qed.

(** The document that [deleteOne] removes is the first that matches. *)
Lemma deleteOne_first {A} (matches : A -> bool) (l1 l2 : list A) (r : A) :
  matches r = true -> (forall x, In x l1 -> matches x = false) ->
  deleteOne matches (l1 ++ r :: l2) = (1%nat, l1 ++ l2).
Proof.
  intros Hr. induction l1 as [| x l1 IH]; intros Hl1; cbn.
  - now rewrite Hr.
  - rewrite (Hl1 x) by now left.
    rewrite IH by (intros y Hy; apply Hl1; now right). reflexivity.
Qed.

Lemma deleteOne_none {A} (matches : A -> bool) (rows : list A) :
  (forall x, In x rows -> matches x = false) ->
  deleteOne matches rows = (0%nat, rows).
Proof.
  induction rows as [| x rows IH]; intros Hnone; cbn; [reflexivity |].
  rewrite (Hnone x) by now left.
  rewrite IH by (intros y Hy; apply Hnone; now right). reflexivity.
Qed.

Lemma isClass_false (s id : ObjectId) (c : Class) :
  (class_schoolId c = s -> class_id c <> id) -> isClass s id c = false.
Proof.
  intros H. unfold isClass.
  destruct (String.eqb_spec (class_id c) id) as [Hid |]; [| reflexivity].
  destruct (String.eqb_spec (class_schoolId c) s) as [Hs |]; [| reflexivity].
  now destruct (H Hs).
Qed.

Section Delete.

Variable isValid : string -> bool.

(** X29. [DELETE /classes/:id] never leaves a student of the caller's
    school without its class, and never touches another school.  An id
    that is not an [ObjectId] makes the queries throw: the answer is 500
    and nothing changes.  For an id that is one: while a student of the
    school is assigned to the class, the answer is 400 and nothing
    changes; when none is, and the school has no class with that id,
    the answer is 404 and nothing changes; and when the school has one,
    the first of them is removed from the classes, the others staying
    in their order, and the answer is 200.  Whatever the request, no
    student of the school refers to the id after a 200, every class of
    another school or with another id stays, and no other collection
    changes. *)
Theorem deleteClass_keeps_references (user : UserPayload) (id : string)
    (db : Db) :
  let reply := fst (deleteClass isValid user id db) in
  let db' := snd (deleteClass isValid user id db) in
  (isValid id = false ->
   reply = Message 500 "Server error deleting class" /\ db' = db) /\
  (isValid id = true ->
   ((exists st, In st (students db) /\
                student_schoolId st = schoolId user /\
                student_classId st = id) ->
    statusOf reply = 400%nat /\ db' = db) /\
   ((forall st, In st (students db) ->
       student_schoolId st = schoolId user -> student_classId st <> id) ->
    ((forall c, In c (classes db) ->
        class_schoolId c = schoolId user -> class_id c <> id) ->
     reply = Message 404 "Class not found." /\ db' = db) /\
    (forall l1 c l2,
       classes db = l1 ++ c :: l2 ->
       class_schoolId c = schoolId user -> class_id c = id ->
       (forall x, In x l1 ->
          class_schoolId x = schoolId user -> class_id x <> id) ->
       reply = Message 200 "Class deleted successfully" /\
       db' = withClasses db (l1 ++ l2)))) /\
  (statusOf reply <> 200%nat -> db' = db) /\
  (statusOf reply = 200%nat ->
   forall st, In st (students db') ->
     student_schoolId st = schoolId user -> student_classId st <> id) /\
  (forall c, In c (classes db) ->
     class_schoolId c <> schoolId user \/ class_id c <> id ->
     In c (classes db')) /\
  db' = withClasses db (classes db').
Proof.
  cbv zeta. unfold deleteClass.
  destruct (isValid id).
  2:{ cbn. repeat split; try tauto; try discriminate;
        destruct db; reflexivity. }
  cbn [negb].
  set (assigned := filter (assignedTo (schoolId user) id) (students db)).
  assert (Hassigned : forall st,
            In st (students db) -> student_schoolId st = schoolId user ->
            student_classId st = id -> In st assigned).
  { intros st Hin Hs Hc. apply filter_In. split; [exact Hin |].
    unfold assignedTo. now rewrite Hs, Hc, !String.eqb_refl. }
  assert (Hfree : (forall st, In st (students db) ->
                     student_schoolId st = schoolId user ->
                     student_classId st <> id) -> assigned = []).
  { intros Hnone. destruct assigned as [| st rest] eqn:E; [reflexivity |].
    assert (Hin : In st assigned) by (rewrite E; now left).
    apply filter_In in Hin as [Hin Hmatch]. unfold assignedTo in Hmatch.
    apply Bool.andb_true_iff in Hmatch as [Hs Hc].
    apply String.eqb_eq in Hs, Hc. now destruct (Hnone st Hin Hs). }
  split; [discriminate |].
  split.
  { intros _. split.
    - intros (st & Hin & Hs & Hcl).
      pose proof (Hassigned st Hin Hs Hcl) as Hst.
      destruct assigned as [| st0 rest]; [contradiction |].
      cbn. now split.
    - intros Hnone. rewrite (Hfree Hnone). cbn [List.length Nat.ltb Nat.leb].
      split.
      + intros Hclasses. rewrite deleteOne_none; [cbn; now split |].
        intros c Hc. apply isClass_false. now apply Hclasses.
      + intros l1 c l2 Hsplit Hs Hid Hl1. rewrite Hsplit.
        rewrite deleteOne_first.
        * cbn. now split.
        * unfold isClass. now rewrite Hs, Hid, !String.eqb_refl.
        * intros x Hx. apply isClass_false. now apply Hl1. }
  destruct assigned as [| st0 rest] eqn:Hlist;
    cbn [List.length Nat.ltb Nat.leb].
  2:{ cbn. repeat split; try tauto; try (destruct db; reflexivity);
        discriminate. }
  destruct (deleteOne_spec (isClass (schoolId user) id) (classes db))
    as [(Hn & Hrows & Hnone) | (Hn & l1 & c & l2 & Hsplit & Hc & Hl1 & Hrows)];
    destruct (deleteOne (isClass (schoolId user) id) (classes db))
      as [n rows]; cbn [fst snd] in *; subst n; cbn [Nat.eqb fst snd].
  - split; [| split; [| split]].
    + reflexivity.
    + discriminate.
    + auto.
    + destruct db; reflexivity.
  - subst rows.
    assert (Hclasses : classes (withClasses db (l1 ++ l2)) = l1 ++ l2)
      by (destruct db; reflexivity).
    assert (Hstudents : students (withClasses db (l1 ++ l2)) = students db)
      by (destruct db; reflexivity).
    apply Bool.andb_true_iff in Hc as [Hid Hschool].
    apply String.eqb_eq in Hid, Hschool.
    split; [| split; [| split]].
    + intros H. now contradiction H.
    + intros _ st Hin Hs Hcl. rewrite Hstudents in Hin.
      destruct (Hassigned st Hin Hs Hcl).
    + intros x Hx Hother. rewrite Hclasses. rewrite Hsplit in Hx.
      apply in_app_or in Hx as [Hx | [<- | Hx]].
      * apply in_or_app. now left.
      * exfalso. destruct Hother as [H | H]; now apply H.
      * apply in_or_app. now right.
    + rewrite Hclasses. reflexivity.
Qed.

End Delete.

End ClassFacts.


(* ------------------------------------------------------------------ *)
(** ** The routes on the small school *)

Module Examples.

Import Storage FeeRoutes BulkRoutes.
Local Open Scope string_scope.
Local Open Scope float_scope.

(** A registration that nothing disturbs answers 201, stores the e-mail
    in lower case and adds the fifteen default classes. *)
Example signup_registers :
  let result :=
    AuthRoutes.register Sample.sameString (Sample.tokenOf "access"%string)
      (Sample.tokenOf "refresh"%string) Sample.noFault "u9"%string
      "s9"%string "h9"%string Sample.classOid Sample.signup Sample.db0 in
  statusOf (fst result) = 201%nat /\
  map email (users (snd result)) = ["sara@school.pk"%string] /\
  map ownerUserId (schools (snd result)) = ["u9"%string] /\
  List.length (classes (snd result)) = 15%nat /\
  map headName (feeHeads (snd result)) =
    ["Tuition Fee"; "Lab Fee"; "Tuition Fee"]%string.
Proof. vm_compute. repeat split; reflexivity. Qed.

(** With the insert of the default fee head forced to fail, the route
    answers 500. *)
Example signup_fee_head_fails :
  fst (AuthRoutes.register Sample.sameString (Sample.tokenOf "access"%string)
         (Sample.tokenOf "refresh"%string) Sample.feeHeadFault "u9"%string
         "s9"%string "h9"%string Sample.classOid Sample.signup Sample.db0)
  = Message 500 "Server error during registration.".
Proof. reflexivity. Qed.

(** A payment whose recorded total is the sum of its items: the ledger
    reports it as paid. *)
Example ledger_after_pays50 :
  exists ledger,
    getStudentLedger Sample.admin (Some "st1"%string)
      (Some "2025-10"%string)
      (snd (recordPayment Sample.noDate Sample.written
              Sample.readNumber Sample.clerk 0%Z Sample.pays50
              Sample.db0)) = Json 200 ledger /\
    totalPaid (summary ledger) = 50 /\
    summaryBalance (summary ledger) = 100 /\
    map Allocation.balance (ledgerDues ledger) = [50; 50].
Proof. eexists. split; [vm_compute; reflexivity |]. repeat split. Qed.

(** The form splits 120 over the two dues in their order. *)
Example form_posts_120 :
  exists payload,
    PaymentPage.onSubmit Sample.sameString (Some Sample.ledger0)
      "st1"%string "2025-10"%string (Some "token"%string)
      Sample.pageStudents Sample.form120 = PaymentPage.Post payload /\
    PaymentPage.p_items payload =
      [Allocation.mkItem "A"%string 100;
       Allocation.mkItem "B"%string 20].
Proof. eexists. split; [vm_compute; reflexivity | reflexivity]. Qed.

(** One hundredth above the balance passes the check of the form. *)
Example form_posts_50_01 :
  exists payload,
    PaymentPage.onSubmit Sample.sameString (Some Sample.ledger50)
      "st1"%string "2025-10"%string (Some "token"%string)
      Sample.pageStudents
      (PaymentPage.mkFormData 50.01 "2025-10-06"%string ""%string)
    = PaymentPage.Post payload /\
    PaymentPage.p_totalAmountPaid payload = 50.01 /\
    PaymentPage.p_items payload =
      [Allocation.mkItem "A"%string 50].
Proof. eexists. split; [vm_compute; reflexivity |]. split; reflexivity. Qed.

(** Two grades, one without [totalMarks]: both are inserted, the first
    out of 100. *)
Example grades_saved :
  let result :=
    postGradesBulk Sample.admin
      (Some [Sample.gradeNoTotal; Sample.gradeOutOf50]) Sample.db0 in
  fst result = Json 200 (mkBulkResult 0 2) /\
  map totalMarks (grades (snd result)) =
    [Js.Number 100; Js.Number 50].
Proof. vm_compute. split; reflexivity. Qed.

(** A grade without [obtainedMarks] stops the batch before the grade
    that precedes it is written. *)
Example grades_refused :
  postGradesBulk Sample.admin
    (Some [Sample.gradeNoTotal; Sample.gradeNoMarks]) Sample.db0 =
  (Message 400 (message gradeRequired), Sample.db0).
Proof. reflexivity. Qed.

(** The same day marked twice in one batch: one document, holding the
    later status. *)
Example attendance_last_status :
  let result :=
    postAttendance Sample.epoch Sample.admin
      (Some [Sample.present1; Sample.late1]) Sample.db0 in
  fst result = Json 200 (mkBulkResult 1 1) /\
  map att_status (attendance (snd result)) = [Js.Str "Late"].
Proof. vm_compute. split; reflexivity. Qed.

(** A total and an item amount sent as strings are cast by the schema
    and stored as numbers. *)
Example payment_amounts_as_strings :
  let result :=
    recordPayment Sample.noDate Sample.written Sample.readNumber
      Sample.admin 0%Z
      (mkPaymentBody (Js.Str "st1") (Js.Str "c1") (Js.Str "2025-10")
         (Js.Str "80") (Some [(Js.Str "A", Js.Str "50")])
         Js.Undefined Js.Undefined) Sample.db0 in
  statusOf (fst result) = 201%nat /\
  map totalAmountPaid (feePayments (snd result)) = [80] /\
  map items (feePayments (snd result)) = [[mkPaymentItem "A" 50]].
Proof. vm_compute. repeat split; reflexivity. Qed.

(** A month sent as a number is stored as that number is written. *)
Example structure_month_as_number :
  let result :=
    setFeeStructure Sample.written Sample.admin
      (mkStructureBody (Js.Str "c1") (Js.Str "A") (Js.Number 1000)
         (Js.Number 202511)) Sample.db0 in
  fst result = Json 200 (mkFeeStructure "s1" "c1" "A" 1000 "202511") /\
  In (mkFeeStructure "s1" "c1" "A" 1000 "202511")
    (feeStructures (snd result)).
Proof. vm_compute. split; [reflexivity | auto]. Qed.

(** [isOneTime: "yes"] is stored as [true]; [isOneTime: "maybe"] fails
    the cast. *)
Example fee_head_one_time :
  fst (FeeCatalog.postFeeHead Sample.written Sample.admin "h9"
         (FeeCatalog.mkFeeHeadBody (Js.Str "Bus Fee") (Js.Str "yes"))
         Sample.db0) =
    Json 201 (mkFeeHead "h9" "s1" "Bus Fee" (Some true)) /\
  FeeCatalog.postFeeHead Sample.written Sample.admin "h9"
    (FeeCatalog.mkFeeHeadBody (Js.Str "Bus Fee") (Js.Str "maybe"))
    Sample.db0 = (Message 500 "Server error", Sample.db0).
Proof. split; reflexivity. Qed.

(** An id that is not an [ObjectId] makes [DELETE /classes/:id] answer
    500; the class of an id that is one is removed. *)
Example class_deleted :
  let withClass :=
    withClasses Sample.db0
      [mkClass "64b7f0c2a1d3e4f5a6b7c8d9" "s1" "Grade 1" "A"] in
  ClassRoutes.deleteClass Sample.validId Sample.admin "c1" withClass =
    (Message 500 "Server error deleting class", withClass) /\
  ClassRoutes.deleteClass Sample.validId Sample.admin
    "64b7f0c2a1d3e4f5a6b7c8d9" withClass =
    (Message 200 "Class deleted successfully", Sample.db0) /\
  ClassRoutes.deleteClass Sample.validId Sample.admin
    "64b7f0c2a1d3e4f5a6b7c8d9" Sample.db0 =
    (Message 404 "Class not found.", Sample.db0).
Proof. repeat split; reflexivity. Qed.

(** The allocation subtracts doubles: 1.1 over dues of 1, 0.1 and 50
    leaves a third item of some 8.3e-17, and the items of 3.07 over a
    due of 1.03 do not add up with the remainder to 3.07. *)
Example allocation_rounds :
  map Allocation.itemHead
    (fst (Allocation.allocatePayment 1.1
            [Allocation.mkDue "A" "Tuition Fee" 1 0 1;
             Allocation.mkDue "B" "Lab Fee" 0.1 0 0.1;
             Allocation.mkDue "C" "Transport" 50 0 50])) = ["A"; "B"; "C"] /\
  Allocation.allocatePayment 3.07
    [Allocation.mkDue "A" "Tuition Fee" 1.03 0 1.03] =
    ([Allocation.mkItem "A" 1.03], 2.04) /\
  (1.03 + 2.04 =? 3.07) = false.
Proof. repeat split; reflexivity. Qed.

End Examples.

